(** * PolyEdge signal pipeline

    A shallow embedding of the decision logic of the PolyEdge backend
    ([src/backend/src]): the [Signal] model and its gain arithmetic, the
    tracker's horizon checkpoints, the four signal rules, the generator's
    quality filter, confidence adjustment and signal materialisation, the
    scanner's per-market isolation loop, market discovery and persistence,
    the rate limiter with the Polymarket fetches behind it, the tracker's
    sweeps over the active signals, and the manual tracking update.

    Conventions of the embedding.
    - A Python [float] is read as an exact rational ([Q]) in the pipeline
      as a whole (generator, tracker, scanner): there the rounding of
      binary64 arithmetic is outside the model.  The functions whose result
      is stated to the last digit, [Signal.calculate_gain] and the three
      rules that compare a quotient with a threshold, are embedded a second
      time in [Binary64], over IEEE 754 binary64 numbers ([F64]), every
      operation rounded to nearest, ties to even.  Comparisons are the
      boolean ones the code branches on.  [x / y] with a divisor that is not
      a literal raises [ZeroDivisionError] when the divisor is zero.
    - A Python [int] is a [Z].
    - A [datetime] is a count of microseconds with a flag telling whether it
      carries a time zone; every clock reading is an explicit argument.  The
      range of [datetime] and of [timedelta] is checked where the rate
      limiter adds the [retry-after] of a response to the clock.
    - [Optional[T]] is [option T]; a raised exception is the [Raise] branch of
      [Py.outcome].
    - An f-string whose text depends on run-time values is a constructor that
      carries those values. *)

From Stdlib Require Import ZArith QArith Qabs Qround Lqa Lia List String Bool.
From Stdlib Require Import Sorted.
From Stdlib Require Import SpecFloat DecimalString.
Import ListNotations.
Open Scope Q_scope.

(* ================================================================== *)
(** ** Python values and operations used by the code *)

Module Py.

(** Exceptions.  [Exception] stands for any subclass of Python's
    [Exception] not listed separately, carrying its [str(e)];
    [BaseException] for those outside [Exception] (task cancellation,
    keyboard interrupt), which [except Exception] does not catch. *)
Inductive exn : Type :=
| ZeroDivisionError
| ValidationError (msg : string)
| Exception (msg : string)
| BaseException (msg : string).

Definition isinstance_Exception (e : exn) : bool :=
  match e with
  | BaseException _ => false
  | _ => true
  end.

Definition str (e : exn) : string :=
  match e with
  | ZeroDivisionError => "float division by zero"
  | ValidationError msg => msg
  | Exception msg => msg
  | BaseException msg => msg
  end.

Inductive outcome (A : Type) : Type :=
| Ok (a : A)
| Raise (e : exn).
Arguments Ok {A} a.
Arguments Raise {A} e.

Definition bind {A B : Type} (m : outcome A) (k : A -> outcome B) : outcome B :=
  match m with
  | Ok a => k a
  | Raise e => Raise e
  end.

(** Comparisons of floats, as booleans. *)
Definition lt (x y : Q) : bool := negb (Qle_bool y x).
Definition le (x y : Q) : bool := Qle_bool x y.
Definition gt (x y : Q) : bool := lt y x.
Definition ge (x y : Q) : bool := le y x.
Definition eq (x y : Q) : bool := Qeq_bool x y.

(** [x / y] for a divisor that may be zero. *)
Definition truediv (x y : Q) : outcome Q :=
  if eq y 0 then Raise ZeroDivisionError else Ok (x / y).

(** [min(a, b)] and [max(a, b)]: the first argument wins a tie. *)
Definition min (a b : Q) : Q := if lt b a then b else a.
Definition max (a b : Q) : Q := if gt b a then b else a.

Definition abs (x : Q) : Q := Qabs x.

Definition float_of_int (n : Z) : Q := inject_Z n.

(** [round(x, 2)]: to the nearest multiple of 0.01, a tie going to the even
    one. *)
Definition round_half_even (x : Q) : Z :=
  let f := Qfloor x in
  let r := x - inject_Z f in
  if lt r 0.5 then f
  else if gt r 0.5 then (f + 1)%Z
  else if Z.even f then f else (f + 1)%Z.

Definition round2 (x : Q) : Q := inject_Z (round_half_even (x * 100)) / 100.

(** [x or d] on an optional float: [None] and [0.0] are both falsy. *)
Definition or_float (x : option Q) (d : Q) : Q :=
  match x with
  | Some v => if eq v 0 then d else v
  | None => d
  end.

Definition is_None {A : Type} (x : option A) : bool :=
  match x with
  | None => true
  | Some _ => false
  end.

End Py.

Declare Scope outcome_scope.
Delimit Scope outcome_scope with outcome.
Notation "x <- m ;; k" := (Py.bind m (fun x => k))
  (at level 61, m at next level, right associativity) : outcome_scope.
Open Scope outcome_scope.

(** [datetime] and [timedelta]. *)
Module datetime.

Record t : Type := mk { micros : Z; tz_aware : bool }.

(** [datetime.now(timezone.utc)] at the clock reading [clock]. *)
Definition now_utc (clock : Z) : t := {| micros := clock; tz_aware := true |}.

(** [d.replace(tzinfo=timezone.utc)] when [d.tzinfo is None], else [d]. *)
Definition assume_utc (d : t) : t :=
  if tz_aware d then d else {| micros := micros d; tz_aware := true |}.

(** [a - b], a [timedelta] in microseconds. *)
Definition sub (a b : t) : Z := (micros a - micros b)%Z.

Definition lt (a b : t) : bool := (micros a <? micros b)%Z.

(** [timedelta.days]: whole days, rounded down. *)
Definition days (delta : Z) : Z := (delta / 86400000000)%Z.

(** [timedelta.total_seconds()]. *)
Definition total_seconds (delta : Z) : Q := inject_Z delta / 1000000.

End datetime.

(* ================================================================== *)
(** ** models/market.py *)

Inductive MarketTier : Type := THIN | LOW | MEDIUM | HIGH.

Definition MarketTier_value (t : MarketTier) : string :=
  match t with
  | THIN => "THIN"
  | LOW => "LOW"
  | MEDIUM => "MEDIUM"
  | HIGH => "HIGH"
  end.

Module Market.

(** The fields of [Market] that the pipeline reads. *)
Record t : Type := mk {
  id : string;
  question : string;
  slug : option string;
  closed : bool;
  archived : bool;
  accepting_orders : bool;
  end_date : option datetime.t;
  volume : Q;
  volume_24h : Q;
  liquidity : Q;
  tier : option MarketTier;
  current_price : option Q
}.

Definition compute_tier (self : t) : MarketTier :=
  if Py.lt (volume self) 10000 then THIN
  else if Py.lt (volume self) 27000 then LOW
  else if Py.lt (volume self) 95000 then MEDIUM
  else HIGH.

(** [market.tier or market.compute_tier()]: every tier is a non-empty
    string, hence truthy. *)
Definition tier_or_computed (self : t) : MarketTier :=
  match tier self with
  | Some x => x
  | None => compute_tier self
  end.

End Market.

(** ** models/news.py, models/social.py *)

Module NewsSentiment.
Record t : Type := mk { sentiment_score : Q; article_count : Z }.
End NewsSentiment.

Module SocialMention.
Record t : Type := mk { mention_count_1h : Z; mention_count_24h : Z }.
End SocialMention.

Module SocialSentiment.
Record t : Type := mk { sentiment_score : Q }.
End SocialSentiment.

(* ================================================================== *)
(** ** models/signal.py *)

Inductive SignalType : Type :=
| SENTIMENT_DIVERGENCE | VOLUME_SURGE | SOCIAL_SPIKE | PRICE_MOMENTUM | ARBITRAGE.

Inductive SignalDirection : Type := BUY | SELL.

Inductive SignalStatus : Type := ACTIVE | RESOLVED_WIN | RESOLVED_LOSS | EXPIRED.

(** The reasoning f-strings of the rules, by the values they format. *)
Inductive Reasoning : Type :=
| StronglyPositiveNews (sentiment price : Q) (article_count : Z) (divergence : Q)
| StronglyNegativeNews (sentiment price : Q) (article_count : Z) (divergence : Q)
| VolumeSurgedRising (volume_ratio previous_volume_24h volume_24h price_change : Q)
| VolumeSurgedFalling (volume_ratio previous_volume_24h volume_24h price_change : Q)
| MentionsSpikedPositive (hourly_ratio : Q) (mention_count_1h : Z) (avg_hourly sentiment : Q)
| MentionsSpikedNegative (hourly_ratio : Q) (mention_count_1h : Z) (avg_hourly sentiment : Q)
| PriceJumped (price_change : Q) (vol_note : option Q)
| PriceDropped (price_change : Q) (vol_note : option Q).

Definition UUID : Type := N.

Module Signal.

Record t : Type := mk {
  id : UUID;
  created_at : datetime.t;
  market_id : string;
  market_question : string;
  market_slug : option string;
  market_end_date : option datetime.t;
  signal_type : SignalType;
  direction : SignalDirection;
  confidence : Q;
  reasoning : Reasoning;
  entry_price : Q;
  entry_volume_24h : Q;
  entry_volume_total : Q;
  entry_liquidity : Q;
  market_tier : MarketTier;
  news_sentiment_score : option Q;
  social_mention_count_24h : option Z;
  social_sentiment_score : option Q;
  price_1h : option Q;
  price_24h : option Q;
  price_7d : option Q;
  price_at_resolution : option Q;
  gain_1h_pct : option Q;
  gain_24h_pct : option Q;
  gain_7d_pct : option Q;
  gain_final_pct : option Q;
  status : SignalStatus;
  resolved_at : option datetime.t
}.

(** Attribute assignments [self.f = v]. *)
Definition set_news_sentiment_score (v : option Q) (s : t) : t :=
  mk (id s) (created_at s) (market_id s) (market_question s) (market_slug s)
     (market_end_date s) (signal_type s) (direction s) (confidence s) (reasoning s)
     (entry_price s) (entry_volume_24h s) (entry_volume_total s) (entry_liquidity s)
     (market_tier s) v (social_mention_count_24h s) (social_sentiment_score s)
     (price_1h s) (price_24h s) (price_7d s) (price_at_resolution s)
     (gain_1h_pct s) (gain_24h_pct s) (gain_7d_pct s) (gain_final_pct s)
     (status s) (resolved_at s).

Definition set_social_mention_count_24h (v : option Z) (s : t) : t :=
  mk (id s) (created_at s) (market_id s) (market_question s) (market_slug s)
     (market_end_date s) (signal_type s) (direction s) (confidence s) (reasoning s)
     (entry_price s) (entry_volume_24h s) (entry_volume_total s) (entry_liquidity s)
     (market_tier s) (news_sentiment_score s) v (social_sentiment_score s)
     (price_1h s) (price_24h s) (price_7d s) (price_at_resolution s)
     (gain_1h_pct s) (gain_24h_pct s) (gain_7d_pct s) (gain_final_pct s)
     (status s) (resolved_at s).

(** The tracking block: the eight price and gain fields, the status and the
    resolution time. *)
Definition with_tracking (s : t)
    (p1 p24 p7 pr g1 g24 g7 gf : option Q) (st : SignalStatus)
    (ra : option datetime.t) : t :=
  mk (id s) (created_at s) (market_id s) (market_question s) (market_slug s)
     (market_end_date s) (signal_type s) (direction s) (confidence s) (reasoning s)
     (entry_price s) (entry_volume_24h s) (entry_volume_total s) (entry_liquidity s)
     (market_tier s) (news_sentiment_score s) (social_mention_count_24h s)
     (social_sentiment_score s)
     p1 p24 p7 pr g1 g24 g7 gf st ra.

Definition set_price_1h (v : option Q) (s : t) : t :=
  with_tracking s v (price_24h s) (price_7d s) (price_at_resolution s)
    (gain_1h_pct s) (gain_24h_pct s) (gain_7d_pct s) (gain_final_pct s)
    (status s) (resolved_at s).
Definition set_price_24h (v : option Q) (s : t) : t :=
  with_tracking s (price_1h s) v (price_7d s) (price_at_resolution s)
    (gain_1h_pct s) (gain_24h_pct s) (gain_7d_pct s) (gain_final_pct s)
    (status s) (resolved_at s).
Definition set_price_7d (v : option Q) (s : t) : t :=
  with_tracking s (price_1h s) (price_24h s) v (price_at_resolution s)
    (gain_1h_pct s) (gain_24h_pct s) (gain_7d_pct s) (gain_final_pct s)
    (status s) (resolved_at s).
Definition set_price_at_resolution (v : option Q) (s : t) : t :=
  with_tracking s (price_1h s) (price_24h s) (price_7d s) v
    (gain_1h_pct s) (gain_24h_pct s) (gain_7d_pct s) (gain_final_pct s)
    (status s) (resolved_at s).
Definition set_gain_1h_pct (v : option Q) (s : t) : t :=
  with_tracking s (price_1h s) (price_24h s) (price_7d s) (price_at_resolution s)
    v (gain_24h_pct s) (gain_7d_pct s) (gain_final_pct s)
    (status s) (resolved_at s).
Definition set_gain_24h_pct (v : option Q) (s : t) : t :=
  with_tracking s (price_1h s) (price_24h s) (price_7d s) (price_at_resolution s)
    (gain_1h_pct s) v (gain_7d_pct s) (gain_final_pct s)
    (status s) (resolved_at s).
Definition set_gain_7d_pct (v : option Q) (s : t) : t :=
  with_tracking s (price_1h s) (price_24h s) (price_7d s) (price_at_resolution s)
    (gain_1h_pct s) (gain_24h_pct s) v (gain_final_pct s)
    (status s) (resolved_at s).
Definition set_gain_final_pct (v : option Q) (s : t) : t :=
  with_tracking s (price_1h s) (price_24h s) (price_7d s) (price_at_resolution s)
    (gain_1h_pct s) (gain_24h_pct s) (gain_7d_pct s) v
    (status s) (resolved_at s).
Definition set_status (v : SignalStatus) (s : t) : t :=
  with_tracking s (price_1h s) (price_24h s) (price_7d s) (price_at_resolution s)
    (gain_1h_pct s) (gain_24h_pct s) (gain_7d_pct s) (gain_final_pct s)
    v (resolved_at s).
Definition set_resolved_at (v : option datetime.t) (s : t) : t :=
  with_tracking s (price_1h s) (price_24h s) (price_7d s) (price_at_resolution s)
    (gain_1h_pct s) (gain_24h_pct s) (gain_7d_pct s) (gain_final_pct s)
    (status s) v.

(** The constraints of the field declarations ([ge], [le]), checked when a
    [Signal] is constructed; attribute assignments are not checked. *)
Definition in_range (lo hi x : Q) : bool := Py.ge x lo && Py.le x hi.

Definition optional_in_range (lo hi : Q) (x : option Q) : bool :=
  match x with
  | None => true
  | Some v => in_range lo hi v
  end.

Definition validate (s : t) : Py.outcome t :=
  if negb (in_range 0 1 (confidence s)) then
    Py.Raise (Py.ValidationError "confidence")
  else if negb (in_range 0 1 (entry_price s)) then
    Py.Raise (Py.ValidationError "entry_price")
  else if negb (optional_in_range (-1) 1 (news_sentiment_score s)) then
    Py.Raise (Py.ValidationError "news_sentiment_score")
  else if negb (optional_in_range (-1) 1 (social_sentiment_score s)) then
    Py.Raise (Py.ValidationError "social_sentiment_score")
  else Py.Ok s.

(** [Signal.calculate_gain]. *)
Definition calculate_gain (self : t) (current_price : Q) : Py.outcome Q :=
  match direction self with
  | BUY =>
      q <- Py.truediv (current_price - entry_price self) (entry_price self) ;;
      Py.Ok (q * 100)
  | SELL =>
      q <- Py.truediv (entry_price self - current_price) (entry_price self) ;;
      Py.Ok (q * 100)
  end.

(** [Signal.update_tracking]: the gain is computed first, then one branch
    of the [if]/[elif] chain runs. *)
Definition update_tracking (self : t) (current_price hours_since_signal : Q)
  : Py.outcome t :=
  gain <- calculate_gain self current_price ;;
  if Py.ge hours_since_signal 1 && Py.is_None (price_1h self) then
    Py.Ok (set_gain_1h_pct (Some gain) (set_price_1h (Some current_price) self))
  else if Py.ge hours_since_signal 24 && Py.is_None (price_24h self) then
    Py.Ok (set_gain_24h_pct (Some gain) (set_price_24h (Some current_price) self))
  else if Py.ge hours_since_signal 168 && Py.is_None (price_7d self) then
    Py.Ok (set_gain_7d_pct (Some gain) (set_price_7d (Some current_price) self))
  else Py.Ok self.

(** [Signal.resolve]: the signal as the call leaves it, and what the call
    gives; [clock] is the reading of [datetime.utcnow], which carries no time
    zone. *)
Definition resolve (clock : Z) (final_price : Q) (is_win : bool) (self : t)
  : t * Py.outcome t :=
  let self := set_price_at_resolution (Some final_price) self in
  match calculate_gain self final_price with
  | Py.Raise e => (self, Py.Raise e)
  | Py.Ok gain =>
      let self := set_gain_final_pct (Some gain) self in
      let self := set_status (if is_win then RESOLVED_WIN else RESOLVED_LOSS) self in
      let self :=
        set_resolved_at
          (Some {| datetime.micros := clock; datetime.tz_aware := false |}) self in
      (self, Py.Ok self)
  end.

End Signal.

(* ================================================================== *)
(** ** services/data_sources/polymarket.py *)

(** [is_market_current], at the clock reading [clock]. *)
Definition is_market_current (clock : Z) (market : Market.t) : bool :=
  if Market.closed market then false
  else if Market.archived market then false
  else if negb (Market.accepting_orders market) then false
  else
    match Market.end_date market with
    | Some end_date =>
        let end_date := datetime.assume_utc end_date in
        if datetime.lt end_date (datetime.now_utc clock) then false else true
    | None => true
    end.

(* ================================================================== *)
(** ** services/tracking/tracker.py *)

Module SignalTracker.

(** What one call of [update_signal_tracking] observes of its
    collaborators: the result of [market_source.get_market], the three
    clock readings (inside [is_market_current], for [now], and inside
    [_resolve_signal]) and the result of [db.update_signal]. *)
Record tick : Type := mkTick {
  get_market : Py.outcome (option Market.t);
  clock_is_current : Z;
  clock_now : Z;
  clock_resolved : Z;
  update_signal : Py.outcome unit
}.

(** The state a call works on: the signal object, mutated in place, and the
    signals handed to [db.update_signal] so far. *)
Record state : Type := mkState {
  signal : Signal.t;
  db_updates : list Signal.t
}.

(** State and exceptions: a raise keeps the mutations made before it. *)
Definition M (A : Type) : Type := state -> state * Py.outcome A.

Definition ret {A : Type} (a : A) : M A := fun st => (st, Py.Ok a).

Definition bind {A B : Type} (m : M A) (k : A -> M B) : M B :=
  fun st =>
    match m st with
    | (st', Py.Ok a) => k a st'
    | (st', Py.Raise e) => (st', Py.Raise e)
    end.

Definition lift {A : Type} (o : Py.outcome A) : M A := fun st => (st, o).

Definition read {A : Type} (f : Signal.t -> A) : M A :=
  fun st => (st, Py.Ok (f (signal st))).

Definition assign (f : Signal.t -> Signal.t) : M unit :=
  fun st => (mkState (f (signal st)) (db_updates st), Py.Ok tt).

Definition calculate_gain (price : Q) : M Q :=
  fun st => (st, Signal.calculate_gain (signal st) price).

Definition db_update_signal (result : Py.outcome unit) : M unit :=
  fun st => (mkState (signal st) (db_updates st ++ [signal st]), result).

Declare Scope tracker_scope.
Notation "x <- m ;; k" := (bind m (fun x => k))
  (at level 61, m at next level, right associativity) : tracker_scope.
Notation "m ;;; k" := (bind m (fun _ => k))
  (at level 61, right associativity) : tracker_scope.
Local Open Scope tracker_scope.

(** [_resolve_signal]. *)
Definition _resolve_signal (market : Market.t) (clock : Z) : M unit :=
  match Market.current_price market with
  | None => ret tt
  | Some final_price =>
      gain <- calculate_gain final_price ;;
      let is_win := Py.gt gain 0 in
      assign (Signal.set_price_at_resolution (Some final_price)) ;;;
      assign (Signal.set_gain_final_pct (Some gain)) ;;;
      assign (Signal.set_status (if is_win then RESOLVED_WIN else RESOLVED_LOSS)) ;;;
      assign (Signal.set_resolved_at (Some (datetime.now_utc clock)))
  end.

(** [(now - created_at).total_seconds() / 3600]. *)
Definition hours_since (clock : Z) (created_at : datetime.t) : Q :=
  datetime.total_seconds
    (datetime.sub (datetime.now_utc clock) (datetime.assume_utc created_at)) / 3600.

(** The three horizon checkpoints of [update_signal_tracking], one per [if]
    statement; each takes the [updated] flag and returns it. *)
Definition checkpoint_1h (hours_since_signal current_price : Q) (updated : bool)
  : M bool :=
  p1 <- read Signal.price_1h ;;
  if Py.ge hours_since_signal 1 && Py.is_None p1 then
    assign (Signal.set_price_1h (Some current_price)) ;;;
    g <- calculate_gain current_price ;;
    assign (Signal.set_gain_1h_pct (Some g)) ;;;
    ret true
  else ret updated.

Definition checkpoint_24h (hours_since_signal current_price : Q) (updated : bool)
  : M bool :=
  p24 <- read Signal.price_24h ;;
  if Py.ge hours_since_signal 24 && Py.is_None p24 then
    assign (Signal.set_price_24h (Some current_price)) ;;;
    g <- calculate_gain current_price ;;
    assign (Signal.set_gain_24h_pct (Some g)) ;;;
    ret true
  else ret updated.

Definition checkpoint_7d (hours_since_signal current_price : Q) (updated : bool)
  : M bool :=
  p7 <- read Signal.price_7d ;;
  if Py.ge hours_since_signal 168 && Py.is_None p7 then
    assign (Signal.set_price_7d (Some current_price)) ;;;
    g <- calculate_gain current_price ;;
    assign (Signal.set_gain_7d_pct (Some g)) ;;;
    ret true
  else ret updated.

(** The horizon-filling step: the three checkpoints in increasing order,
    starting from [updated = False]. *)
Definition fill_horizons (hours_since_signal current_price : Q) : M bool :=
  updated <- checkpoint_1h hours_since_signal current_price false ;;
  updated <- checkpoint_24h hours_since_signal current_price updated ;;
  checkpoint_7d hours_since_signal current_price updated.

Definition is_ACTIVE (st : SignalStatus) : bool :=
  match st with
  | ACTIVE => true
  | _ => false
  end.

(** [update_signal_tracking]. *)
Definition update_signal_tracking (tk : tick) : M unit :=
  market <- lift (get_market tk) ;;
  match market with
  | None => ret tt
  | Some market =>
      match Market.current_price market with
      | None => ret tt
      | Some current_price =>
          if negb (is_market_current (clock_is_current tk) market) then
            status <- read Signal.status ;;
            if Market.closed market && is_ACTIVE status then
              _resolve_signal market (clock_resolved tk) ;;;
              db_update_signal (update_signal tk)
            else ret tt
          else
            created_at <- read Signal.created_at ;;
            let hours_since_signal := hours_since (clock_now tk) created_at in
            updated <- fill_horizons hours_since_signal current_price ;;
            status <- read Signal.status ;;
            updated <-
              (if Market.closed market && is_ACTIVE status then
                 _resolve_signal market (clock_resolved tk) ;;;
                 ret true
               else ret updated) ;;
            if updated then db_update_signal (update_signal tk) else ret tt
      end
  end.

(** Successive calls on the same signal object; as in
    [update_all_active_signals], an exception of one call is logged and the
    next call goes ahead. *)
Fixpoint run_ticks (ticks : list tick) (st : state) : state :=
  match ticks with
  | [] => st
  | tk :: rest => run_ticks rest (fst (update_signal_tracking tk st))
  end.

(** The elapsed hours a tick computes for a signal. *)
Definition elapsed (tk : tick) (s : Signal.t) : Q :=
  hours_since (clock_now tk) (Signal.created_at s).

(** [update_all_active_signals].  [active_signals] are the signals that
    [db.get_active_signals] returned, each with what its call of
    [update_signal_tracking] observes; [writes] are the signals handed to
    [db.update_signal] so far.  The loop gives the signals as the sweep
    leaves them, the store writes and the count. *)
Fixpoint update_loop (active_signals : list (Signal.t * tick)) (writes : list Signal.t)
    (updated_count : Z) : list Signal.t * list Signal.t * Py.outcome Z :=
  match active_signals with
  | [] => ([], writes, Py.Ok updated_count)
  | (signal, tk) :: rest =>
      match update_signal_tracking tk (mkState signal writes) with
      | (st, Py.Ok _) =>
          let '(signals, writes, count) :=
            update_loop rest (db_updates st) (updated_count + 1) in
          (SignalTracker.signal st :: signals, writes, count)
      | (st, Py.Raise e) =>
          if Py.isinstance_Exception e then
            let '(signals, writes, count) :=
              update_loop rest (db_updates st) updated_count in
            (SignalTracker.signal st :: signals, writes, count)
          else (SignalTracker.signal st :: map fst rest, db_updates st, Py.Raise e)
      end
  end.

Definition update_all_active_signals
    (get_active_signals : Py.outcome (list (Signal.t * tick)))
  : list Signal.t * list Signal.t * Py.outcome Z :=
  match get_active_signals with
  | Py.Raise e => ([], [], Py.Raise e)
  | Py.Ok active_signals => update_loop active_signals [] 0
  end.

(** What [expire_stale_signals] observes while it expires one signal: the
    clock reading for [resolved_at] and the result of [db.update_signal]. *)
Record expiry : Type := mkExpiry {
  clock_expired : Z;
  update_expired : Py.outcome unit
}.

(** [datetime.now(timezone.utc) - timedelta(days=max_age_days)]. *)
Definition cutoff (clock : Z) (max_age_days : Z) : datetime.t :=
  {| datetime.micros := (clock - max_age_days * 86400000000)%Z;
     datetime.tz_aware := true |}.

(** The loop of [expire_stale_signals]; [db.update_signal] is not guarded,
    an exception of it ends the loop. *)
Fixpoint expire_loop (cutoff : datetime.t) (active_signals : list (Signal.t * expiry))
    (writes : list Signal.t) (expired_count : Z)
  : list Signal.t * list Signal.t * Py.outcome Z :=
  match active_signals with
  | [] => ([], writes, Py.Ok expired_count)
  | (signal, obs) :: rest =>
      let created_at := datetime.assume_utc (Signal.created_at signal) in
      if datetime.lt created_at cutoff then
        let signal := Signal.set_status EXPIRED signal in
        let signal :=
          Signal.set_resolved_at (Some (datetime.now_utc (clock_expired obs))) signal in
        match update_expired obs with
        | Py.Ok _ =>
            let '(signals, writes, count) :=
              expire_loop cutoff rest (writes ++ [signal]) (expired_count + 1) in
            (signal :: signals, writes, count)
        | Py.Raise e => (signal :: map fst rest, writes ++ [signal], Py.Raise e)
        end
      else
        let '(signals, writes, count) := expire_loop cutoff rest writes expired_count in
        (signal :: signals, writes, count)
  end.

(** [expire_stale_signals]; [clock] is the reading the cutoff is taken
    from. *)
Definition expire_stale_signals (clock : Z) (max_age_days : Z)
    (get_active_signals : Py.outcome (list (Signal.t * expiry)))
  : list Signal.t * list Signal.t * Py.outcome Z :=
  match get_active_signals with
  | Py.Raise e => ([], [], Py.Raise e)
  | Py.Ok active_signals =>
      expire_loop (cutoff clock max_age_days) active_signals [] 0
  end.

End SignalTracker.

(* ================================================================== *)
(** ** config.py *)

Module Settings.

(** The settings the pipeline reads. *)
Record t : Type := mk {
  sentiment_divergence_threshold : Q;
  volume_surge_multiplier : Q;
  social_spike_multiplier : Q;
  price_momentum_threshold : Q;
  signal_min_confidence : Q;
  min_days_to_expiry : Z;
  min_market_tier : string;
  min_price_for_signals : Q;
  max_price_for_signals : Q;
  min_sentiment_strength : Q;
  min_article_count : Z;
  skip_news_api : bool;
  skip_social_api : bool
}.

(** The defaults of the class body. *)
Definition default : t := {|
  sentiment_divergence_threshold := 0.20;
  volume_surge_multiplier := 3.0;
  social_spike_multiplier := 5.0;
  price_momentum_threshold := 0.10;
  signal_min_confidence := 0.5;
  min_days_to_expiry := 7;
  min_market_tier := "LOW";
  min_price_for_signals := 0.05;
  max_price_for_signals := 0.95;
  min_sentiment_strength := 0.3;
  min_article_count := 5;
  skip_news_api := false;
  skip_social_api := true
|}.

End Settings.

(* ================================================================== *)
(** ** services/signals/rules.py *)

Module SignalCandidate.

Record t : Type := mk {
  signal_type : SignalType;
  direction : SignalDirection;
  confidence : Q;
  reasoning : Reasoning;
  news_sentiment_score : option Q;
  social_mention_count_24h : option Z;
  social_sentiment_score : option Q
}.

Definition set_confidence (v : Q) (c : t) : t :=
  mk (signal_type c) (direction c) v (reasoning c) (news_sentiment_score c)
     (social_mention_count_24h c) (social_sentiment_score c).

End SignalCandidate.

(** The interface of [SignalRule.evaluate]: market, news sentiment, social
    mentions, social sentiment, previous price, previous 24h volume. *)
Definition SignalRule : Type :=
  Market.t -> option NewsSentiment.t -> option SocialMention.t ->
  option SocialSentiment.t -> option Q -> option Q ->
  Py.outcome (option SignalCandidate.t).

Module SentimentDivergenceRule.

Record t : Type := mk {
  threshold : Q;
  min_sentiment_strength : Q;
  min_article_count : Z
}.

(** [__init__]: [threshold or settings.sentiment_divergence_threshold]. *)
Definition init (settings : Settings.t) (threshold : option Q) : t := {|
  threshold := Py.or_float threshold (Settings.sentiment_divergence_threshold settings);
  min_sentiment_strength := Settings.min_sentiment_strength settings;
  min_article_count := Settings.min_article_count settings
|}.

(** The direction branch of [evaluate]: direction, reasoning and divergence,
    or [None] where the code returns [None]. *)
Definition branch (self : t) (sentiment price : Q) (article_count : Z)
  : option (SignalDirection * Reasoning * Q) :=
  if Py.gt sentiment (min_sentiment_strength self) then
    if Py.gt price 0.70 then None
    else
      let price_expectation := 0.5 + sentiment * 0.3 in
      let divergence := price_expectation - price in
      if Py.lt divergence (threshold self) then None
      else Some (BUY, StronglyPositiveNews sentiment price article_count divergence,
                 divergence)
  else
    if Py.lt price 0.30 then None
    else
      let price_expectation := 0.5 + sentiment * 0.3 in
      let divergence := price - price_expectation in
      if Py.lt divergence (threshold self) then None
      else Some (SELL, StronglyNegativeNews sentiment price article_count divergence,
                 divergence).

Definition evaluate (self : t) (market : Market.t)
    (news_sentiment : option NewsSentiment.t) : option SignalCandidate.t :=
  match news_sentiment, Market.current_price market with
  | Some news_sentiment, Some price =>
      let sentiment := NewsSentiment.sentiment_score news_sentiment in
      let article_count := NewsSentiment.article_count news_sentiment in
      if Py.lt (Py.abs sentiment) (min_sentiment_strength self) then None
      else if (article_count <? min_article_count self)%Z then None
      else if Py.lt price 0.05 || Py.gt price 0.95 then None
      else
        match branch self sentiment price article_count with
        | None => None
        | Some (direction, reasoning, divergence) =>
            let sentiment_factor := Py.min 1.0 (Py.abs sentiment / 0.6) in
            let divergence_factor := Py.min 1.0 (divergence / 0.30) in
            let article_factor := Py.min 1.0 (Py.float_of_int article_count / 15) in
            let confidence :=
              sentiment_factor * 0.4 + divergence_factor * 0.4 + article_factor * 0.2 in
            let confidence := Py.max 0.3 (Py.min 0.9 confidence) in
            Some {|
              SignalCandidate.signal_type := SENTIMENT_DIVERGENCE;
              SignalCandidate.direction := direction;
              SignalCandidate.confidence := Py.round2 confidence;
              SignalCandidate.reasoning := reasoning;
              SignalCandidate.news_sentiment_score := Some sentiment;
              SignalCandidate.social_mention_count_24h := None;
              SignalCandidate.social_sentiment_score := None
            |}
        end
  | _, _ => None
  end.

Definition rule (self : t) : SignalRule :=
  fun market news_sentiment _ _ _ _ => Py.Ok (evaluate self market news_sentiment).

End SentimentDivergenceRule.

Module VolumeSurgeRule.

Record t : Type := mk {
  volume_multiplier : Q;
  price_change_threshold : Q
}.

(** [__init__]: [volume_multiplier or settings.volume_surge_multiplier];
    [price_change_threshold] defaults to 0.05. *)
Definition init (settings : Settings.t) (volume_multiplier : option Q)
    (price_change_threshold : option Q) : t := {|
  volume_multiplier :=
    Py.or_float volume_multiplier (Settings.volume_surge_multiplier settings);
  price_change_threshold :=
    match price_change_threshold with
    | Some x => x
    | None => 0.05
    end
|}.

Definition evaluate (self : t) (market : Market.t)
    (previous_price previous_volume_24h : option Q)
  : Py.outcome (option SignalCandidate.t) :=
  match previous_price, previous_volume_24h with
  | Some previous_price, Some previous_volume_24h =>
      match Market.current_price market with
      | None => Py.Ok None
      | Some current_price =>
          if Py.eq previous_volume_24h 0 then Py.Ok None
          else
            volume_ratio <- Py.truediv (Market.volume_24h market) previous_volume_24h ;;
            if Py.lt volume_ratio (volume_multiplier self) then Py.Ok None
            else
              price_change <- Py.truediv (current_price - previous_price) previous_price ;;
              if Py.lt (Py.abs price_change) (price_change_threshold self) then Py.Ok None
              else
                let (direction, reasoning) :=
                  if Py.gt price_change 0 then
                    (BUY, VolumeSurgedRising volume_ratio previous_volume_24h
                            (Market.volume_24h market) price_change)
                  else
                    (SELL, VolumeSurgedFalling volume_ratio previous_volume_24h
                             (Market.volume_24h market) price_change) in
                let confidence :=
                  Py.min 1.0 ((volume_ratio - volume_multiplier self) / 2 + 0.5) in
                Py.Ok (Some {|
                  SignalCandidate.signal_type := VOLUME_SURGE;
                  SignalCandidate.direction := direction;
                  SignalCandidate.confidence := Py.round2 confidence;
                  SignalCandidate.reasoning := reasoning;
                  SignalCandidate.news_sentiment_score := None;
                  SignalCandidate.social_mention_count_24h := None;
                  SignalCandidate.social_sentiment_score := None
                |})
      end
  | _, _ => Py.Ok None
  end.

Definition rule (self : t) : SignalRule :=
  fun market _ _ _ previous_price previous_volume_24h =>
    evaluate self market previous_price previous_volume_24h.

End VolumeSurgeRule.

Module SocialSpikeRule.

Record t : Type := mk {
  mention_multiplier : Q;
  sentiment_threshold : Q
}.

(** [__init__]: [mention_multiplier or settings.social_spike_multiplier];
    [sentiment_threshold] defaults to 0.3. *)
Definition init (settings : Settings.t) (mention_multiplier : option Q)
    (sentiment_threshold : option Q) : t := {|
  mention_multiplier :=
    Py.or_float mention_multiplier (Settings.social_spike_multiplier settings);
  sentiment_threshold :=
    match sentiment_threshold with
    | Some x => x
    | None => 0.3
    end
|}.

(** [mention_count_24h / 24 if mention_count_24h else 1]. *)
Definition avg_hourly (social_mentions : SocialMention.t) : Q :=
  if (SocialMention.mention_count_24h social_mentions =? 0)%Z then 1
  else Py.float_of_int (SocialMention.mention_count_24h social_mentions) / 24.

(** [mention_count_1h / avg_hourly if avg_hourly > 0 else 0]. *)
Definition hourly_ratio (social_mentions : SocialMention.t) : Py.outcome Q :=
  if Py.gt (avg_hourly social_mentions) 0 then
    Py.truediv (Py.float_of_int (SocialMention.mention_count_1h social_mentions))
               (avg_hourly social_mentions)
  else Py.Ok 0.

Definition evaluate (self : t)
    (social_mentions : option SocialMention.t)
    (social_sentiment : option SocialSentiment.t)
  : Py.outcome (option SignalCandidate.t) :=
  match social_mentions, social_sentiment with
  | Some social_mentions, Some social_sentiment =>
      let score := SocialSentiment.sentiment_score social_sentiment in
      hourly_ratio <- hourly_ratio social_mentions ;;
      if Py.lt hourly_ratio (mention_multiplier self) then Py.Ok None
      else if Py.lt (Py.abs score) (sentiment_threshold self) then Py.Ok None
      else
        let (direction, reasoning) :=
          if Py.gt score 0 then
            (BUY, MentionsSpikedPositive hourly_ratio
                    (SocialMention.mention_count_1h social_mentions)
                    (avg_hourly social_mentions) score)
          else
            (SELL, MentionsSpikedNegative hourly_ratio
                     (SocialMention.mention_count_1h social_mentions)
                     (avg_hourly social_mentions) score) in
        q <- Py.truediv (hourly_ratio - mention_multiplier self) (mention_multiplier self) ;;
        let spike_confidence := Py.min 1.0 (q + 0.5) in
        let sentiment_confidence := Py.abs score in
        let confidence := (spike_confidence + sentiment_confidence) / 2 in
        Py.Ok (Some {|
          SignalCandidate.signal_type := SOCIAL_SPIKE;
          SignalCandidate.direction := direction;
          SignalCandidate.confidence := Py.round2 confidence;
          SignalCandidate.reasoning := reasoning;
          SignalCandidate.news_sentiment_score := None;
          SignalCandidate.social_mention_count_24h :=
            Some (SocialMention.mention_count_24h social_mentions);
          SignalCandidate.social_sentiment_score := Some score
        |})
  | _, _ => Py.Ok None
  end.

Definition rule (self : t) : SignalRule :=
  fun _ _ social_mentions social_sentiment _ _ =>
    evaluate self social_mentions social_sentiment.

End SocialSpikeRule.

Module PriceMomentumRule.

Record t : Type := mk {
  price_threshold : Q;
  min_volume_ratio : Q
}.

(** [__init__]: [price_threshold or settings.price_momentum_threshold];
    [min_volume_ratio] defaults to 1.5. *)
Definition init (settings : Settings.t) (price_threshold : option Q)
    (min_volume_ratio : option Q) : t := {|
  price_threshold :=
    Py.or_float price_threshold (Settings.price_momentum_threshold settings);
  min_volume_ratio :=
    match min_volume_ratio with
    | Some x => x
    | None => 1.5
    end
|}.

(** The volume confirmation: [Some volume_ratio] when confirmed. *)
Definition volume_confirmation (self : t) (market : Market.t)
    (previous_volume_24h : option Q) : Py.outcome (option Q) :=
  match previous_volume_24h with
  | Some pv =>
      if negb (Py.eq pv 0) && Py.gt pv 0 then
        volume_ratio <- Py.truediv (Market.volume_24h market) pv ;;
        Py.Ok (if Py.ge volume_ratio (min_volume_ratio self)
               then Some volume_ratio else None)
      else Py.Ok None
  | None => Py.Ok None
  end.

Definition evaluate (self : t) (market : Market.t)
    (previous_price previous_volume_24h : option Q)
  : Py.outcome (option SignalCandidate.t) :=
  match previous_price, Market.current_price market with
  | Some previous_price, Some current_price =>
      price_change <- Py.truediv (current_price - previous_price) previous_price ;;
      if Py.lt (Py.abs price_change) (price_threshold self) then Py.Ok None
      else
        vol_note <- volume_confirmation self market previous_volume_24h ;;
        let volume_confirmed := negb (Py.is_None vol_note) in
        if negb volume_confirmed
           && Py.lt (Py.abs price_change) (price_threshold self * 1.5)
        then Py.Ok None
        else
          let (direction, reasoning) :=
            if Py.gt price_change 0 then (BUY, PriceJumped price_change vol_note)
            else (SELL, PriceDropped price_change vol_note) in
          q <- Py.truediv (Py.abs price_change) (price_threshold self) ;;
          let base_confidence := Py.min 1.0 (q * 0.5) in
          let base_confidence :=
            if volume_confirmed then base_confidence + 0.3 else base_confidence in
          let confidence := Py.min 1.0 base_confidence in
          Py.Ok (Some {|
            SignalCandidate.signal_type := PRICE_MOMENTUM;
            SignalCandidate.direction := direction;
            SignalCandidate.confidence := Py.round2 confidence;
            SignalCandidate.reasoning := reasoning;
            SignalCandidate.news_sentiment_score := None;
            SignalCandidate.social_mention_count_24h := None;
            SignalCandidate.social_sentiment_score := None
          |})
  | _, _ => Py.Ok None
  end.

Definition rule (self : t) : SignalRule :=
  fun market _ _ _ previous_price previous_volume_24h =>
    evaluate self market previous_price previous_volume_24h.

End PriceMomentumRule.

(* ================================================================== *)
(** ** services/signals/generator.py *)

Module SignalGenerator.

(** The reason returned by [should_skip_market]: a literal, or one of the
    four formatted messages with the values it formats. *)
Inductive SkipReason : Type :=
| ReasonText (text : string)
| ExpiresInDays (days_to_expiry min_days_to_expiry : Z)
| TierBelowMinimum (tier_value min_market_tier : string)
| PriceBelowMinimum (current_price min_price_for_signals : Q)
| PriceAboveMaximum (current_price max_price_for_signals : Q).

Record t : Type := mk {
  db_client : option (Signal.t -> Py.outcome unit);
  min_confidence : Q;
  rules : list SignalRule;
  _previous_states : list (string * (Q * Q));
  _settings : Settings.t
}.

(** [__init__]. *)
Definition init (settings : Settings.t)
    (db_client : option (Signal.t -> Py.outcome unit)) (min_confidence : Q) : t := {|
  db_client := db_client;
  min_confidence := min_confidence;
  rules := [
    SentimentDivergenceRule.rule (SentimentDivergenceRule.init settings None);
    VolumeSurgeRule.rule (VolumeSurgeRule.init settings None None);
    SocialSpikeRule.rule (SocialSpikeRule.init settings None None);
    PriceMomentumRule.rule (PriceMomentumRule.init settings None None)
  ];
  _previous_states := [];
  _settings := settings
|}.

(** [str.upper()] on the letters a-z. *)
Definition upper_char (c : Ascii.ascii) : Ascii.ascii :=
  let n := Ascii.nat_of_ascii c in
  if (97 <=? n)%nat && (n <=? 122)%nat then Ascii.ascii_of_nat (n - 32) else c.

Fixpoint upper (s : string) : string :=
  match s with
  | EmptyString => EmptyString
  | String c rest => String (upper_char c) (upper rest)
  end.

(** [tier_order.get(key, default)]. *)
Definition tier_order_get (key : string) (default : Z) : Z :=
  if String.eqb key "THIN" then 0%Z
  else if String.eqb key "LOW" then 1%Z
  else if String.eqb key "MEDIUM" then 2%Z
  else if String.eqb key "HIGH" then 3%Z
  else default.

(** [(end_date - now).days], after the time-zone normalisation. *)
Definition days_to_expiry (clock : Z) (end_date : datetime.t) : Z :=
  datetime.days (datetime.sub (datetime.assume_utc end_date) (datetime.now_utc clock)).

(** The [if market.end_date:] block of [should_skip_market]: the reason it
    returns with, or [None] when control falls through. *)
Definition expiry_skip (settings : Settings.t) (clock : Z) (market : Market.t)
  : option SkipReason :=
  match Market.end_date market with
  | Some end_date =>
      let days_to_expiry := days_to_expiry clock end_date in
      if datetime.lt (datetime.assume_utc end_date) (datetime.now_utc clock) then
        Some (ReasonText "Market has already expired")
      else if (days_to_expiry <? Settings.min_days_to_expiry settings)%Z then
        Some (ExpiresInDays days_to_expiry (Settings.min_days_to_expiry settings))
      else None
  | None => None
  end.

(** [should_skip_market], at the clock reading [clock]. *)
Definition should_skip_market (self : t) (clock : Z) (market : Market.t)
  : bool * SkipReason :=
  let settings := _settings self in
  if Market.closed market then (true, ReasonText "Market is closed")
  else if Market.archived market then (true, ReasonText "Market is archived")
  else if negb (Market.accepting_orders market) then
    (true, ReasonText "Market is not accepting orders")
  else
    match expiry_skip settings clock market with
    | Some reason => (true, reason)
    | None =>
        let tier := Market.tier_or_computed market in
        let min_tier_value :=
          tier_order_get (upper (Settings.min_market_tier settings)) 1 in
        if (tier_order_get (MarketTier_value tier) 0 <? min_tier_value)%Z then
          (true, TierBelowMinimum (MarketTier_value tier)
                   (Settings.min_market_tier settings))
        else
          match Market.current_price market with
          | Some current_price =>
              if Py.lt current_price (Settings.min_price_for_signals settings) then
                (true, PriceBelowMinimum current_price
                         (Settings.min_price_for_signals settings))
              else if Py.gt current_price (Settings.max_price_for_signals settings) then
                (true, PriceAboveMaximum current_price
                         (Settings.max_price_for_signals settings))
              else (false, ReasonText "")
          | None => (false, ReasonText "")
          end
    end.

(** [adjust_confidence_for_quality], at the clock reading [clock]. *)
Definition adjust_confidence_for_quality (clock : Z)
    (candidate : SignalCandidate.t) (market : Market.t) : Q :=
  let confidence := SignalCandidate.confidence candidate in
  let tier := Market.tier_or_computed market in
  let confidence :=
    match tier with
    | LOW => confidence * 0.85
    | MEDIUM => confidence * 0.95
    | _ => confidence
    end in
  let confidence :=
    match Market.end_date market with
    | Some end_date =>
        let days_to_expiry := days_to_expiry clock end_date in
        if (days_to_expiry <? 14)%Z then
          confidence * Py.max 0.5 (Py.float_of_int days_to_expiry / 14)
        else confidence
    | None => confidence
    end in
  Py.max 0.0 (Py.min 1.0 confidence).

(** [_previous_states]: the latest entry of a key is the one at the front. *)
Fixpoint get_previous_state (states : list (string * (Q * Q))) (market_id : string)
  : option (Q * Q) :=
  match states with
  | [] => None
  | (k, v) :: rest => if String.eqb k market_id then Some v else get_previous_state rest market_id
  end.

Definition set_previous_state (self : t) (market_id : string) (price volume_24h : Q) : t :=
  mk (db_client self) (min_confidence self) (rules self)
     ((market_id, (price, volume_24h)) :: _previous_states self) (_settings self).

(** [add_rule]. *)
Definition add_rule (self : t) (rule : SignalRule) : t :=
  mk (db_client self) (min_confidence self) (rules self ++ [rule])
     (_previous_states self) (_settings self).

(** The rule loop of [evaluate_market]: an [Exception] of a rule is logged
    and the loop goes on. *)
Fixpoint run_rules (min_confidence : Q) (rules : list SignalRule)
    (market : Market.t) (news_sentiment : option NewsSentiment.t)
    (social_mentions : option SocialMention.t)
    (social_sentiment : option SocialSentiment.t)
    (previous_price previous_volume_24h : option Q)
    (candidates : list SignalCandidate.t)
  : Py.outcome (list SignalCandidate.t) :=
  match rules with
  | [] => Py.Ok candidates
  | rule :: rest =>
      let continue := run_rules min_confidence rest market news_sentiment
                        social_mentions social_sentiment
                        previous_price previous_volume_24h in
      match rule market news_sentiment social_mentions social_sentiment
                 previous_price previous_volume_24h with
      | Py.Ok (Some candidate) =>
          if Py.ge (SignalCandidate.confidence candidate) min_confidence
          then continue (candidates ++ [candidate])
          else continue candidates
      | Py.Ok None => continue candidates
      | Py.Raise e =>
          if Py.isinstance_Exception e then continue candidates else Py.Raise e
      end
  end.

(** [evaluate_market]: the generator after the call and the candidates. *)
Definition evaluate_market (self : t) (market : Market.t)
    (news_sentiment : option NewsSentiment.t)
    (social_mentions : option SocialMention.t)
    (social_sentiment : option SocialSentiment.t)
  : t * Py.outcome (list SignalCandidate.t) :=
  let prev_state := get_previous_state (_previous_states self) (Market.id market) in
  let previous_price := option_map fst prev_state in
  let previous_volume_24h := option_map snd prev_state in
  match run_rules (min_confidence self) (rules self) market news_sentiment
                  social_mentions social_sentiment
                  previous_price previous_volume_24h [] with
  | Py.Raise e => (self, Py.Raise e)
  | Py.Ok candidates =>
      match Market.current_price market with
      | Some current_price =>
          (set_previous_state self (Market.id market) current_price
             (Market.volume_24h market), Py.Ok candidates)
      | None => (self, Py.Ok candidates)
      end
  end.

(** [generate_signal]; [id] and [created_at] are the values the default
    factories [uuid4] and [datetime.utcnow] produce for this signal. *)
Definition generate_signal (id : UUID) (created_at : datetime.t)
    (market : Market.t) (candidate : SignalCandidate.t)
    (news_sentiment : option NewsSentiment.t)
    (social_mentions : option SocialMention.t) : Py.outcome Signal.t :=
  signal <- Signal.validate {|
    Signal.id := id;
    Signal.created_at := created_at;
    Signal.market_id := Market.id market;
    Signal.market_question := Market.question market;
    Signal.market_slug := Market.slug market;
    Signal.market_end_date := Market.end_date market;
    Signal.signal_type := SignalCandidate.signal_type candidate;
    Signal.direction := SignalCandidate.direction candidate;
    Signal.confidence := SignalCandidate.confidence candidate;
    Signal.reasoning := SignalCandidate.reasoning candidate;
    Signal.entry_price := Py.or_float (Market.current_price market) 0.5;
    Signal.entry_volume_24h := Market.volume_24h market;
    Signal.entry_volume_total := Market.volume market;
    Signal.entry_liquidity := Market.liquidity market;
    Signal.market_tier := Market.tier_or_computed market;
    Signal.news_sentiment_score := SignalCandidate.news_sentiment_score candidate;
    Signal.social_mention_count_24h := SignalCandidate.social_mention_count_24h candidate;
    Signal.social_sentiment_score := SignalCandidate.social_sentiment_score candidate;
    Signal.price_1h := None;
    Signal.price_24h := None;
    Signal.price_7d := None;
    Signal.price_at_resolution := None;
    Signal.gain_1h_pct := None;
    Signal.gain_24h_pct := None;
    Signal.gain_7d_pct := None;
    Signal.gain_final_pct := None;
    Signal.status := ACTIVE;
    Signal.resolved_at := None
  |} ;;
  let signal :=
    match news_sentiment, Signal.news_sentiment_score signal with
    | Some news_sentiment, None =>
        Signal.set_news_sentiment_score
          (Some (NewsSentiment.sentiment_score news_sentiment)) signal
    | _, _ => signal
    end in
  let signal :=
    match social_mentions, Signal.social_mention_count_24h signal with
    | Some social_mentions, None =>
        Signal.set_social_mention_count_24h
          (Some (SocialMention.mention_count_24h social_mentions)) signal
    | _, _ => signal
    end in
  Py.Ok signal.

(** What one call of [process_market] observes of its surroundings: the
    clock reading of [should_skip_market], the clock reading of the i-th call
    of [adjust_confidence_for_quality], and the identity and creation time
    drawn for the i-th signal. *)
Record env : Type := mkEnv {
  clock_skip : Z;
  clock_adjust : nat -> Z;
  fresh : nat -> UUID * datetime.t
}.

(** The quality loop of [process_market]: a candidate that stays at or above
    [min_confidence] is kept, with the adjusted confidence assigned to it. *)
Fixpoint qualify (min_confidence : Q) (clock_adjust : nat -> Z) (market : Market.t)
    (i : nat) (candidates : list SignalCandidate.t) : list SignalCandidate.t :=
  match candidates with
  | [] => []
  | candidate :: rest =>
      let adjusted_confidence :=
        adjust_confidence_for_quality (clock_adjust i) candidate market in
      if Py.ge adjusted_confidence min_confidence then
        SignalCandidate.set_confidence adjusted_confidence candidate
          :: qualify min_confidence clock_adjust market (S i) rest
      else qualify min_confidence clock_adjust market (S i) rest
  end.

(** [create_signal] under [try]/[except Exception], when persistence is
    requested and a client is configured. *)
Definition persist_signal (self : t) (persist : bool) (signal : Signal.t)
  : Py.outcome unit :=
  match persist, db_client self with
  | true, Some create_signal =>
      match create_signal signal with
      | Py.Ok _ => Py.Ok tt
      | Py.Raise e => if Py.isinstance_Exception e then Py.Ok tt else Py.Raise e
      end
  | _, _ => Py.Ok tt
  end.

(** The generation loop of [process_market]. *)
Fixpoint generate_signals (self : t) (persist : bool) (fresh : nat -> UUID * datetime.t)
    (market : Market.t) (news_sentiment : option NewsSentiment.t)
    (social_mentions : option SocialMention.t)
    (i : nat) (qualified_candidates : list SignalCandidate.t)
    (signals : list Signal.t) : Py.outcome (list Signal.t) :=
  match qualified_candidates with
  | [] => Py.Ok signals
  | candidate :: rest =>
      signal <- generate_signal (fst (fresh i)) (snd (fresh i)) market candidate
                  news_sentiment social_mentions ;;
      _ <- persist_signal self persist signal ;;
      generate_signals self persist fresh market news_sentiment social_mentions
        (S i) rest (signals ++ [signal])
  end.

(** [process_market]: the generator after the call, and the signals. *)
Definition process_market (self : t) (e : env) (market : Market.t)
    (news_sentiment : option NewsSentiment.t)
    (social_mentions : option SocialMention.t)
    (social_sentiment : option SocialSentiment.t)
    (persist : bool) : t * Py.outcome (list Signal.t) :=
  let (should_skip, _) := should_skip_market self (clock_skip e) market in
  if should_skip then (self, Py.Ok [])
  else
    match evaluate_market self market news_sentiment social_mentions social_sentiment with
    | (self, Py.Raise exc) => (self, Py.Raise exc)
    | (self, Py.Ok []) => (self, Py.Ok [])
    | (self, Py.Ok candidates) =>
        let qualified_candidates :=
          qualify (min_confidence self) (clock_adjust e) market 0 candidates in
        (self, generate_signals self persist (fresh e) market news_sentiment
                 social_mentions 0 qualified_candidates [])
    end.

(** The three guarded context calls of [run_scan]: a callback that is not
    given, or that raises inside [Exception], leaves the context [None]. *)
Definition gather {A : Type} (callback : option (Market.t -> Py.outcome (option A)))
    (market : Market.t) : Py.outcome (option A) :=
  match callback with
  | None => Py.Ok None
  | Some get =>
      match get market with
      | Py.Ok context => Py.Ok context
      | Py.Raise e => if Py.isinstance_Exception e then Py.Ok None else Py.Raise e
      end
  end.

(** One turn of the loop of [run_scan]: the contexts, then [process_market],
    which is not guarded. *)
Definition scan_one (self : t) (e : env) (market : Market.t)
    (get_news_sentiment : option (Market.t -> Py.outcome (option NewsSentiment.t)))
    (get_social_mentions : option (Market.t -> Py.outcome (option SocialMention.t)))
    (get_social_sentiment : option (Market.t -> Py.outcome (option SocialSentiment.t)))
    (persist : bool) : t * Py.outcome (list Signal.t) :=
  match gather get_news_sentiment market with
  | Py.Raise exc => (self, Py.Raise exc)
  | Py.Ok news_sentiment =>
      match gather get_social_mentions market with
      | Py.Raise exc => (self, Py.Raise exc)
      | Py.Ok social_mentions =>
          match gather get_social_sentiment market with
          | Py.Raise exc => (self, Py.Raise exc)
          | Py.Ok social_sentiment =>
              process_market self e market news_sentiment social_mentions
                social_sentiment persist
          end
      end
  end.

(** The loop of [run_scan]; the i-th market is processed in the surroundings
    [envs i]. *)
Fixpoint run_scan_loop (self : t) (envs : nat -> env) (i : nat) (markets : list Market.t)
    (get_news_sentiment : option (Market.t -> Py.outcome (option NewsSentiment.t)))
    (get_social_mentions : option (Market.t -> Py.outcome (option SocialMention.t)))
    (get_social_sentiment : option (Market.t -> Py.outcome (option SocialSentiment.t)))
    (persist : bool) (all_signals : list Signal.t) : t * Py.outcome (list Signal.t) :=
  match markets with
  | [] => (self, Py.Ok all_signals)
  | market :: rest =>
      match scan_one self (envs i) market get_news_sentiment get_social_mentions
              get_social_sentiment persist with
      | (self, Py.Raise exc) => (self, Py.Raise exc)
      | (self, Py.Ok signals) =>
          run_scan_loop self envs (S i) rest get_news_sentiment get_social_mentions
            get_social_sentiment persist (all_signals ++ signals)
      end
  end.

(** [run_scan] of the generator. *)
Definition run_scan (self : t) (envs : nat -> env) (markets : list Market.t)
    (get_news_sentiment : option (Market.t -> Py.outcome (option NewsSentiment.t)))
    (get_social_mentions : option (Market.t -> Py.outcome (option SocialMention.t)))
    (get_social_sentiment : option (Market.t -> Py.outcome (option SocialSentiment.t)))
    (persist : bool) : t * Py.outcome (list Signal.t) :=
  run_scan_loop self envs 0 markets get_news_sentiment get_social_mentions
    get_social_sentiment persist [].

End SignalGenerator.

(* ================================================================== *)
(** ** services/signals/scanner.py *)

Module SignalScanner.

(** The [degraded] dictionary, by its three keys. *)
Record Degraded : Type := mkDegraded {
  news_api : bool;
  social_api : bool;
  polymarket_api : bool
}.

Record ScanResult : Type := mkScanResult {
  signals_generated : Z;
  markets_scanned : Z;
  signals : list Signal.t;
  degraded : option Degraded;
  errors : list string;
  scan_time : datetime.t
}.

(** [ScanResult()] with [scan_time] drawn from the clock; [degraded] is the
    empty dictionary. *)
Definition new_ScanResult (scan_time : datetime.t) : ScanResult :=
  mkScanResult 0 0 [] None [] scan_time.

Definition append_error (msg : string) (r : ScanResult) : ScanResult :=
  mkScanResult (signals_generated r) (markets_scanned r) (signals r) (degraded r)
    (errors r ++ [msg]) (scan_time r).

Definition extend_signals (new : list Signal.t) (r : ScanResult) : ScanResult :=
  mkScanResult (signals_generated r) (markets_scanned r) (signals r ++ new) (degraded r)
    (errors r) (scan_time r).

Definition increment_markets_scanned (r : ScanResult) : ScanResult :=
  mkScanResult (signals_generated r) (markets_scanned r + 1) (signals r) (degraded r)
    (errors r) (scan_time r).

Definition set_signals_generated (n : Z) (r : ScanResult) : ScanResult :=
  mkScanResult n (markets_scanned r) (signals r) (degraded r) (errors r) (scan_time r).

Definition set_degraded (d : Degraded) (r : ScanResult) : ScanResult :=
  mkScanResult (signals_generated r) (markets_scanned r) (signals r) (Some d)
    (errors r) (scan_time r).

(** [f"{market.slug}"]: a missing slug prints as [None]. *)
Definition format_slug (slug : option string) : string :=
  match slug with
  | Some x => x
  | None => "None"
  end.

(** [f"Error scanning market {market.slug}: {str(e)}"]. *)
Definition error_msg (market : Market.t) (e : Py.exn) : string :=
  ("Error scanning market " ++ format_slug (Market.slug market) ++ ": " ++ Py.str e)%string.

Section Scan.

(** The scanner with everything it can reach: its generator and the
    generator's cache, the data sources, the rate limiters, the store. *)
Variable W : Type.

(** The collaborators of [run_scan], as transitions of [W]. *)
Variable get_markets_to_scan : option (list string) -> W -> W * Py.outcome (list Market.t).
Variable scan_market : Market.t -> W -> W * Py.outcome (list Signal.t).
Variable _persist_signals : list Signal.t -> list Market.t -> W -> W * Py.outcome unit.
Variable is_available : string -> W -> bool.
Variable settings : Settings.t.

(** The [for market in markets] loop of [run_scan]. *)
Fixpoint scan_loop (markets : list Market.t) (w : W) (result : ScanResult)
  : W * Py.outcome ScanResult :=
  match markets with
  | [] => (w, Py.Ok result)
  | market :: rest =>
      match scan_market market w with
      | (w, Py.Ok signals) =>
          scan_loop rest w (increment_markets_scanned (extend_signals signals result))
      | (w, Py.Raise e) =>
          if Py.isinstance_Exception e then
            scan_loop rest w (append_error (error_msg market e) result)
          else (w, Py.Raise e)
      end
  end.

Definition degradation (w : W) : Degraded := {|
  news_api := Settings.skip_news_api settings || negb (is_available "newsapi" w);
  social_api := Settings.skip_social_api settings || negb (is_available "twitter" w);
  polymarket_api := negb (is_available "polymarket" w)
|}.

(** [run_scan]; [scan_time] is the value [datetime.utcnow] gives the new
    [ScanResult]. *)
Definition run_scan (override_markets : option (list string)) (persist : bool)
    (scan_time : datetime.t) (w : W) : W * Py.outcome ScanResult :=
  let result := new_ScanResult scan_time in
  match get_markets_to_scan override_markets w with
  | (w, Py.Raise e) => (w, Py.Raise e)
  | (w, Py.Ok []) =>
      (w, Py.Ok (append_error "No markets to scan. Check watchlist configuration." result))
  | (w, Py.Ok markets) =>
      match scan_loop markets w result with
      | (w, Py.Raise e) => (w, Py.Raise e)
      | (w, Py.Ok result) =>
          let result :=
            set_signals_generated (Z.of_nat (List.length (signals result))) result in
          let persisted :=
            match persist, signals result with
            | true, _ :: _ => _persist_signals (signals result) markets w
            | _, _ => (w, Py.Ok tt)
            end in
          match persisted with
          | (w, Py.Raise e) => (w, Py.Raise e)
          | (w, Py.Ok _) => (w, Py.Ok (set_degraded (degradation w) result))
          end
      end
  end.

End Scan.

(** [try: ... except Exception: return default]. *)
Definition except_Exception {A : Type} (o : Py.outcome A) (default : A) : Py.outcome A :=
  match o with
  | Py.Ok a => Py.Ok a
  | Py.Raise e => if Py.isinstance_Exception e then Py.Ok default else Py.Raise e
  end.

(** The [for signal in signals] loop of [_persist_signals]: the i-th call of
    [db.create_signal] ends as [create_signal i]; [created] are the signals
    whose call returned. *)
Fixpoint create_signals (create_signal : nat -> Py.outcome unit) (i : nat)
    (signals : list Signal.t) (created : list Signal.t)
  : list Signal.t * Py.outcome unit :=
  match signals with
  | [] => (created, Py.Ok tt)
  | signal :: rest =>
      match create_signal i with
      | Py.Ok _ => create_signals create_signal (S i) rest (created ++ [signal])
      | Py.Raise e => (created, Py.Raise e)
      end
  end.

(** [_persist_signals]: [get_supabase_client] and [upsert_markets] are the
    outcomes of those two calls.  The result: the markets upserted, the
    signals created, and how the method ends. *)
Definition _persist_signals (get_supabase_client : Py.outcome unit)
    (upsert_markets : Py.outcome unit) (create_signal : nat -> Py.outcome unit)
    (signals : list Signal.t) (markets : list Market.t)
  : list Market.t * list Signal.t * Py.outcome unit :=
  match get_supabase_client with
  | Py.Raise e => ([], [], except_Exception (Py.Raise e) tt)
  | Py.Ok _ =>
      let upserted :=
        match markets with
        | [] => Py.Ok tt
        | _ :: _ => upsert_markets
        end in
      match upserted with
      | Py.Raise e => ([], [], except_Exception (Py.Raise e) tt)
      | Py.Ok _ =>
          let (created, o) := create_signals create_signal 0 signals [] in
          (markets, created, except_Exception o tt)
      end
  end.

(** The [TypeError]s of the two log lines of [_discover_markets]: the debug
    line formats the price with [:.1%], the info line slices the slug. *)
Definition TypeError_format_None : Py.exn :=
  Py.Exception "unsupported format string passed to NoneType.__format__".

Definition TypeError_subscript_None : Py.exn :=
  Py.Exception "'NoneType' object is not subscriptable".

(** [id in exclude_ids]. *)
Definition in_ids (id : string) (ids : list string) : bool :=
  existsb (String.eqb id) ids.

(** The filter loop of [_discover_markets].  The debug line that follows
    [discovered.append(m)] raises for a market without a price. *)
Fixpoint discover_loop (settings : Settings.t) (exclude_ids : list string)
    (min_volume : Q) (all_markets : list Market.t) (discovered : list Market.t)
  : Py.outcome (list Market.t) :=
  match all_markets with
  | [] => Py.Ok discovered
  | m :: rest =>
      if in_ids (Market.id m) exclude_ids then
        discover_loop settings exclude_ids min_volume rest discovered
      else if Py.lt (Market.volume m) min_volume then
        discover_loop settings exclude_ids min_volume rest discovered
      else
        match Market.current_price m with
        | Some current_price =>
            if Py.lt current_price (Settings.min_price_for_signals settings) then
              discover_loop settings exclude_ids min_volume rest discovered
            else if Py.gt current_price (Settings.max_price_for_signals settings) then
              discover_loop settings exclude_ids min_volume rest discovered
            else discover_loop settings exclude_ids min_volume rest (discovered ++ [m])
        | None => Py.Raise TypeError_format_None
        end
  end.

(** [discovered.sort(key=lambda m: m.volume, reverse=True)].  The sort is
    stable, also in reverse: markets of equal volume keep their order.  Each
    market goes behind the markets placed so far whose volume is not
    smaller. *)
Fixpoint insert_by_volume (m : Market.t) (sorted : list Market.t) : list Market.t :=
  match sorted with
  | [] => [m]
  | x :: rest =>
      if Py.lt (Market.volume x) (Market.volume m) then m :: x :: rest
      else x :: insert_by_volume m rest
  end.

Definition sort_by_volume (discovered : list Market.t) : list Market.t :=
  fold_left (fun sorted m => insert_by_volume m sorted) discovered [].

(** [l[:n]]: a negative [n] counts from the end. *)
Definition slice_to {A : Type} (n : Z) (l : list A) : list A :=
  if (n <? 0)%Z then firstn (List.length l - Z.to_nat (- n)) l
  else firstn (Z.to_nat n) l.

(** The info line of [_discover_markets], written when [result] is not
    empty: [m.slug[:30]] raises for a market without a slug. *)
Definition log_discovered (result : list Market.t) : Py.outcome unit :=
  match result with
  | [] => Py.Ok tt
  | _ :: _ =>
      if existsb (fun m => Py.is_None (Market.slug m)) result
      then Py.Raise TypeError_subscript_None
      else Py.Ok tt
  end.

(** [_discover_markets]; [get_markets] is the answer of
    [polymarket.get_markets(active=True, limit=100, filter_current=True)]. *)
Definition _discover_markets (settings : Settings.t)
    (get_markets : Py.outcome (list Market.t))
    (exclude_ids : list string) (max_markets : Z) (min_volume : Q)
  : Py.outcome (list Market.t) :=
  except_Exception
    (all_markets <- get_markets ;;
     discovered <- discover_loop settings exclude_ids min_volume all_markets [] ;;
     let discovered := sort_by_volume discovered in
     let result := slice_to max_markets discovered in
     _ <- log_discovered result ;;
     Py.Ok result)
    [].

(** What [get_markets_to_scan] observes for one slug: the answer of
    [get_market_by_slug] with [require_current=True] and, asked for only
    when that answer is [None], the answer with [require_current=False]. *)
Record lookup : Type := mkLookup {
  current_answer : Py.outcome (option Market.t);
  any_answer : Py.outcome (option Market.t)
}.

(** The [for slug in slugs_to_fetch] loop; the i-th slug observes
    [lookups i]. *)
Fixpoint fetch_watchlist (lookups : nat -> lookup) (i : nat) (slugs_to_fetch : list string)
    (markets : list Market.t) : Py.outcome (list Market.t) :=
  match slugs_to_fetch with
  | [] => Py.Ok markets
  | slug :: rest =>
      let fetched :=
        market <- current_answer (lookups i) ;;
        match market with
        | Some market => Py.Ok (markets ++ [market])
        | None =>
            _ <- any_answer (lookups i) ;;
            Py.Ok markets
        end in
      match fetched with
      | Py.Ok markets => fetch_watchlist lookups (S i) rest markets
      | Py.Raise e =>
          if Py.isinstance_Exception e then fetch_watchlist lookups (S i) rest markets
          else Py.Raise e
      end
  end.

(** [override_slugs or self.settings.watchlist]: [None] and the empty list
    are falsy. *)
Definition slugs_or (override_slugs : option (list string)) (watchlist : list string)
  : list string :=
  match override_slugs with
  | Some (slug :: rest) => slug :: rest
  | _ => watchlist
  end.

Definition not_slugs (override_slugs : option (list string)) : bool :=
  match override_slugs with
  | Some (_ :: _) => false
  | _ => true
  end.

(** [get_markets_to_scan]; [watchlist], [signal_discovery_enabled],
    [signal_discovery_max_markets] and [signal_discovery_min_volume] are the
    settings of those names. *)
Definition get_markets_to_scan (settings : Settings.t) (watchlist : list string)
    (signal_discovery_enabled : bool) (signal_discovery_max_markets : Z)
    (signal_discovery_min_volume : Q)
    (lookups : nat -> lookup) (get_markets : Py.outcome (list Market.t))
    (override_slugs : option (list string)) : Py.outcome (list Market.t) :=
  let slugs_to_fetch := slugs_or override_slugs watchlist in
  markets <- fetch_watchlist lookups 0 slugs_to_fetch [] ;;
  if signal_discovery_enabled && not_slugs override_slugs then
    discovered <- _discover_markets settings get_markets (map Market.id markets)
                    signal_discovery_max_markets signal_discovery_min_volume ;;
    Py.Ok (markets ++ discovered)
  else Py.Ok markets.

(** What [scan_market] observes for one market: the answers of the news and
    social sources and the surroundings of the [process_market] call. *)
Record observation : Type := mkObservation {
  news_answer : Py.outcome (option NewsSentiment.t);
  mentions_answer : Py.outcome (option SocialMention.t);
  sentiment_answer : Py.outcome (option SocialSentiment.t);
  process_env : SignalGenerator.env
}.

(** [_get_news_sentiment]. *)
Definition _get_news_sentiment (settings : Settings.t) (obs : observation)
  : Py.outcome (option NewsSentiment.t) :=
  if Settings.skip_news_api settings then Py.Ok None
  else except_Exception (news_answer obs) None.

(** [_get_social_data]. *)
Definition _get_social_data (settings : Settings.t) (obs : observation)
  : Py.outcome (option SocialMention.t * option SocialSentiment.t) :=
  if Settings.skip_social_api settings then Py.Ok (None, None)
  else
    except_Exception
      (mentions <- mentions_answer obs ;;
       sentiment <- sentiment_answer obs ;;
       Py.Ok (mentions, sentiment))
      (None, None).

(** [scan_market], as a transition of the scanner's generator. *)
Definition scan_market (settings : Settings.t) (observe : Market.t -> observation)
    (market : Market.t) (generator : SignalGenerator.t)
  : SignalGenerator.t * Py.outcome (list Signal.t) :=
  match _get_news_sentiment settings (observe market) with
  | Py.Raise e => (generator, Py.Raise e)
  | Py.Ok news_sentiment =>
      match _get_social_data settings (observe market) with
      | Py.Raise e => (generator, Py.Raise e)
      | Py.Ok (social_mentions, social_sentiment) =>
          SignalGenerator.process_market generator (process_env (observe market))
            market news_sentiment social_mentions social_sentiment false
      end
  end.

End SignalScanner.

(* ================================================================== *)
(** ** Vocabulary of the scanner property *)

Module ScanSpec.

Section Trace.

Variable W : Type.
Variable scan_market : Market.t -> W -> W * Py.outcome (list Signal.t).

(** The outcome of evaluating each market in turn, each evaluation starting
    from the state the previous one left. *)
Fixpoint trace (markets : list Market.t) (w : W)
  : list (Market.t * Py.outcome (list Signal.t)) :=
  match markets with
  | [] => []
  | market :: rest =>
      let (w', o) := scan_market market w in
      (market, o) :: trace rest w'
  end.

End Trace.

Definition entry : Type := (Market.t * Py.outcome (list Signal.t))%type.

Definition succeeded (x : entry) : bool :=
  match snd x with
  | Py.Ok _ => true
  | Py.Raise _ => false
  end.

(** The signals of the markets whose evaluation succeeded, in order. *)
Definition succeeded_signals (t : list entry) : list Signal.t :=
  flat_map (fun x : entry =>
              match snd x with
              | Py.Ok signals => signals
              | Py.Raise _ => []
              end) t.

(** One error string per market whose evaluation raised, in order. *)
Definition failure_messages (t : list entry) : list string :=
  flat_map (fun x : entry =>
              match snd x with
              | Py.Ok _ => []
              | Py.Raise e => [SignalScanner.error_msg (fst x) e]
              end) t.

Definition count_succeeded (t : list entry) : Z :=
  Z.of_nat (List.length (filter succeeded t)).

Definition count_failed (t : list entry) : nat :=
  List.length (filter (fun x => negb (succeeded x)) t).

(** Every exception raised during the evaluations is an [Exception]. *)
Definition only_Exceptions (t : list entry) : Prop :=
  Forall (fun x : entry =>
            match snd x with
            | Py.Ok _ => True
            | Py.Raise e => Py.isinstance_Exception e = true
            end) t.

End ScanSpec.

(* ================================================================== *)
(** ** services/data_sources/rate_limiter.py *)

Module RateLimitedClient.

(** The texts [execute] stores in [last_error], by the values they format. *)
Inductive ErrorText : Type :=
| Http429
| HttpStatus (status_code : Z) (reason_phrase : string)
| RequestTimeout
| RequestFailed (msg : string)
| UnexpectedError (msg : string).

(** [consecutive_failures] is a counter: the class only resets it to [0]
    and increments it. *)
Record t : Type := mk {
  name : string;
  rate_limited_until : option datetime.t;
  consecutive_failures : nat;
  last_error : option ErrorText
}.

(** [__init__]. *)
Definition init (name : string) : t := mk name None 0 None.

(** [datetime.utcnow()] at the clock reading [clock]: no time zone. *)
Definition utcnow (clock : Z) : datetime.t :=
  {| datetime.micros := clock; datetime.tz_aware := false |}.

(** [d + timedelta(seconds=n)], where the result is a [datetime]. *)
Definition plus_seconds (d : datetime.t) (n : Z) : datetime.t :=
  {| datetime.micros := (datetime.micros d + n * 1000000)%Z;
     datetime.tz_aware := datetime.tz_aware d |}.

(** [datetime.max - datetime.min] in microseconds.  A [datetime] lies
    between year 1 and the end of year 9999: where the range is checked, the
    clock readings count from [datetime.min]. *)
Definition datetime_range : Z := 315537897599999999.

Definition decimal (n : Z) : string := NilZero.string_of_int (Z.to_int n).

(** [timedelta(seconds=n)] for an [int], in microseconds: the whole days
    [n // 86400] must fit a C [int] and must not exceed 999999999 in
    magnitude, or the constructor raises [OverflowError]. *)
Definition timedelta (seconds : Z) : Py.outcome Z :=
  let days := (seconds / 86400)%Z in
  if (days <? - 2147483648)%Z || (2147483647 <? days)%Z then
    Py.Raise (Py.Exception "Python int too large to convert to C int")
  else if (days <? - 999999999)%Z || (999999999 <? days)%Z then
    Py.Raise (Py.Exception ("days=" ++ decimal days ++ "; must have magnitude <= 999999999"))
  else Py.Ok (seconds * 1000000)%Z.

(** [d + delta]: [OverflowError] when the sum is not a [datetime]. *)
Definition datetime_add (d : datetime.t) (delta : Z) : Py.outcome datetime.t :=
  let micros := (datetime.micros d + delta)%Z in
  if (micros <? 0)%Z || (datetime_range <? micros)%Z then
    Py.Raise (Py.Exception "date value out of range")
  else Py.Ok {| datetime.micros := micros; datetime.tz_aware := datetime.tz_aware d |}.

(** [is_available]: the client after the call and the answer. *)
Definition is_available (clock : Z) (self : t) : t * bool :=
  match rate_limited_until self with
  | None => (self, true)
  | Some until =>
      if negb (datetime.lt (utcnow clock) until) then
        (mk (name self) None 0 (last_error self), true)
      else (self, false)
  end.

(** The dictionary of [get_status], by its four keys; the time is kept as
    the [datetime] that [isoformat] prints. *)
Record Status : Type := mkStatus {
  available : bool;
  status_rate_limited_until : option datetime.t;
  reason : option string;
  status_last_error : option ErrorText
}.

(** [get_status]: a [datetime] is truthy. *)
Definition get_status (self : t) : Status :=
  match rate_limited_until self with
  | Some until => mkStatus false (Some until) (Some "rate_limited"%string) (last_error self)
  | None => mkStatus true None None (last_error self)
  end.

(** The [else] branch of [mark_rate_limited]:
    [min(base_minutes * 60 * (2 ** self.consecutive_failures), 7200)]. *)
Definition exponential_backoff (api_retry_after_minutes : Z) (self : t) : Z :=
  Z.min (api_retry_after_minutes * 60 * 2 ^ Z.of_nat (consecutive_failures self)) 7200.

(** [backoff_seconds] of [mark_rate_limited]; [if retry_after] is false for
    [None] and for [0]. *)
Definition backoff_seconds (api_retry_after_minutes : Z) (retry_after : option Z)
    (self : t) : Z :=
  match retry_after with
  | Some seconds =>
      if (seconds =? 0)%Z then exponential_backoff api_retry_after_minutes self
      else seconds
  | None => exponential_backoff api_retry_after_minutes self
  end.

(** [datetime.utcnow() + timedelta(seconds=backoff_seconds)].  A
    [retry_after] that is used can be any [int]: the [timedelta] and the sum
    are checked.  The exponential backoff is at most 7200 seconds: there the
    sum is taken to be a [datetime], as it is for a base setting that is not
    negative and a clock more than two hours before [datetime.max]. *)
Definition deadline (api_retry_after_minutes : Z) (clock : Z)
    (retry_after : option Z) (self : t) : Py.outcome datetime.t :=
  match retry_after with
  | Some seconds =>
      if (seconds =? 0)%Z then
        Py.Ok (plus_seconds (utcnow clock)
                 (backoff_seconds api_retry_after_minutes retry_after self))
      else
        delta <- timedelta (backoff_seconds api_retry_after_minutes retry_after self) ;;
        datetime_add (utcnow clock) delta
  | None =>
      Py.Ok (plus_seconds (utcnow clock)
               (backoff_seconds api_retry_after_minutes retry_after self))
  end.

(** [mark_rate_limited]; [api_retry_after_minutes] is the setting of that
    name.  When the deadline cannot be computed, the exception leaves the
    client as it was. *)
Definition mark_rate_limited (api_retry_after_minutes : Z) (clock : Z)
    (retry_after : option Z) (self : t) : t * Py.outcome unit :=
  match deadline api_retry_after_minutes clock retry_after self with
  | Py.Ok until =>
      (mk (name self) (Some until) (S (consecutive_failures self)) (last_error self),
       Py.Ok tt)
  | Py.Raise e => (self, Py.Raise e)
  end.

(** [mark_success]. *)
Definition mark_success (self : t) : t :=
  mk (name self) (rate_limited_until self) 0 None.

Definition set_last_error (e : ErrorText) (self : t) : t :=
  mk (name self) (rate_limited_until self) (consecutive_failures self) (Some e).

(** How the awaited [func] ends, as far as [execute] tells the cases apart:
    it returns, or raises [httpx.HTTPStatusError] (with the status code and
    reason phrase of the response, and [retry_seconds]: [int] of the
    [retry-after] header when that header is a non-empty string of decimal
    digits, [None] when it is absent or fails [isdigit]),
    [httpx.TimeoutException], another [httpx.RequestError], or any other
    exception.  [RetryAfterRejected] is an [httpx.HTTPStatusError] whose
    [retry-after] header passes [isdigit] and is refused by [int] (a digit
    such as a superscript two, or more digits than [int] converts): [int]
    raises [ValueError] with the text [msg]. *)
Inductive call (R : Type) : Type :=
| Returned (result : R)
| HTTPStatusError (status_code : Z) (reason_phrase : string) (retry_seconds : option Z)
| RetryAfterRejected (status_code : Z) (reason_phrase : string) (msg : string)
| TimeoutException
| RequestError (msg : string)
| Raised (e : Py.exn).
Arguments Returned {R} result.
Arguments HTTPStatusError {R} status_code reason_phrase retry_seconds.
Arguments RetryAfterRejected {R} status_code reason_phrase msg.
Arguments TimeoutException {R}.
Arguments RequestError {R} msg.
Arguments Raised {R} e.

(** [execute]: the client after the call and what the call gives back.
    [clock_available] is the clock reading of [is_available], [clock_limited]
    the one of [mark_rate_limited].  An exception raised inside the
    [except httpx.HTTPStatusError] clause is not caught by the clauses that
    follow it: it leaves [execute]. *)
Definition execute {R : Type} (api_retry_after_minutes : Z)
    (clock_available clock_limited : Z) (func : call R) (default : R) (self : t)
  : t * Py.outcome R :=
  let (self, available) := is_available clock_available self in
  if negb available then (self, Py.Ok default)
  else
    match func with
    | Returned result => (mark_success self, Py.Ok result)
    | HTTPStatusError status_code reason_phrase retry_seconds =>
        if (status_code =? 429)%Z then
          match mark_rate_limited api_retry_after_minutes clock_limited retry_seconds
                  self with
          | (self, Py.Ok _) => (set_last_error Http429 self, Py.Ok default)
          | (self, Py.Raise e) => (self, Py.Raise e)
          end
        else (set_last_error (HttpStatus status_code reason_phrase) self, Py.Ok default)
    | RetryAfterRejected status_code reason_phrase msg =>
        if (status_code =? 429)%Z then (self, Py.Raise (Py.Exception msg))
        else (set_last_error (HttpStatus status_code reason_phrase) self, Py.Ok default)
    | TimeoutException => (set_last_error RequestTimeout self, Py.Ok default)
    | RequestError msg => (set_last_error (RequestFailed msg) self, Py.Ok default)
    | Raised e =>
        if Py.isinstance_Exception e then
          (set_last_error (UnexpectedError (Py.str e)) self, Py.Ok default)
        else (self, Py.Raise e)
    end.

End RateLimitedClient.

(* ================================================================== *)
(** ** services/data_sources/polymarket.py: the rate-limited fetches *)

Module PolymarketDataSource.

(** What one fetch observes: the setting [api_retry_after_minutes], the two
    clock readings of the limiter and how the HTTP request ends. *)
Record fetch (R : Type) : Type := mkFetch {
  api_retry_after_minutes : Z;
  clock_available : Z;
  clock_limited : Z;
  response : RateLimitedClient.call R
}.
Arguments mkFetch {R} _ _ _ _.
Arguments api_retry_after_minutes {R} _.
Arguments clock_available {R} _.
Arguments clock_limited {R} _.
Arguments response {R} _.

Definition rate_limited_execute {R : Type} (f : fetch R) (default : R)
    (rate_limiter : RateLimitedClient.t) : RateLimitedClient.t * Py.outcome R :=
  RateLimitedClient.execute (api_retry_after_minutes f) (clock_available f)
    (clock_limited f) (response f) default rate_limiter.

(** The list comprehension of [get_markets]: the i-th call of
    [is_market_current] reads the clock at [clock i]. *)
Fixpoint filter_current (clock : nat -> Z) (i : nat) (markets : list Market.t)
  : list Market.t :=
  match markets with
  | [] => []
  | m :: rest =>
      if is_market_current (clock i) m then m :: filter_current clock (S i) rest
      else filter_current clock (S i) rest
  end.

(** [get_markets]; [result or []] is [result] for a list. *)
Definition get_markets (f : fetch (list Market.t)) (clock : nat -> Z)
    (filter_current_flag : bool) (rate_limiter : RateLimitedClient.t)
  : RateLimitedClient.t * Py.outcome (list Market.t) :=
  match rate_limited_execute f [] rate_limiter with
  | (rate_limiter, Py.Raise e) => (rate_limiter, Py.Raise e)
  | (rate_limiter, Py.Ok markets) =>
      if filter_current_flag then
        (rate_limiter, Py.Ok (filter_current clock 0 markets))
      else (rate_limiter, Py.Ok markets)
  end.

(** [get_market]. *)
Definition get_market (f : fetch (option Market.t)) (rate_limiter : RateLimitedClient.t)
  : RateLimitedClient.t * Py.outcome (option Market.t) :=
  rate_limited_execute f None rate_limiter.

(** [get_market_by_slug]; [clock] is the reading of [is_market_current]. *)
Definition get_market_by_slug (f : fetch (option Market.t)) (clock : Z)
    (require_current : bool) (rate_limiter : RateLimitedClient.t)
  : RateLimitedClient.t * Py.outcome (option Market.t) :=
  match rate_limited_execute f None rate_limiter with
  | (rate_limiter, Py.Raise e) => (rate_limiter, Py.Raise e)
  | (rate_limiter, Py.Ok None) => (rate_limiter, Py.Ok None)
  | (rate_limiter, Py.Ok (Some market)) =>
      if require_current && negb (is_market_current clock market) then
        (rate_limiter, Py.Ok None)
      else (rate_limiter, Py.Ok (Some market))
  end.

End PolymarketDataSource.

(* ================================================================== *)
(** ** api/routes/tracking.py *)

Definition SignalStatus_value (s : SignalStatus) : string :=
  match s with
  | ACTIVE => "ACTIVE"
  | RESOLVED_WIN => "RESOLVED_WIN"
  | RESOLVED_LOSS => "RESOLVED_LOSS"
  | EXPIRED => "EXPIRED"
  end.

Module TrackingRoutes.

(** [needle in haystack] on strings. *)
Fixpoint contains (needle haystack : string) : bool :=
  if String.prefix needle haystack then true
  else
    match haystack with
    | EmptyString => false
    | String _ rest => contains needle rest
    end.

(** [signal_id] keeps the identity that [str(signal.id)] prints. *)
Record TrackingUpdateDetail : Type := mkDetail {
  signal_id : UUID;
  status : string;
  current_gain_pct : option Q;
  final_gain_pct : option Q;
  error : option string
}.

Record TrackingUpdateResponse : Type := mkResponse {
  signals_updated : Z;
  signals_resolved : Z;
  signals_expired : Z;
  errors : Z;
  update_time : datetime.t;
  details : list TrackingUpdateDetail
}.

(** The counters and the details the loop of [trigger_tracking_update]
    accumulates. *)
Record tally : Type := mkTally {
  tally_updated : Z;
  tally_resolved : Z;
  tally_expired : Z;
  tally_errors : Z;
  tally_details : list TrackingUpdateDetail
}.

(** The body of the [try] after [update_signal_tracking] has returned. *)
Definition report (original_status : string) (updated_signal : Signal.t) (t : tally)
  : tally :=
  let detail := mkDetail (Signal.id updated_signal) "updated" None None None in
  let value := SignalStatus_value (Signal.status updated_signal) in
  if negb (String.eqb value original_status) then
    if contains "RESOLVED" value then
      mkTally (tally_updated t) (tally_resolved t + 1) (tally_expired t) (tally_errors t)
        (tally_details t
           ++ [mkDetail (signal_id detail) "resolved" (current_gain_pct detail)
                 (Signal.gain_final_pct updated_signal) (error detail)])
    else if String.eqb value "EXPIRED" then
      mkTally (tally_updated t) (tally_resolved t) (tally_expired t + 1) (tally_errors t)
        (tally_details t
           ++ [mkDetail (signal_id detail) "expired" (current_gain_pct detail)
                 (final_gain_pct detail) (error detail)])
    else
      mkTally (tally_updated t) (tally_resolved t) (tally_expired t) (tally_errors t)
        (tally_details t ++ [detail])
  else
    let current_gain :=
      match Signal.gain_7d_pct updated_signal with
      | Some g => Some g
      | None =>
          match Signal.gain_24h_pct updated_signal with
          | Some g => Some g
          | None => Signal.gain_1h_pct updated_signal
          end
      end in
    mkTally (tally_updated t + 1) (tally_resolved t) (tally_expired t) (tally_errors t)
      (tally_details t
         ++ [mkDetail (signal_id detail) (status detail) current_gain
               (final_gain_pct detail) (error detail)]).

(** The [except Exception] handler. *)
Definition report_error (signal : Signal.t) (e : Py.exn) (t : tally) : tally :=
  mkTally (tally_updated t) (tally_resolved t) (tally_expired t) (tally_errors t + 1)
    (tally_details t ++ [mkDetail (Signal.id signal) "error" None None (Some (Py.str e))]).

(** The [for signal in active_signals] loop: the signals as it leaves them,
    the store writes, and the tally. *)
Fixpoint update_loop (active_signals : list (Signal.t * SignalTracker.tick))
    (writes : list Signal.t) (t : tally)
  : list Signal.t * list Signal.t * Py.outcome tally :=
  match active_signals with
  | [] => ([], writes, Py.Ok t)
  | (signal, tk) :: rest =>
      let original_status := SignalStatus_value (Signal.status signal) in
      match SignalTracker.update_signal_tracking tk (SignalTracker.mkState signal writes) with
      | (st, Py.Ok _) =>
          let '(signals, writes, o) :=
            update_loop rest (SignalTracker.db_updates st)
              (report original_status (SignalTracker.signal st) t) in
          (SignalTracker.signal st :: signals, writes, o)
      | (st, Py.Raise e) =>
          if Py.isinstance_Exception e then
            let '(signals, writes, o) :=
              update_loop rest (SignalTracker.db_updates st)
                (report_error (SignalTracker.signal st) e t) in
            (SignalTracker.signal st :: signals, writes, o)
          else
            (SignalTracker.signal st :: map fst rest, SignalTracker.db_updates st,
             Py.Raise e)
      end
  end.

(** [trigger_tracking_update].  [get_active_signals] is the answer of the
    store to the handler, [get_active_signals_again] its answer to the
    tracker's [expire_stale_signals], [clock_cutoff] the reading of that
    sweep, [tracking_expire_days] the setting of that name, and [clock] the
    reading of [update_time].  The result: the store writes, the time handed
    to [set_last_tracking_run] if that point is reached, and the response. *)
Definition trigger_tracking_update (tracking_expire_days : Z)
    (get_active_signals : Py.outcome (list (Signal.t * SignalTracker.tick)))
    (clock_cutoff : Z)
    (get_active_signals_again : Py.outcome (list (Signal.t * SignalTracker.expiry)))
    (clock : Z)
  : list Signal.t * option datetime.t * Py.outcome TrackingUpdateResponse :=
  match get_active_signals with
  | Py.Raise e => ([], None, Py.Raise e)
  | Py.Ok active_signals =>
      match update_loop active_signals [] (mkTally 0 0 0 0 []) with
      | (_, writes, Py.Raise e) => (writes, None, Py.Raise e)
      | (_, writes, Py.Ok t) =>
          match SignalTracker.expire_stale_signals clock_cutoff tracking_expire_days
                  get_active_signals_again with
          | (_, expired_writes, Py.Raise e) =>
              (writes ++ expired_writes, None, Py.Raise e)
          | (_, expired_writes, Py.Ok expired_count) =>
              let update_time := datetime.now_utc clock in
              (writes ++ expired_writes, Some update_time,
               Py.Ok (mkResponse (tally_updated t) (tally_resolved t)
                        (tally_expired t + expired_count) (tally_errors t)
                        update_time (tally_details t)))
          end
      end
  end.

End TrackingRoutes.

(* ================================================================== *)
(** ** Python floats as binary64 *)

(** A Python [float] with the rounding of its arithmetic: an IEEE 754
    binary64 number, every operation rounded to nearest, ties to even. *)
Module F64.

Definition t : Type := spec_float.

Definition prec : Z := 53.
Definition emax : Z := 1024.

Definition add : t -> t -> t := SFadd prec emax.
Definition sub : t -> t -> t := SFsub prec emax.
Definition mul : t -> t -> t := SFmul prec emax.

(** [x / y] for a divisor that is a non-zero literal. *)
Definition div : t -> t -> t := SFdiv prec emax.

Definition abs : t -> t := SFabs.

(** Comparisons: every comparison with a NaN is false. *)
Definition lt (x y : t) : bool := SFltb x y.
Definition le (x y : t) : bool := SFleb x y.
Definition gt (x y : t) : bool := SFltb y x.
Definition ge (x y : t) : bool := SFleb y x.
Definition eq (x y : t) : bool := SFeqb x y.

(** The float nearest to the fraction [n / d], for [d > 0]. *)
Definition ratio (n d : Z) : t :=
  match n, d with
  | Z0, _ => S754_zero false
  | Zpos p, Zpos q => div (S754_finite false p 0) (S754_finite false q 0)
  | Zneg p, Zpos q => div (S754_finite true p 0) (S754_finite false q 0)
  | _, _ => S754_nan
  end.

(** An [int] literal in float arithmetic, as [2] in [x / 2]. *)
Definition int (n : Z) : t := ratio n 1.

(** A decimal literal: [lit 5 2] is [0.05], the float nearest to 5/100. *)
Definition lit (n : Z) (decimals : nat) : t := ratio n (10 ^ Z.of_nat decimals).

(** An [int] value converted for an operation with a float. *)
Definition of_int (n : Z) : Py.outcome t :=
  match int n with
  | S754_infinity _ => Py.Raise (Py.Exception "int too large to convert to float")
  | x => Py.Ok x
  end.

(** [a / b] on two [int]s, for a positive [b]: the quotient, correctly
    rounded. *)
Definition int_truediv (a : Z) (b : positive) : Py.outcome t :=
  match ratio a (Zpos b) with
  | S754_infinity _ =>
      Py.Raise (Py.Exception "integer division result too large for a float")
  | x => Py.Ok x
  end.

Definition is_zero (x : t) : bool :=
  match x with
  | S754_zero _ => true
  | _ => false
  end.

(** [x / y] for a divisor that may be zero. *)
Definition truediv (x y : t) : Py.outcome t :=
  if is_zero y then Py.Raise Py.ZeroDivisionError else Py.Ok (div x y).

(** [min(a, b)]: the first argument wins unless the second is smaller. *)
Definition min (a b : t) : t := if lt b a then b else a.

(** The exact value of a finite float. *)
Definition to_Q (x : t) : Q :=
  match x with
  | S754_finite s m e =>
      let n := if s then Zneg m else Zpos m in
      match e with
      | Z0 => inject_Z n
      | Zpos p => inject_Z (n * Z.pow_pos 2 p)
      | Zneg p => Qmake n (Pos.shiftl 1 (Npos p))
      end
  | _ => 0
  end.

(** [round(x, 2)]: the exact value of [x] is rounded to two decimals, a tie
    going to the even one, and the float nearest to that decimal is
    returned; a zero result keeps the sign of [x]; an infinity and a NaN are
    returned as they are. *)
Definition round2 (x : t) : t :=
  match x with
  | S754_finite s _ _ =>
      match Py.round_half_even (to_Q x * 100) with
      | Z0 => S754_zero s
      | n => ratio n 100
      end
  | _ => x
  end.

End F64.

(* ================================================================== *)
(** ** The gain and the threshold rules in binary64 *)

(** [Signal.calculate_gain] and the three rules that compare a quotient
    with a threshold, over [F64]: what these functions return to the last
    bit. *)
Module Binary64.

Module Signal.

(** The fields of [Signal] that [calculate_gain] reads. *)
Record t : Type := mk {
  direction : SignalDirection;
  entry_price : F64.t
}.

(** [Signal.calculate_gain]. *)
Definition calculate_gain (self : t) (current_price : F64.t) : Py.outcome F64.t :=
  match direction self with
  | BUY =>
      q <- F64.truediv (F64.sub current_price (entry_price self)) (entry_price self) ;;
      Py.Ok (F64.mul q (F64.int 100))
  | SELL =>
      q <- F64.truediv (F64.sub (entry_price self) current_price) (entry_price self) ;;
      Py.Ok (F64.mul q (F64.int 100))
  end.

End Signal.

Module Market.

(** The fields of [Market] that the three rules read. *)
Record t : Type := mk {
  volume_24h : F64.t;
  current_price : option F64.t
}.

End Market.

Module SocialSentiment.
Record t : Type := mk { sentiment_score : F64.t }.
End SocialSentiment.

(** The reasoning f-strings of the three rules, by the values they
    format. *)
Inductive Reasoning : Type :=
| VolumeSurgedRising (volume_ratio previous_volume_24h volume_24h price_change : F64.t)
| VolumeSurgedFalling (volume_ratio previous_volume_24h volume_24h price_change : F64.t)
| MentionsSpikedPositive (hourly_ratio : F64.t) (mention_count_1h : Z)
    (avg_hourly sentiment : F64.t)
| MentionsSpikedNegative (hourly_ratio : F64.t) (mention_count_1h : Z)
    (avg_hourly sentiment : F64.t)
| PriceJumped (price_change : F64.t) (vol_note : option F64.t)
| PriceDropped (price_change : F64.t) (vol_note : option F64.t).

Module SignalCandidate.

Record t : Type := mk {
  signal_type : SignalType;
  direction : SignalDirection;
  confidence : F64.t;
  reasoning : Reasoning;
  news_sentiment_score : option F64.t;
  social_mention_count_24h : option Z;
  social_sentiment_score : option F64.t
}.

End SignalCandidate.

Module VolumeSurgeRule.

(** The two attributes [__init__] sets. *)
Record t : Type := mk {
  volume_multiplier : F64.t;
  price_change_threshold : F64.t
}.

Definition evaluate (self : t) (market : Market.t)
    (previous_price previous_volume_24h : option F64.t)
  : Py.outcome (option SignalCandidate.t) :=
  match previous_price, previous_volume_24h with
  | Some previous_price, Some previous_volume_24h =>
      match Market.current_price market with
      | None => Py.Ok None
      | Some current_price =>
          if F64.eq previous_volume_24h (F64.int 0) then Py.Ok None
          else
            volume_ratio <- F64.truediv (Market.volume_24h market) previous_volume_24h ;;
            if F64.lt volume_ratio (volume_multiplier self) then Py.Ok None
            else
              price_change <-
                F64.truediv (F64.sub current_price previous_price) previous_price ;;
              if F64.lt (F64.abs price_change) (price_change_threshold self)
              then Py.Ok None
              else
                let (direction, reasoning) :=
                  if F64.gt price_change (F64.int 0) then
                    (BUY, VolumeSurgedRising volume_ratio previous_volume_24h
                            (Market.volume_24h market) price_change)
                  else
                    (SELL, VolumeSurgedFalling volume_ratio previous_volume_24h
                             (Market.volume_24h market) price_change) in
                let confidence :=
                  F64.min (F64.int 1)
                    (F64.add
                       (F64.div (F64.sub volume_ratio (volume_multiplier self))
                          (F64.int 2))
                       (F64.lit 5 1)) in
                Py.Ok (Some {|
                  SignalCandidate.signal_type := VOLUME_SURGE;
                  SignalCandidate.direction := direction;
                  SignalCandidate.confidence := F64.round2 confidence;
                  SignalCandidate.reasoning := reasoning;
                  SignalCandidate.news_sentiment_score := None;
                  SignalCandidate.social_mention_count_24h := None;
                  SignalCandidate.social_sentiment_score := None
                |})
      end
  | _, _ => Py.Ok None
  end.

End VolumeSurgeRule.

Module SocialSpikeRule.

(** The two attributes [__init__] sets. *)
Record t : Type := mk {
  mention_multiplier : F64.t;
  sentiment_threshold : F64.t
}.

(** [mention_count_24h / 24 if mention_count_24h else 1]: a quotient of two
    [int]s, or the [int] 1, which enters the arithmetic as 1.0. *)
Definition avg_hourly (social_mentions : SocialMention.t) : Py.outcome F64.t :=
  if (SocialMention.mention_count_24h social_mentions =? 0)%Z then Py.Ok (F64.int 1)
  else F64.int_truediv (SocialMention.mention_count_24h social_mentions) 24.

(** [mention_count_1h / avg_hourly if avg_hourly > 0 else 0]: an [int]
    divided by the [int] 1, or by a float; the [int] 0 enters the arithmetic
    as 0.0. *)
Definition hourly_ratio (social_mentions : SocialMention.t) (avg_hourly : F64.t)
  : Py.outcome F64.t :=
  if F64.gt avg_hourly (F64.int 0) then
    if (SocialMention.mention_count_24h social_mentions =? 0)%Z then
      F64.int_truediv (SocialMention.mention_count_1h social_mentions) 1
    else
      mention_count_1h <- F64.of_int (SocialMention.mention_count_1h social_mentions) ;;
      F64.truediv mention_count_1h avg_hourly
  else Py.Ok (F64.int 0).

Definition evaluate (self : t)
    (social_mentions : option SocialMention.t)
    (social_sentiment : option SocialSentiment.t)
  : Py.outcome (option SignalCandidate.t) :=
  match social_mentions, social_sentiment with
  | Some social_mentions, Some social_sentiment =>
      let score := SocialSentiment.sentiment_score social_sentiment in
      avg_hourly <- avg_hourly social_mentions ;;
      hourly_ratio <- hourly_ratio social_mentions avg_hourly ;;
      if F64.lt hourly_ratio (mention_multiplier self) then Py.Ok None
      else if F64.lt (F64.abs score) (sentiment_threshold self) then Py.Ok None
      else
        let (direction, reasoning) :=
          if F64.gt score (F64.int 0) then
            (BUY, MentionsSpikedPositive hourly_ratio
                    (SocialMention.mention_count_1h social_mentions) avg_hourly score)
          else
            (SELL, MentionsSpikedNegative hourly_ratio
                     (SocialMention.mention_count_1h social_mentions) avg_hourly score) in
        q <- F64.truediv (F64.sub hourly_ratio (mention_multiplier self))
               (mention_multiplier self) ;;
        let spike_confidence := F64.min (F64.int 1) (F64.add q (F64.lit 5 1)) in
        let sentiment_confidence := F64.abs score in
        let confidence :=
          F64.div (F64.add spike_confidence sentiment_confidence) (F64.int 2) in
        Py.Ok (Some {|
          SignalCandidate.signal_type := SOCIAL_SPIKE;
          SignalCandidate.direction := direction;
          SignalCandidate.confidence := F64.round2 confidence;
          SignalCandidate.reasoning := reasoning;
          SignalCandidate.news_sentiment_score := None;
          SignalCandidate.social_mention_count_24h :=
            Some (SocialMention.mention_count_24h social_mentions);
          SignalCandidate.social_sentiment_score := Some score
        |})
  | _, _ => Py.Ok None
  end.

End SocialSpikeRule.

Module PriceMomentumRule.

(** The two attributes [__init__] sets. *)
Record t : Type := mk {
  price_threshold : F64.t;
  min_volume_ratio : F64.t
}.

(** The volume confirmation: [Some volume_ratio] when confirmed.  A float is
    truthy unless it is zero. *)
Definition volume_confirmation (self : t) (market : Market.t)
    (previous_volume_24h : option F64.t) : Py.outcome (option F64.t) :=
  match previous_volume_24h with
  | Some pv =>
      if negb (F64.is_zero pv) && F64.gt pv (F64.int 0) then
        volume_ratio <- F64.truediv (Market.volume_24h market) pv ;;
        Py.Ok (if F64.ge volume_ratio (min_volume_ratio self)
               then Some volume_ratio else None)
      else Py.Ok None
  | None => Py.Ok None
  end.

Definition evaluate (self : t) (market : Market.t)
    (previous_price previous_volume_24h : option F64.t)
  : Py.outcome (option SignalCandidate.t) :=
  match previous_price, Market.current_price market with
  | Some previous_price, Some current_price =>
      price_change <-
        F64.truediv (F64.sub current_price previous_price) previous_price ;;
      if F64.lt (F64.abs price_change) (price_threshold self) then Py.Ok None
      else
        vol_note <- volume_confirmation self market previous_volume_24h ;;
        let volume_confirmed := negb (Py.is_None vol_note) in
        if negb volume_confirmed
           && F64.lt (F64.abs price_change) (F64.mul (price_threshold self) (F64.lit 15 1))
        then Py.Ok None
        else
          let (direction, reasoning) :=
            if F64.gt price_change (F64.int 0) then (BUY, PriceJumped price_change vol_note)
            else (SELL, PriceDropped price_change vol_note) in
          q <- F64.truediv (F64.abs price_change) (price_threshold self) ;;
          let base_confidence := F64.min (F64.int 1) (F64.mul q (F64.lit 5 1)) in
          let base_confidence :=
            if volume_confirmed then F64.add base_confidence (F64.lit 3 1)
            else base_confidence in
          let confidence := F64.min (F64.int 1) base_confidence in
          Py.Ok (Some {|
            SignalCandidate.signal_type := PRICE_MOMENTUM;
            SignalCandidate.direction := direction;
            SignalCandidate.confidence := F64.round2 confidence;
            SignalCandidate.reasoning := reasoning;
            SignalCandidate.news_sentiment_score := None;
            SignalCandidate.social_mention_count_24h := None;
            SignalCandidate.social_sentiment_score := None
          |})
  | _, _ => Py.Ok None
  end.

End PriceMomentumRule.

End Binary64.

(* ================================================================== *)
(** ** Vocabulary of the tracker properties *)

(** The three horizons, their length in hours and their price field. *)
Inductive Horizon : Type := Horizon_1h | Horizon_24h | Horizon_7d.

Definition horizon_hours (h : Horizon) : Q :=
  match h with
  | Horizon_1h => 1
  | Horizon_24h => 24
  | Horizon_7d => 168
  end.

Definition horizon_price (h : Horizon) (s : Signal.t) : option Q :=
  match h with
  | Horizon_1h => Signal.price_1h s
  | Horizon_24h => Signal.price_24h s
  | Horizon_7d => Signal.price_7d s
  end.

(** What a call may do to one horizon price field, given the elapsed hours
    and the price it works with: leave it as it is, or fill it when it was
    unset and the horizon [horizon] has been reached. *)
Definition horizon_step (horizon hours price : Q) (before after : option Q) : Prop :=
  after = before \/ (before = None /\ horizon <= hours /\ after = Some price).

(** The same for the three horizon fields of a signal; the creation time
    stays. *)
Definition tracking_step (hours price : Q) (s s' : Signal.t) : Prop :=
  horizon_step 1 hours price (Signal.price_1h s) (Signal.price_1h s')
  /\ horizon_step 24 hours price (Signal.price_24h s) (Signal.price_24h s')
  /\ horizon_step 168 hours price (Signal.price_7d s) (Signal.price_7d s')
  /\ Signal.created_at s' = Signal.created_at s.

(** The horizon fields and the creation time are the same in both signals. *)
Definition same_horizons (s s' : Signal.t) : Prop :=
  Signal.price_1h s' = Signal.price_1h s
  /\ Signal.price_24h s' = Signal.price_24h s
  /\ Signal.price_7d s' = Signal.price_7d s
  /\ Signal.created_at s' = Signal.created_at s.

(** A computation of the tracker keeps the relation [R] between the signal
    before and the signal after, whether it returns or raises. *)
Definition keeps (R : Signal.t -> Signal.t -> Prop) {A : Type}
    (m : SignalTracker.M A) : Prop :=
  forall st, R (SignalTracker.signal st) (SignalTracker.signal (fst (m st))).

(** The tick [tk] fills a horizon field of the signal [s]: the field was
    unset, the elapsed hours have reached [horizon], and the new value is the
    current price of the market the tick fetched, a market that is current. *)
Definition filled_by (tk : SignalTracker.tick) (s : Signal.t) (horizon : Q)
    (before after : option Q) : Prop :=
  before = None
  /\ horizon <= SignalTracker.elapsed tk s
  /\ exists market price,
       SignalTracker.get_market tk = Py.Ok (Some market)
       /\ Market.current_price market = Some price
       /\ is_market_current (SignalTracker.clock_is_current tk) market = true
       /\ after = Some price.

(* ================================================================== *)
(** ** The quality filter in the words of the specification *)

Module SkipSpec.

(** The ordinal of a tier: THIN < LOW < MEDIUM < HIGH. *)
Definition tier_rank (t : MarketTier) : Z :=
  match t with
  | THIN => 0
  | LOW => 1
  | MEDIUM => 2
  | HIGH => 3
  end.

Definition parse_tier (name : string) : option MarketTier :=
  if String.eqb name "THIN" then Some THIN
  else if String.eqb name "LOW" then Some LOW
  else if String.eqb name "MEDIUM" then Some MEDIUM
  else if String.eqb name "HIGH" then Some HIGH
  else None.

(** The ordinal of the configured minimum tier; a name that is none of the
    four counts as LOW. *)
Definition min_tier_rank (settings : Settings.t) : Z :=
  match parse_tier (SignalGenerator.upper (Settings.min_market_tier settings)) with
  | Some t => tier_rank t
  | None => tier_rank LOW
  end.

Definition when (condition : bool) (reason : SignalGenerator.SkipReason)
  : option SignalGenerator.SkipReason :=
  if condition then Some reason else None.

(** The seven skip conditions in their priority order, each with the reason
    it reports when it applies. *)
Definition skip_checks (settings : Settings.t) (clock : Z) (market : Market.t)
  : list (option SignalGenerator.SkipReason) :=
  [ (* closed *)
    when (Market.closed market) (SignalGenerator.ReasonText "Market is closed");
    (* archived *)
    when (Market.archived market) (SignalGenerator.ReasonText "Market is archived");
    (* not accepting orders *)
    when (negb (Market.accepting_orders market))
         (SignalGenerator.ReasonText "Market is not accepting orders");
    (* already past end date *)
    match Market.end_date market with
    | Some end_date =>
        when (datetime.micros end_date <? clock)%Z
             (SignalGenerator.ReasonText "Market has already expired")
    | None => None
    end;
    (* fewer than min_days_to_expiry days remaining *)
    match Market.end_date market with
    | Some end_date =>
        let days := datetime.days (datetime.micros end_date - clock) in
        when (days <? Settings.min_days_to_expiry settings)%Z
             (SignalGenerator.ExpiresInDays days (Settings.min_days_to_expiry settings))
    | None => None
    end;
    (* volume tier below min_market_tier *)
    when (tier_rank (Market.tier_or_computed market) <? min_tier_rank settings)%Z
         (SignalGenerator.TierBelowMinimum
            (MarketTier_value (Market.tier_or_computed market))
            (Settings.min_market_tier settings));
    (* current price outside [min_price_for_signals, max_price_for_signals] *)
    match Market.current_price market with
    | Some price =>
        if Py.lt price (Settings.min_price_for_signals settings) then
          Some (SignalGenerator.PriceBelowMinimum price
                  (Settings.min_price_for_signals settings))
        else
          when (Py.gt price (Settings.max_price_for_signals settings))
               (SignalGenerator.PriceAboveMaximum price
                  (Settings.max_price_for_signals settings))
    | None => None
    end ].

(** First match wins; [(false, "")] when no condition applies. *)
Fixpoint first_match (checks : list (option SignalGenerator.SkipReason))
  : bool * SignalGenerator.SkipReason :=
  match checks with
  | [] => (false, SignalGenerator.ReasonText "")
  | Some reason :: _ => (true, reason)
  | None :: rest => first_match rest
  end.

Definition is_price_reason (reason : SignalGenerator.SkipReason) : bool :=
  match reason with
  | SignalGenerator.PriceBelowMinimum _ _ => true
  | SignalGenerator.PriceAboveMaximum _ _ => true
  | _ => false
  end.

End SkipSpec.

(* ================================================================== *)
(** ** Vocabulary of the rule properties *)

(** The move is volume-confirmed: a positive previous 24h volume is supplied
    and the quotient of the 24h volume by it is at least
    [min_volume_ratio]. *)
Definition volume_confirmed (rule : Binary64.PriceMomentumRule.t)
    (market : Binary64.Market.t) (previous_volume_24h : option F64.t) : Prop :=
  exists v,
    previous_volume_24h = Some v /\ F64.gt v (F64.int 0) = true
    /\ F64.ge (F64.div (Binary64.Market.volume_24h market) v)
         (Binary64.PriceMomentumRule.min_volume_ratio rule) = true.

(** The resolution block of a signal, and the two fields the gain is computed
    from, are the same in both signals. *)
Definition same_resolution (s s' : Signal.t) : Prop :=
  Signal.status s' = Signal.status s
  /\ Signal.price_at_resolution s' = Signal.price_at_resolution s
  /\ Signal.gain_final_pct s' = Signal.gain_final_pct s
  /\ Signal.resolved_at s' = Signal.resolved_at s
  /\ Signal.entry_price s' = Signal.entry_price s
  /\ Signal.direction s' = Signal.direction s.

(** The signal [s'] is the signal [s] resolved on [market] at clock reading
    [clock]: final price and gain recorded, RESOLVED_WIN for a positive gain
    and RESOLVED_LOSS otherwise. *)
Definition resolved_from (market : Market.t) (clock : Z) (s s' : Signal.t) : Prop :=
  exists price gain,
    Market.current_price market = Some price
    /\ Signal.calculate_gain s price = Py.Ok gain
    /\ Signal.status s' = (if Py.gt gain 0 then RESOLVED_WIN else RESOLVED_LOSS)
    /\ Signal.price_at_resolution s' = Some price
    /\ Signal.gain_final_pct s' = Some gain
    /\ Signal.resolved_at s' = Some (datetime.now_utc clock).

(** A computation of the tracker that does not write to the store. *)
Definition writes_nothing {A : Type} (m : SignalTracker.M A) : Prop :=
  forall st, SignalTracker.db_updates (fst (m st)) = SignalTracker.db_updates st.

(** The tick gives [update_signal_tracking] nothing to do for a signal of
    status [status]: no market, a market without a price, or a market that
    is not current and is either not closed or finds the signal no longer
    ACTIVE. *)
Definition nothing_to_track (tk : SignalTracker.tick) (status : SignalStatus) : Prop :=
  SignalTracker.get_market tk = Py.Ok None
  \/ exists market,
       SignalTracker.get_market tk = Py.Ok (Some market)
       /\ (Market.current_price market = None
           \/ (is_market_current (SignalTracker.clock_is_current tk) market = false
               /\ (Market.closed market = false \/ status <> ACTIVE))).

(** A computation of the tracker that writes to the store at most once, the
    signal written being the signal as the computation leaves it. *)
Definition writes_once_at_end {A : Type} (m : SignalTracker.M A) : Prop :=
  forall st,
    SignalTracker.db_updates (fst (m st)) = SignalTracker.db_updates st
    \/ SignalTracker.db_updates (fst (m st))
       = SignalTracker.db_updates st ++ [SignalTracker.signal (fst (m st))].

(* ================================================================== *)
(** ** Vocabulary of the rate limiter properties *)

(** The states a [RateLimitedClient] reaches from its construction through
    [is_available] and [execute], the two methods the data sources and the
    scanner call on it, one call after the other. *)
Inductive reachable : RateLimitedClient.t -> Prop :=
| reachable_init (name : string) : reachable (RateLimitedClient.init name)
| reachable_is_available (clock : Z) (self : RateLimitedClient.t) :
    reachable self -> reachable (fst (RateLimitedClient.is_available clock self))
| reachable_execute (R : Type) (api_retry_after_minutes clock_available clock_limited : Z)
    (func : RateLimitedClient.call R) (default : R) (self : RateLimitedClient.t) :
    reachable self ->
    reachable (fst (RateLimitedClient.execute api_retry_after_minutes clock_available
                      clock_limited func default self)).

(** The time a client is rate limited until, in microseconds. *)
Definition limited_until (self : RateLimitedClient.t) : option Z :=
  option_map datetime.micros (RateLimitedClient.rate_limited_until self).

(** [func] does not end in an exception outside [Exception]. *)
Definition catchable {R : Type} (func : RateLimitedClient.call R) : Prop :=
  forall e, func = RateLimitedClient.Raised e -> Py.isinstance_Exception e = true.

(** The deadline [seconds] after the reading [clock] is a [datetime]:
    [timedelta(seconds=...)] can be built and the sum lies within
    [datetime.min] and [datetime.max]. *)
Definition representable (clock seconds : Z) : Prop :=
  (- 999999999 <= seconds / 86400 <= 999999999)%Z
  /\ (0 <= clock + seconds * 1000000 <= RateLimitedClient.datetime_range)%Z.

(** The [except] clause that [func] reaches in [execute] returns: [func]
    did not end in a 429 response whose [retry-after] header [int] refuses,
    or whose [retry-after], being used, names a deadline that is not a
    [datetime]. *)
Definition handler_returns {R : Type} (clock_limited : Z)
    (func : RateLimitedClient.call R) : Prop :=
  match func with
  | RateLimitedClient.HTTPStatusError status_code _ (Some seconds) =>
      status_code = 429%Z -> seconds <> 0%Z -> representable clock_limited seconds
  | RateLimitedClient.RetryAfterRejected status_code _ _ => status_code <> 429%Z
  | _ => True
  end.

(** A market that is neither closed nor archived and accepts orders. *)
Definition open_for_trading (m : Market.t) : Prop :=
  Market.closed m = false /\ Market.archived m = false
  /\ Market.accepting_orders m = true.

(** The fetch [f] hands no market to its caller: the limiter refuses the
    call, or the request ends otherwise than by returning a market. *)
Definition delivers_no_market (f : PolymarketDataSource.fetch (option Market.t))
    (rate_limiter : RateLimitedClient.t) : Prop :=
  snd (RateLimitedClient.is_available (PolymarketDataSource.clock_available f)
         rate_limiter) = false
  \/ forall m, PolymarketDataSource.response f <> RateLimitedClient.Returned (Some m).

(* ================================================================== *)
(** ** Vocabulary of the sweep properties *)

(** One call of [update_signal_tracking] on a signal, taken by itself. *)
Definition tracked_alone (x : Signal.t * SignalTracker.tick)
  : SignalTracker.state * Py.outcome unit :=
  SignalTracker.update_signal_tracking (snd x) (SignalTracker.mkState (fst x) []).

Definition returned {A : Type} (o : Py.outcome A) : bool :=
  match o with
  | Py.Ok _ => true
  | Py.Raise _ => false
  end.

(** The outcome is a value, or an exception inside [Exception]. *)
Definition caught {A : Type} (o : Py.outcome A) : Prop :=
  match o with
  | Py.Ok _ => True
  | Py.Raise e => Py.isinstance_Exception e = true
  end.

(** A signal created more than [max_age_days] days before [clock]. *)
Definition stale (clock max_age_days : Z) (s : Signal.t) : bool :=
  (datetime.micros (Signal.created_at s) <? clock - max_age_days * 86400000000)%Z.

(** The signal [s] marked as expired at the reading [clock]: status and
    resolution time are set, every other field is kept. *)
Definition expired_at (clock : Z) (s : Signal.t) : Signal.t :=
  Signal.with_tracking s
    (Signal.price_1h s) (Signal.price_24h s) (Signal.price_7d s)
    (Signal.price_at_resolution s)
    (Signal.gain_1h_pct s) (Signal.gain_24h_pct s) (Signal.gain_7d_pct s)
    (Signal.gain_final_pct s)
    EXPIRED (Some (datetime.now_utc clock)).

(** What the sweep makes of one signal. *)
Definition swept (clock max_age_days : Z) (x : Signal.t * SignalTracker.expiry)
  : Signal.t :=
  if stale clock max_age_days (fst x)
  then expired_at (SignalTracker.clock_expired (snd x)) (fst x)
  else fst x.

(** A computation of the tracker whose effect on the signal and whose
    result do not depend on the store writes made before it, and which only
    appends to them. *)
Definition framed {A : Type} (m : SignalTracker.M A) : Prop :=
  forall (s : Signal.t) (w : list Signal.t),
    m (SignalTracker.mkState s w)
    = (SignalTracker.mkState
         (SignalTracker.signal (fst (m (SignalTracker.mkState s []))))
         (w ++ SignalTracker.db_updates (fst (m (SignalTracker.mkState s [])))),
       snd (m (SignalTracker.mkState s []))).

(* ================================================================== *)
(** ** Vocabulary of the discovery properties *)

(** A market that passes the filters of [_discover_markets]: not excluded,
    of sufficient volume, and priced within the signal bounds. *)
Definition eligible (settings : Settings.t) (exclude_ids : list string)
    (min_volume : Q) (m : Market.t) : Prop :=
  ~ In (Market.id m) exclude_ids
  /\ min_volume <= Market.volume m
  /\ exists price,
       Market.current_price m = Some price
       /\ Settings.min_price_for_signals settings <= price
       /\ price <= Settings.max_price_for_signals settings.

Definition eligibleb (settings : Settings.t) (exclude_ids : list string)
    (min_volume : Q) (m : Market.t) : bool :=
  negb (SignalScanner.in_ids (Market.id m) exclude_ids)
  && negb (Py.lt (Market.volume m) min_volume)
  && match Market.current_price m with
     | Some price =>
         negb (Py.lt price (Settings.min_price_for_signals settings))
         && negb (Py.gt price (Settings.max_price_for_signals settings))
     | None => false
     end.

(** A market that is not excluded, has the volume, and has no price. *)
Definition unpriced_candidate (exclude_ids : list string) (min_volume : Q)
    (m : Market.t) : bool :=
  negb (SignalScanner.in_ids (Market.id m) exclude_ids)
  && negb (Py.lt (Market.volume m) min_volume)
  && Py.is_None (Market.current_price m).

(** Volumes do not increase along the list. *)
Definition by_volume_descending (l : list Market.t) : Prop :=
  StronglySorted (fun a b => Market.volume b <= Market.volume a) l.




(* ================================================================== *)
(** ** Vocabulary of the context properties *)

(** The news context a scan works with: the answer of the news source,
    unless the API is skipped or the call failed. *)
Definition news_context (settings : Settings.t) (obs : SignalScanner.observation)
  : option NewsSentiment.t :=
  if Settings.skip_news_api settings then None
  else match SignalScanner.news_answer obs with
       | Py.Ok news => news
       | Py.Raise _ => None
       end.

(** The social context: both answers of the social source when both calls
    succeeded and the API is not skipped, nothing otherwise. *)
Definition social_context (settings : Settings.t) (obs : SignalScanner.observation)
  : option SocialMention.t * option SocialSentiment.t :=
  if Settings.skip_social_api settings then (None, None)
  else match SignalScanner.mentions_answer obs, SignalScanner.sentiment_answer obs with
       | Py.Ok mentions, Py.Ok sentiment => (mentions, sentiment)
       | _, _ => (None, None)
       end.

(** The sources raise nothing outside [Exception]; the social sentiment is
    asked for only after the mentions arrived. *)
Definition sources_caught (obs : SignalScanner.observation) : Prop :=
  caught (SignalScanner.news_answer obs)
  /\ caught (SignalScanner.mentions_answer obs)
  /\ (returned (SignalScanner.mentions_answer obs) = true ->
      caught (SignalScanner.sentiment_answer obs)).

(* ================================================================== *)
(** ** Vocabulary of the tracking route property *)

(** The detail reports the signal as updated, resolved or failed. *)
Definition reported_once (d : TrackingRoutes.TrackingUpdateDetail) : Prop :=
  TrackingRoutes.status d = "updated"%string
  \/ TrackingRoutes.status d = "resolved"%string
  \/ TrackingRoutes.status d = "error"%string.

(** [t'] continues [t] by [n] signals: each of them is counted once, as
    updated, resolved or failed, none as expired, and has its detail. *)
Definition continues (n : nat) (t t' : TrackingRoutes.tally) : Prop :=
  (TrackingRoutes.tally_updated t' + TrackingRoutes.tally_resolved t'
   + TrackingRoutes.tally_errors t'
   = TrackingRoutes.tally_updated t + TrackingRoutes.tally_resolved t
     + TrackingRoutes.tally_errors t + Z.of_nat n)%Z
  /\ TrackingRoutes.tally_expired t' = TrackingRoutes.tally_expired t
  /\ exists new,
       TrackingRoutes.tally_details t' = TrackingRoutes.tally_details t ++ new
       /\ List.length new = n
       /\ Forall reported_once new.

(* ================================================================== *)
(** ** Vocabulary of the generator scan and of the persistence property *)

(** One market of the generator's [run_scan], as a step on the position in
    the list and the generator. *)
Definition generator_step (envs : nat -> SignalGenerator.env)
    (get_news_sentiment : option (Market.t -> Py.outcome (option NewsSentiment.t)))
    (get_social_mentions : option (Market.t -> Py.outcome (option SocialMention.t)))
    (get_social_sentiment : option (Market.t -> Py.outcome (option SocialSentiment.t)))
    (persist : bool) (market : Market.t) (w : nat * SignalGenerator.t)
  : (nat * SignalGenerator.t) * Py.outcome (list Signal.t) :=
  let (self, o) :=
    SignalGenerator.scan_one (snd w) (envs (fst w)) market get_news_sentiment
      get_social_mentions get_social_sentiment persist in
  ((S (fst w), self), o).

(** The first market whose evaluation raised, with what it raised. *)
Fixpoint first_failure (t : list ScanSpec.entry) : option (Market.t * Py.exn) :=
  match t with
  | [] => None
  | (market, Py.Raise e) :: _ => Some (market, e)
  | (_, Py.Ok _) :: rest => first_failure rest
  end.

(** The store is reached: the client is obtained and, when there are
    markets, their upsert returns. *)
Definition store_reached (get_supabase_client upsert_markets : Py.outcome unit)
    (markets : list Market.t) : bool :=
  returned get_supabase_client
  && match markets with
     | [] => true
     | _ :: _ => returned upsert_markets
     end.

(* ================================================================== *)
(** ** Concrete inputs used by the examples below *)

Module Examples.

Definition naive (micros : Z) : datetime.t := datetime.mk micros false.

(** A signal created at time 0 with nothing tracked yet. *)
Definition signal (direction : SignalDirection) (entry_price : Q) : Signal.t := {|
  Signal.id := 1%N;
  Signal.created_at := naive 0;
  Signal.market_id := "m1";
  Signal.market_question := "Will it happen?";
  Signal.market_slug := Some "will-it-happen"%string;
  Signal.market_end_date := None;
  Signal.signal_type := VOLUME_SURGE;
  Signal.direction := direction;
  Signal.confidence := 0.8;
  Signal.reasoning := VolumeSurgedRising 5 10000 50000 0.2;
  Signal.entry_price := entry_price;
  Signal.entry_volume_24h := 50000;
  Signal.entry_volume_total := 100000;
  Signal.entry_liquidity := 50000;
  Signal.market_tier := HIGH;
  Signal.news_sentiment_score := None;
  Signal.social_mention_count_24h := None;
  Signal.social_sentiment_score := None;
  Signal.price_1h := None;
  Signal.price_24h := None;
  Signal.price_7d := None;
  Signal.price_at_resolution := None;
  Signal.gain_1h_pct := None;
  Signal.gain_24h_pct := None;
  Signal.gain_7d_pct := None;
  Signal.gain_final_pct := None;
  Signal.status := ACTIVE;
  Signal.resolved_at := None
|}.

(** An open market without end date: tier MEDIUM, volume 100000, 24h volume
    [volume_24h], the given price. *)
Definition market (id : string) (volume_24h : Q) (current_price : option Q) : Market.t := {|
  Market.id := id;
  Market.question := "Will it happen?";
  Market.slug := Some id;
  Market.closed := false;
  Market.archived := false;
  Market.accepting_orders := true;
  Market.end_date := None;
  Market.volume := 100000;
  Market.volume_24h := volume_24h;
  Market.liquidity := 50000;
  Market.tier := Some MEDIUM;
  Market.current_price := current_price
|}.

Definition hour : Z := 3600000000.

(** A tick at clock reading [clock] that fetches the open market [m1] at the
    given price; the store accepts the update. *)
Definition tick (clock : Z) (price : Q) : SignalTracker.tick := {|
  SignalTracker.get_market := Py.Ok (Some (market "m1" 50000 (Some price)));
  SignalTracker.clock_is_current := clock;
  SignalTracker.clock_now := clock;
  SignalTracker.clock_resolved := clock;
  SignalTracker.update_signal := Py.Ok tt
|}.

Definition tracked (s : Signal.t) : SignalTracker.state := SignalTracker.mkState s [].

(** The rule the generator builds from the default settings. *)
Definition sentiment_rule : SentimentDivergenceRule.t :=
  SentimentDivergenceRule.init Settings.default None.

Definition news (sentiment_score : Q) (article_count : Z) : NewsSentiment.t :=
  NewsSentiment.mk sentiment_score article_count.

Definition generator : SignalGenerator.t := SignalGenerator.init Settings.default None 0.5.

(** A closed market of tier THIN, below the default minimum tier LOW. *)
Definition closed_thin_market : Market.t := {|
  Market.id := "m2";
  Market.question := "Will it happen?";
  Market.slug := Some "m2"%string;
  Market.closed := true;
  Market.archived := false;
  Market.accepting_orders := true;
  Market.end_date := None;
  Market.volume := 5000;
  Market.volume_24h := 100;
  Market.liquidity := 50;
  Market.tier := Some THIN;
  Market.current_price := Some 0.5
|}.

(** The rules the generator builds from the default settings. *)
Definition volume_rule : VolumeSurgeRule.t :=
  VolumeSurgeRule.init Settings.default None None.

Definition social_rule : SocialSpikeRule.t :=
  SocialSpikeRule.init Settings.default None None.

(** The surroundings of a [process_market] call: clock readings 0, and the
    i-th signal drawn with identity i+1 and creation time 0. *)
Definition env : SignalGenerator.env := {|
  SignalGenerator.clock_skip := 0;
  SignalGenerator.clock_adjust := fun _ => 0%Z;
  SignalGenerator.fresh := fun i => (N.of_nat (S i), naive 0)
|}.

Definition candidate (direction : SignalDirection) (confidence : Q) : SignalCandidate.t := {|
  SignalCandidate.signal_type := SOCIAL_SPIKE;
  SignalCandidate.direction := direction;
  SignalCandidate.confidence := confidence;
  SignalCandidate.reasoning := MentionsSpikedPositive 10 100 10 0.8;
  SignalCandidate.news_sentiment_score := None;
  SignalCandidate.social_mention_count_24h := Some 240%Z;
  SignalCandidate.social_sentiment_score := Some 0.8
|}.

(** An open market of tier LOW that ends ten days after clock reading 0. *)
Definition expiring_low_market : Market.t := {|
  Market.id := "m3";
  Market.question := "Will it happen?";
  Market.slug := Some "m3"%string;
  Market.closed := false;
  Market.archived := false;
  Market.accepting_orders := true;
  Market.end_date := Some (naive (10 * 24 * hour + 1));
  Market.volume := 20000;
  Market.volume_24h := 3000;
  Market.liquidity := 1000;
  Market.tier := Some LOW;
  Market.current_price := Some 0.40
|}.

(** A stand-in for [scan_market] on a state that counts the calls: the
    market [bad] raises, every other market yields one signal. *)
Definition scan_stub (market : Market.t) (calls : nat)
  : nat * Py.outcome (list Signal.t) :=
  if String.eqb (Market.id market) "bad"
  then (S calls, Py.Raise (Py.Exception "boom"))
  else (S calls, Py.Ok [signal BUY 0.40]).

Definition three_markets : list Market.t :=
  [market "m1" 50000 (Some 0.40); market "bad" 50000 (Some 0.40);
   market "m3" 50000 (Some 0.40)].

Definition momentum_rule : PriceMomentumRule.t :=
  PriceMomentumRule.init Settings.default None None.

(** A market that is archived but not closed. *)
Definition archived_market : Market.t := {|
  Market.id := "m4";
  Market.question := "Will it happen?";
  Market.slug := Some "m4"%string;
  Market.closed := false;
  Market.archived := true;
  Market.accepting_orders := true;
  Market.end_date := None;
  Market.volume := 100000;
  Market.volume_24h := 5000;
  Market.liquidity := 1000;
  Market.tier := Some HIGH;
  Market.current_price := Some 0.7
|}.

Definition tick_on (market : Market.t) (clock : Z) : SignalTracker.tick := {|
  SignalTracker.get_market := Py.Ok (Some market);
  SignalTracker.clock_is_current := clock;
  SignalTracker.clock_now := clock;
  SignalTracker.clock_resolved := clock;
  SignalTracker.update_signal := Py.Ok tt
|}.


(** A fresh client for the Polymarket API, and the same client after a 429
    response without a [retry-after] header at clock reading [0]. *)
Definition limiter : RateLimitedClient.t := RateLimitedClient.init "polymarket".

Definition limited : RateLimitedClient.t :=
  fst (RateLimitedClient.execute 15 0 0
         (RateLimitedClient.HTTPStatusError 429 "Too Many Requests" None)
         (@None Market.t) limiter).


(** The signal of the examples, created at the given instant (UTC). *)
Definition signal_created (micros : Z) : Signal.t :=
  let s := signal BUY 0.40 in
  Signal.mk (Signal.id s) (datetime.mk micros true) (Signal.market_id s)
    (Signal.market_question s) (Signal.market_slug s) (Signal.market_end_date s)
    (Signal.signal_type s) (Signal.direction s) (Signal.confidence s)
    (Signal.reasoning s) (Signal.entry_price s) (Signal.entry_volume_24h s)
    (Signal.entry_volume_total s) (Signal.entry_liquidity s) (Signal.market_tier s)
    (Signal.news_sentiment_score s) (Signal.social_mention_count_24h s)
    (Signal.social_sentiment_score s) (Signal.price_1h s) (Signal.price_24h s)
    (Signal.price_7d s) (Signal.price_at_resolution s) (Signal.gain_1h_pct s)
    (Signal.gain_24h_pct s) (Signal.gain_7d_pct s) (Signal.gain_final_pct s)
    (Signal.status s) (Signal.resolved_at s).

Definition day : Z := 24 * hour.

(** At day 40: a signal of day 0 that the store accepts, a signal created
    exactly thirty days before, and a signal of day 5 on which the store
    fails. *)
Definition accepted : SignalTracker.expiry := SignalTracker.mkExpiry (40 * day) (Py.Ok tt).

Definition refused : SignalTracker.expiry :=
  SignalTracker.mkExpiry (40 * day) (Py.Raise (Py.Exception "connection reset")).

(** A tick whose store write fails. *)
Definition tick_refused (clock : Z) (price : Q) : SignalTracker.tick := {|
  SignalTracker.get_market := Py.Ok (Some (market "m1" 50000 (Some price)));
  SignalTracker.clock_is_current := clock;
  SignalTracker.clock_now := clock;
  SignalTracker.clock_resolved := clock;
  SignalTracker.update_signal := Py.Raise (Py.Exception "connection reset")
|}.


(** An open market of the given total volume and price. *)
Definition listed (id : string) (volume : Q) (current_price : option Q) : Market.t := {|
  Market.id := id;
  Market.question := "Will it happen?";
  Market.slug := Some id;
  Market.closed := false;
  Market.archived := false;
  Market.accepting_orders := true;
  Market.end_date := None;
  Market.volume := volume;
  Market.volume_24h := 50000;
  Market.liquidity := 50000;
  Market.tier := Some HIGH;
  Market.current_price := current_price
|}.

(** Three priced markets, and the same with a fourth that has no price. *)
Definition priced_markets : list Market.t :=
  [listed "a" 2000000 (Some 0.5); listed "b" 5000000 (Some 0.5);
   listed "c" 3000000 (Some 0.99)].

Definition unpriced_market : Market.t := listed "d" 2000000 None.

(** The three threshold rules with the default settings, and a market, in
    binary64. *)
Definition volume_rule64 : Binary64.VolumeSurgeRule.t :=
  Binary64.VolumeSurgeRule.mk (F64.int 3) (F64.lit 5 2).

Definition social_rule64 : Binary64.SocialSpikeRule.t :=
  Binary64.SocialSpikeRule.mk (F64.int 5) (F64.lit 3 1).

Definition momentum_rule64 : Binary64.PriceMomentumRule.t :=
  Binary64.PriceMomentumRule.mk (F64.lit 10 2) (F64.lit 15 1).

Definition market64 (volume_24h : Z) (current_price : F64.t) : Binary64.Market.t :=
  Binary64.Market.mk (F64.int volume_24h) (Some current_price).

(** The reading of the clock at the first instant of 2026, counted from
    [datetime.min]: 739616 days. *)
Definition year_2026 : Z := 739616 * 86400 * 1000000.

(** The text of the [ValueError] that [int] raises on a string of 5000
    decimal digits. *)
Definition int_refuses_5000_digits : string :=
  "Exceeds the limit (4300 digits) for integer string conversion: value has 5000 digits; use sys.set_int_max_str_digits() to increase the limit".

End Examples.

(* ================================================================== *)
(** * Properties *)

(** ** Comparisons, [min], [max] *)

Lemma Py_lt_true (x y : Q) : Py.lt x y = true <-> x < y.
Proof.
  unfold Py.lt. rewrite negb_true_iff, <- not_true_iff_false, Qle_bool_iff.
  split; [apply Qnot_le_lt | apply Qlt_not_le].
Qed.

Lemma Py_lt_false (x y : Q) : Py.lt x y = false <-> y <= x.
Proof.
  unfold Py.lt. rewrite negb_false_iff. apply Qle_bool_iff.
Qed.

Lemma Py_le_true (x y : Q) : Py.le x y = true <-> x <= y.
Proof. apply Qle_bool_iff. Qed.

Lemma Py_le_false (x y : Q) : Py.le x y = false <-> y < x.
Proof.
  unfold Py.le. rewrite <- not_true_iff_false, Qle_bool_iff.
  split; [apply Qnot_le_lt | apply Qlt_not_le].
Qed.

Lemma Py_gt_true (x y : Q) : Py.gt x y = true <-> y < x.
Proof. apply Py_lt_true. Qed.

Lemma Py_gt_false (x y : Q) : Py.gt x y = false <-> x <= y.
Proof. apply Py_lt_false. Qed.

Lemma Py_ge_true (x y : Q) : Py.ge x y = true <-> y <= x.
Proof. apply Py_le_true. Qed.

Lemma Py_ge_false (x y : Q) : Py.ge x y = false <-> x < y.
Proof. apply Py_le_false. Qed.

Lemma Py_eq_true (x y : Q) : Py.eq x y = true <-> x == y.
Proof. apply Qeq_bool_iff. Qed.

Lemma Py_eq_false (x y : Q) : Py.eq x y = false <-> ~ x == y.
Proof.
  unfold Py.eq. rewrite <- not_true_iff_false, Qeq_bool_iff. tauto.
Qed.

(** Turn every boolean comparison among the hypotheses into its proposition. *)
Ltac py_props :=
  repeat match goal with
  | H : Py.lt _ _ = true |- _ => apply Py_lt_true in H
  | H : Py.lt _ _ = false |- _ => apply Py_lt_false in H
  | H : Py.le _ _ = true |- _ => apply Py_le_true in H
  | H : Py.le _ _ = false |- _ => apply Py_le_false in H
  | H : Py.gt _ _ = true |- _ => apply Py_gt_true in H
  | H : Py.gt _ _ = false |- _ => apply Py_gt_false in H
  | H : Py.ge _ _ = true |- _ => apply Py_ge_true in H
  | H : Py.ge _ _ = false |- _ => apply Py_ge_false in H
  | H : Py.eq _ _ = true |- _ => apply Py_eq_true in H
  | H : Py.eq _ _ = false |- _ => apply Py_eq_false in H
  end.

Lemma Py_truediv_ok (x y : Q) : ~ y == 0 -> Py.truediv x y = Py.Ok (x / y).
Proof.
  intros Hy. unfold Py.truediv.
  destruct (Py.eq y 0) eqn:E; [apply Py_eq_true in E; contradiction | reflexivity].
Qed.

Lemma Py_truediv_zero (x y : Q) : y == 0 -> Py.truediv x y = Py.Raise Py.ZeroDivisionError.
Proof.
  intros Hy. unfold Py.truediv. apply Py_eq_true in Hy. now rewrite Hy.
Qed.

Lemma Py_min_le_l (a b : Q) : Py.min a b <= a.
Proof.
  unfold Py.min. destruct (Py.lt b a) eqn:E; py_props; lra.
Qed.

Lemma Py_min_le_r (a b : Q) : Py.min a b <= b.
Proof.
  unfold Py.min. destruct (Py.lt b a) eqn:E; py_props; lra.
Qed.

Lemma Py_min_glb (a b c : Q) : c <= a -> c <= b -> c <= Py.min a b.
Proof.
  unfold Py.min. destruct (Py.lt b a); auto.
Qed.

Lemma Py_max_ge_l (a b : Q) : a <= Py.max a b.
Proof.
  unfold Py.max. destruct (Py.gt b a) eqn:E; py_props; lra.
Qed.

Lemma Py_max_ge_r (a b : Q) : b <= Py.max a b.
Proof.
  unfold Py.max. destruct (Py.gt b a) eqn:E; py_props; lra.
Qed.

Lemma Py_max_lub (a b c : Q) : a <= c -> b <= c -> Py.max a b <= c.
Proof.
  unfold Py.max. destruct (Py.gt b a); auto.
Qed.

(** ** The gain formula *)

Lemma F64_truediv_ok (x y : F64.t) :
  F64.is_zero y = false -> F64.truediv x y = Py.Ok (F64.div x y).
Proof. intros H. unfold F64.truediv. now rewrite H. Qed.

Lemma F64_truediv_zero (x y : F64.t) :
  F64.is_zero y = true -> F64.truediv x y = Py.Raise Py.ZeroDivisionError.
Proof. intros H. unfold F64.truediv. now rewrite H. Qed.

Lemma Py_Ok_Some_inj {A : Type} (a b : A) : Py.Ok (Some a) = Py.Ok (Some b) -> a = b.
Proof. congruence. Qed.

Lemma F64_eq_zero (x : F64.t) : F64.eq x (F64.int 0) = false -> F64.is_zero x = false.
Proof. destruct x as [s | s | | s m e]; try reflexivity. destruct s; discriminate. Qed.

Lemma F64_gt_zero (x : F64.t) : F64.gt x (F64.int 0) = true -> F64.is_zero x = false.
Proof. destruct x as [s | s | | s m e]; try reflexivity. destruct s; discriminate. Qed.

(** C1, counterexample: a BUY signal entered at 0.40 and priced at 0.60 has
    the gain 49.999999999999986, which is not 50.0. *)
Lemma C1_gain_of_the_example_is_not_50 :
  exists gain,
    Binary64.Signal.calculate_gain (Binary64.Signal.mk BUY (F64.lit 40 2)) (F64.lit 60 2)
      = Py.Ok gain
    /\ gain = F64.lit 49999999999999986 15
    /\ F64.eq gain (F64.int 50) = false.
Proof.
  eexists. split; [vm_compute; reflexivity |]. split; reflexivity.
Qed.

(** C1, as amended: for every signal with a non-zero entry price and every
    current price, [calculate_gain] returns
    [(current_price - entry_price) / entry_price * 100] for a BUY signal and
    [(entry_price - current_price) / entry_price * 100] for a SELL signal,
    each operation rounded to binary64; with an entry price of 0.40 and a
    current price of 0.60 that is 49.999999999999986 for BUY and
    -49.999999999999986 for SELL, [2^-46] away from +50 and -50. *)
Theorem C1_calculate_gain_formula :
  forall (s : Binary64.Signal.t) (current_price : F64.t),
    F64.is_zero (Binary64.Signal.entry_price s) = false ->
    let entry_price := Binary64.Signal.entry_price s in
    let gain :=
      match Binary64.Signal.direction s with
      | BUY =>
          F64.mul (F64.div (F64.sub current_price entry_price) entry_price) (F64.int 100)
      | SELL =>
          F64.mul (F64.div (F64.sub entry_price current_price) entry_price) (F64.int 100)
      end in
    Binary64.Signal.calculate_gain s current_price = Py.Ok gain
    /\ (entry_price = F64.lit 40 2 -> current_price = F64.lit 60 2 ->
        match Binary64.Signal.direction s with
        | BUY =>
            gain = F64.lit 49999999999999986 15
            /\ F64.to_Q gain == 50 - (1 # 2 ^ 46)
        | SELL =>
            gain = F64.lit (-49999999999999986) 15
            /\ F64.to_Q gain == - 50 + (1 # 2 ^ 46)
        end).
Proof.
  intros s current_price Hentry entry_price gain. subst entry_price gain.
  split.
  - unfold Binary64.Signal.calculate_gain.
    destruct (Binary64.Signal.direction s);
      rewrite F64_truediv_ok by exact Hentry; reflexivity.
  - intros He Hp. rewrite He, Hp.
    destruct (Binary64.Signal.direction s); split; reflexivity.
Qed.

(** A SELL signal entered at 0.40 and priced at 0.60. *)
Lemma C1_calculate_gain_witness :
  Binary64.Signal.calculate_gain (Binary64.Signal.mk SELL (F64.lit 40 2)) (F64.lit 60 2)
    = Py.Ok (F64.lit (-49999999999999986) 15).
Proof.
  assert (H : F64.is_zero
                (Binary64.Signal.entry_price (Binary64.Signal.mk SELL (F64.lit 40 2)))
              = false) by reflexivity.
  destruct (C1_calculate_gain_formula (Binary64.Signal.mk SELL (F64.lit 40 2))
              (F64.lit 60 2) H) as [Hgain Hnum].
  destruct (Hnum eq_refl eq_refl) as [Hvalue _].
  cbn [Binary64.Signal.direction] in Hgain, Hvalue.
  rewrite Hgain, Hvalue. reflexivity.
Defined.

(** ** Confidence adjustment *)




(** ** The tracker's horizon checkpoints *)

Lemma horizon_step_refl (horizon hours price : Q) (x : option Q) :
  horizon_step horizon hours price x x.
Proof. now left. Qed.

Lemma horizon_step_trans (horizon hours price : Q) (x y z : option Q) :
  horizon_step horizon hours price x y ->
  horizon_step horizon hours price y z ->
  horizon_step horizon hours price x z.
Proof.
  intros [Hxy | (Hx & Hh & Hy)] [Hyz | (Hy' & Hh' & Hz)]; subst.
  - now left.
  - right. auto.
  - right. auto.
  - discriminate.
Qed.

Lemma tracking_step_refl (hours price : Q) (s : Signal.t) :
  tracking_step hours price s s.
Proof. repeat split; apply horizon_step_refl. Qed.

Lemma tracking_step_trans (hours price : Q) (s1 s2 s3 : Signal.t) :
  tracking_step hours price s1 s2 ->
  tracking_step hours price s2 s3 ->
  tracking_step hours price s1 s3.
Proof.
  intros (A1 & A2 & A3 & A4) (B1 & B2 & B3 & B4).
  repeat split; try (eapply horizon_step_trans; eassumption). congruence.
Qed.

Lemma same_horizons_step (hours price : Q) (s s' : Signal.t) :
  same_horizons s s' -> tracking_step hours price s s'.
Proof.
  intros (H1 & H2 & H3 & H4). repeat split; try (now left). exact H4.
Qed.

Lemma same_horizons_refl (s : Signal.t) : same_horizons s s.
Proof. repeat split. Qed.

Lemma same_horizons_trans (s1 s2 s3 : Signal.t) :
  same_horizons s1 s2 -> same_horizons s2 s3 -> same_horizons s1 s3.
Proof.
  intros (A1 & A2 & A3 & A4) (B1 & B2 & B3 & B4). repeat split; congruence.
Qed.

Section Keeps.

Variable R : Signal.t -> Signal.t -> Prop.
Hypothesis R_refl : forall s, R s s.
Hypothesis R_trans : forall s1 s2 s3, R s1 s2 -> R s2 s3 -> R s1 s3.

Lemma keeps_ret {A : Type} (a : A) : keeps R (SignalTracker.ret a).
Proof. intros st. apply R_refl. Qed.

Lemma keeps_lift {A : Type} (o : Py.outcome A) : keeps R (SignalTracker.lift o).
Proof. intros st. apply R_refl. Qed.

Lemma keeps_read {A : Type} (f : Signal.t -> A) : keeps R (SignalTracker.read f).
Proof. intros st. apply R_refl. Qed.

Lemma keeps_calculate_gain (price : Q) : keeps R (SignalTracker.calculate_gain price).
Proof. intros st. apply R_refl. Qed.

Lemma keeps_db_update_signal (result : Py.outcome unit) :
  keeps R (SignalTracker.db_update_signal result).
Proof. intros st. apply R_refl. Qed.

Lemma keeps_assign (f : Signal.t -> Signal.t) :
  (forall s, R s (f s)) -> keeps R (SignalTracker.assign f).
Proof. intros Hf st. apply Hf. Qed.

Lemma keeps_bind {A B : Type} (m : SignalTracker.M A) (k : A -> SignalTracker.M B) :
  keeps R m -> (forall a, keeps R (k a)) -> keeps R (SignalTracker.bind m k).
Proof.
  intros Hm Hk st. unfold SignalTracker.bind.
  specialize (Hm st). destruct (m st) as [st' [a | e]]; simpl in *.
  - eapply R_trans; [exact Hm | apply Hk].
  - exact Hm.
Qed.

End Keeps.

Lemma keeps_resolve_signal (market : Market.t) (clock : Z) :
  keeps same_horizons (SignalTracker._resolve_signal market clock).
Proof.
  unfold SignalTracker._resolve_signal.
  destruct (Market.current_price market) as [final_price |].
  - repeat (first
      [ apply keeps_bind; [ exact same_horizons_trans | | intros ? ]
      | apply keeps_calculate_gain; exact same_horizons_refl
      | apply keeps_assign; intros s; repeat split ]).
  - apply keeps_ret. exact same_horizons_refl.
Qed.

Lemma keeps_checkpoint_1h (hours price : Q) (updated : bool) :
  keeps (tracking_step hours price) (SignalTracker.checkpoint_1h hours price updated).
Proof.
  intros [s db]. unfold SignalTracker.checkpoint_1h, SignalTracker.bind,
    SignalTracker.read, SignalTracker.assign, SignalTracker.calculate_gain,
    SignalTracker.ret. simpl.
  destruct (Py.ge hours 1) eqn:E; [| apply tracking_step_refl].
  destruct (Signal.price_1h s) eqn:P; [apply tracking_step_refl |]. simpl.
  apply Py_ge_true in E.
  destruct (Signal.calculate_gain _ _); simpl;
    (split; [right; rewrite P; auto | repeat split; now left]).
Qed.

Lemma keeps_checkpoint_24h (hours price : Q) (updated : bool) :
  keeps (tracking_step hours price) (SignalTracker.checkpoint_24h hours price updated).
Proof.
  intros [s db]. unfold SignalTracker.checkpoint_24h, SignalTracker.bind,
    SignalTracker.read, SignalTracker.assign, SignalTracker.calculate_gain,
    SignalTracker.ret. simpl.
  destruct (Py.ge hours 24) eqn:E; [| apply tracking_step_refl].
  destruct (Signal.price_24h s) eqn:P; [apply tracking_step_refl |]. simpl.
  apply Py_ge_true in E.
  destruct (Signal.calculate_gain _ _); simpl;
    (split; [now left | split; [right; rewrite P; auto | repeat split; now left]]).
Qed.

Lemma keeps_checkpoint_7d (hours price : Q) (updated : bool) :
  keeps (tracking_step hours price) (SignalTracker.checkpoint_7d hours price updated).
Proof.
  intros [s db]. unfold SignalTracker.checkpoint_7d, SignalTracker.bind,
    SignalTracker.read, SignalTracker.assign, SignalTracker.calculate_gain,
    SignalTracker.ret. simpl.
  destruct (Py.ge hours 168) eqn:E; [| apply tracking_step_refl].
  destruct (Signal.price_7d s) eqn:P; [apply tracking_step_refl |]. simpl.
  apply Py_ge_true in E.
  destruct (Signal.calculate_gain _ _); simpl;
    (split; [now left | split; [now left | split; [right; rewrite P; auto | reflexivity]]]).
Qed.

Lemma keeps_fill_horizons (hours price : Q) :
  keeps (tracking_step hours price) (SignalTracker.fill_horizons hours price).
Proof.
  unfold SignalTracker.fill_horizons.
  apply keeps_bind;
    [apply tracking_step_trans | apply keeps_checkpoint_1h | intros u1].
  apply keeps_bind;
    [apply tracking_step_trans | apply keeps_checkpoint_24h | intros u24].
  apply keeps_checkpoint_7d.
Qed.

Lemma keeps_weaken (R R' : Signal.t -> Signal.t -> Prop) {A : Type}
    (m : SignalTracker.M A) :
  (forall s s', R s s' -> R' s s') -> keeps R m -> keeps R' m.
Proof. intros HR Hm st. apply HR, Hm. Qed.

Lemma bind_read {A B : Type} (f : Signal.t -> A) (k : A -> SignalTracker.M B)
    (st : SignalTracker.state) :
  SignalTracker.bind (SignalTracker.read f) k st = k (f (SignalTracker.signal st)) st.
Proof. reflexivity. Qed.

Lemma bind_lift_ok {A B : Type} (a : A) (k : A -> SignalTracker.M B)
    (st : SignalTracker.state) :
  SignalTracker.bind (SignalTracker.lift (Py.Ok a)) k st = k a st.
Proof. reflexivity. Qed.

Lemma bind_lift_raise {A B : Type} (e : Py.exn) (k : A -> SignalTracker.M B)
    (st : SignalTracker.state) :
  SignalTracker.bind (SignalTracker.lift (Py.Raise e)) k st = (st, Py.Raise e).
Proof. reflexivity. Qed.

(** One call of [update_signal_tracking] either leaves the horizon fields as
    they are, or works on a current market with a price and makes a
    [tracking_step] with the elapsed hours and that price. *)
Lemma update_signal_tracking_step (tk : SignalTracker.tick) (st : SignalTracker.state) :
  let s := SignalTracker.signal st in
  let s' := SignalTracker.signal (fst (SignalTracker.update_signal_tracking tk st)) in
  same_horizons s s'
  \/ exists market price,
       SignalTracker.get_market tk = Py.Ok (Some market)
       /\ Market.current_price market = Some price
       /\ is_market_current (SignalTracker.clock_is_current tk) market = true
       /\ tracking_step (SignalTracker.elapsed tk s) price s s'.
Proof.
  cbv zeta. unfold SignalTracker.update_signal_tracking.
  destruct (SignalTracker.get_market tk) as [[market |] | e] eqn:Hget;
    [rewrite bind_lift_ok | rewrite bind_lift_ok | rewrite bind_lift_raise];
    try (left; apply same_horizons_refl).
  destruct (Market.current_price market) as [price |] eqn:Hprice;
    [| left; apply same_horizons_refl].
  destruct (is_market_current (SignalTracker.clock_is_current tk) market) eqn:Hcur;
    cbn [negb].
  - right. exists market, price.
    split; [reflexivity |]. split; [exact Hprice |]. split; [exact Hcur |].
    rewrite bind_read.
    change (SignalTracker.hours_since (SignalTracker.clock_now tk)
              (Signal.created_at (SignalTracker.signal st)))
      with (SignalTracker.elapsed tk (SignalTracker.signal st)).
    set (hours := SignalTracker.elapsed tk (SignalTracker.signal st)).
    apply (keeps_bind (tracking_step hours price));
      [apply tracking_step_trans | apply keeps_fill_horizons | intros updated].
    apply keeps_bind;
      [apply tracking_step_trans | apply keeps_read, tracking_step_refl | intros status].
    apply keeps_bind; [apply tracking_step_trans | | intros updated'].
    + destruct (Market.closed market && SignalTracker.is_ACTIVE status).
      * apply keeps_bind; [apply tracking_step_trans | | intros _].
        -- eapply keeps_weaken; [apply same_horizons_step | apply keeps_resolve_signal].
        -- apply keeps_ret, tracking_step_refl.
      * apply keeps_ret, tracking_step_refl.
    + destruct updated'.
      * apply keeps_db_update_signal, tracking_step_refl.
      * apply keeps_ret, tracking_step_refl.
  - left. rewrite bind_read.
    destruct (Market.closed market
              && SignalTracker.is_ACTIVE (Signal.status (SignalTracker.signal st))).
    + apply (keeps_bind same_horizons);
        [apply same_horizons_trans | apply keeps_resolve_signal | intros _].
      apply keeps_db_update_signal, same_horizons_refl.
    + apply same_horizons_refl.
Qed.

Lemma tracking_step_horizon (hours price : Q) (s s' : Signal.t) (h : Horizon) :
  tracking_step hours price s s' ->
  horizon_step (horizon_hours h) hours price (horizon_price h s) (horizon_price h s').
Proof. intros (H1 & H24 & H7 & _). destruct h; assumption. Qed.

Lemma same_horizons_horizon (s s' : Signal.t) (h : Horizon) :
  same_horizons s s' -> horizon_price h s' = horizon_price h s.
Proof. intros (H1 & H24 & H7 & _). destruct h; assumption. Qed.

Lemma update_signal_tracking_created_at (tk : SignalTracker.tick)
    (st : SignalTracker.state) :
  Signal.created_at (SignalTracker.signal (fst (SignalTracker.update_signal_tracking tk st)))
  = Signal.created_at (SignalTracker.signal st).
Proof.
  destruct (update_signal_tracking_step tk st)
    as [(_ & _ & _ & H) | (m & p & _ & _ & _ & (_ & _ & _ & H))]; exact H.
Qed.

(** A field that is set survives one call. *)
Lemma update_signal_tracking_keeps_set (tk : SignalTracker.tick)
    (st : SignalTracker.state) (h : Horizon) (p : Q) :
  horizon_price h (SignalTracker.signal st) = Some p ->
  horizon_price h (SignalTracker.signal (fst (SignalTracker.update_signal_tracking tk st)))
  = Some p.
Proof.
  intros Hset.
  destruct (update_signal_tracking_step tk st) as [Hsame | (m & q & _ & _ & _ & Hstep)].
  - rewrite (same_horizons_horizon _ _ h Hsame). exact Hset.
  - destruct (tracking_step_horizon _ _ _ _ h Hstep) as [Heq | (Hnone & _)].
    + rewrite Heq. exact Hset.
    + rewrite Hnone in Hset. discriminate.
Qed.

(** A field that is unset stays unset through a call whose elapsed hours are
    below the horizon. *)
Lemma update_signal_tracking_keeps_unset (tk : SignalTracker.tick)
    (st : SignalTracker.state) (h : Horizon) :
  horizon_price h (SignalTracker.signal st) = None ->
  SignalTracker.elapsed tk (SignalTracker.signal st) < horizon_hours h ->
  horizon_price h (SignalTracker.signal (fst (SignalTracker.update_signal_tracking tk st)))
  = None.
Proof.
  intros Hunset Hearly.
  destruct (update_signal_tracking_step tk st) as [Hsame | (m & q & _ & _ & _ & Hstep)].
  - rewrite (same_horizons_horizon _ _ h Hsame). exact Hunset.
  - destruct (tracking_step_horizon _ _ _ _ h Hstep) as [Heq | (_ & Hreached & _)].
    + rewrite Heq. exact Hunset.
    + lra.
Qed.

Lemma elapsed_created_at (tk : SignalTracker.tick) (s s' : Signal.t) :
  Signal.created_at s' = Signal.created_at s ->
  SignalTracker.elapsed tk s' = SignalTracker.elapsed tk s.
Proof. intros H. unfold SignalTracker.elapsed. now rewrite H. Qed.

Lemma run_ticks_created_at (ticks : list SignalTracker.tick) (st : SignalTracker.state) :
  Signal.created_at (SignalTracker.signal (SignalTracker.run_ticks ticks st))
  = Signal.created_at (SignalTracker.signal st).
Proof.
  revert st. induction ticks as [| tk rest IH]; intros st; simpl.
  - reflexivity.
  - rewrite IH. apply update_signal_tracking_created_at.
Qed.

Lemma run_ticks_keeps_set (ticks : list SignalTracker.tick) (st : SignalTracker.state)
    (h : Horizon) (p : Q) :
  horizon_price h (SignalTracker.signal st) = Some p ->
  horizon_price h (SignalTracker.signal (SignalTracker.run_ticks ticks st)) = Some p.
Proof.
  revert st. induction ticks as [| tk rest IH]; intros st Hset; simpl.
  - exact Hset.
  - apply IH, update_signal_tracking_keeps_set, Hset.
Qed.

Lemma run_ticks_keeps_unset (ticks : list SignalTracker.tick) (st : SignalTracker.state)
    (h : Horizon) :
  horizon_price h (SignalTracker.signal st) = None ->
  Forall (fun tk => SignalTracker.elapsed tk (SignalTracker.signal st) < horizon_hours h)
         ticks ->
  horizon_price h (SignalTracker.signal (SignalTracker.run_ticks ticks st)) = None.
Proof.
  revert st. induction ticks as [| tk rest IH]; intros st Hunset Hearly; simpl.
  - exact Hunset.
  - inversion Hearly as [| tk' rest' Htk Hrest]; subst.
    apply IH.
    + apply update_signal_tracking_keeps_unset; assumption.
    + eapply Forall_impl; [| exact Hrest].
      intros tk' Htk'. cbv beta in *.
      rewrite (elapsed_created_at tk' (SignalTracker.signal st)); [exact Htk' |].
      apply update_signal_tracking_created_at.
Qed.

(** C2: for every signal, every tick, every sequence of ticks and each of the
    three horizons (1h, 24h, 7d = 168h): one call of
    [update_signal_tracking] changes the horizon's price field only by
    filling it, when it was unset and the elapsed hours have reached the
    horizon, with the price of the current market it fetched; a field that is
    set keeps its value through any sequence of later calls; and a field that
    is unset stays unset as long as the elapsed hours of the calls are below
    the horizon (so [price_24h] is never populated below 24 hours). *)
Theorem C2_tracker_horizons_write_once :
  forall (tk : SignalTracker.tick) (ticks : list SignalTracker.tick)
         (st : SignalTracker.state) (h : Horizon),
    let s := SignalTracker.signal st in
    let s1 := SignalTracker.signal (fst (SignalTracker.update_signal_tracking tk st)) in
    let sn := SignalTracker.signal (SignalTracker.run_ticks ticks st) in
    (horizon_price h s1 = horizon_price h s
     \/ filled_by tk s (horizon_hours h) (horizon_price h s) (horizon_price h s1))
    /\ (forall p, horizon_price h s = Some p -> horizon_price h sn = Some p)
    /\ (horizon_price h s = None ->
        Forall (fun tk' => SignalTracker.elapsed tk' s < horizon_hours h) ticks ->
        horizon_price h sn = None).
Proof.
  intros tk ticks st h s s1 sn. subst s s1 sn. split; [| split].
  - destruct (update_signal_tracking_step tk st)
      as [Hsame | (m & q & Hget & Hprice & Hcur & Hstep)].
    + left. apply same_horizons_horizon, Hsame.
    + destruct (tracking_step_horizon _ _ _ _ h Hstep) as [Heq | (Hnone & Hreached & Hfilled)].
      * left. exact Heq.
      * right. split; [exact Hnone |]. split; [exact Hreached |].
        exists m, q. auto.
  - intros p. apply run_ticks_keeps_set.
  - apply run_ticks_keeps_unset.
Qed.

(** Two calls two hours after creation, at prices 0.6 and then 0.7: the first
    fills [price_1h], the second leaves it, and [price_24h] stays unset. *)
Example tracker_two_ticks_at_2h :
  let st := SignalTracker.run_ticks
              [Examples.tick (2 * Examples.hour) 0.6; Examples.tick (2 * Examples.hour) 0.7]
              (Examples.tracked (Examples.signal BUY 0.40)) in
  Signal.price_1h (SignalTracker.signal st) = Some 0.6
  /\ Signal.price_24h (SignalTracker.signal st) = None
  /\ List.length (SignalTracker.db_updates st) = 1%nat.
Proof. vm_compute. repeat split. Qed.

(** ** [Signal.update_tracking] against the tracker *)


(** Below 24 elapsed hours only the first checkpoint can be due, and the two
    agree on the horizon prices. *)
Lemma update_tracking_agrees_below_24h (s s' : Signal.t) (price hours : Q) :
  hours < 24 ->
  Signal.update_tracking s price hours = Py.Ok s' ->
  let s'' := SignalTracker.signal
               (fst (SignalTracker.fill_horizons hours price (SignalTracker.mkState s []))) in
  Signal.price_1h s'' = Signal.price_1h s'
  /\ Signal.price_24h s'' = Signal.price_24h s'
  /\ Signal.price_7d s'' = Signal.price_7d s'.
Proof.
  intros Hlt Hupd. cbv zeta.
  assert (E24 : Py.ge hours 24 = false) by (apply Py_ge_false; exact Hlt).
  assert (E168 : Py.ge hours 168 = false) by (apply Py_ge_false; lra).
  unfold Signal.update_tracking in Hupd.
  destruct (Signal.calculate_gain s price) as [g |] eqn:Hg; [| discriminate].
  cbn [Py.bind] in Hupd. rewrite E24, E168 in Hupd. cbn [andb] in Hupd.
  unfold SignalTracker.fill_horizons, SignalTracker.checkpoint_1h,
    SignalTracker.checkpoint_24h, SignalTracker.checkpoint_7d.
  rewrite E24, E168. cbn [andb].
  unfold SignalTracker.bind, SignalTracker.read, SignalTracker.assign,
    SignalTracker.calculate_gain, SignalTracker.ret.
  cbv [SignalTracker.signal SignalTracker.db_updates fst].
  destruct (Py.ge hours 1 && Py.is_None (Signal.price_1h s)).
  - assert (Hg' : Signal.calculate_gain (Signal.set_price_1h (Some price) s) price = Py.Ok g)
      by exact Hg.
    rewrite Hg'. injection Hupd as <-. repeat split.
  - injection Hupd as <-. repeat split.
Qed.

(** ** SentimentDivergenceRule *)

(** The rule returns no candidate in the dead zone
    [|sentiment| < min_sentiment_strength]. *)
Lemma sentiment_dead_zone (rule : SentimentDivergenceRule.t) (market : Market.t)
    (news : NewsSentiment.t) :
  Qabs (NewsSentiment.sentiment_score news)
    < SentimentDivergenceRule.min_sentiment_strength rule ->
  SentimentDivergenceRule.evaluate rule market (Some news) = None.
Proof.
  intros Hdead. unfold SentimentDivergenceRule.evaluate.
  destruct (Market.current_price market) as [price |]; [| reflexivity].
  cbv zeta. apply Py_lt_true in Hdead. unfold Py.abs. now rewrite Hdead.
Qed.

(** What a candidate of the rule tells about its input: a BUY comes from a
    score above [min_sentiment_strength]; a SELL comes from any other score
    outside the dead zone, that is a score at or below
    [- min_sentiment_strength] or a score equal to [min_sentiment_strength]. *)
Lemma sentiment_candidate_direction (rule : SentimentDivergenceRule.t)
    (market : Market.t) (news : NewsSentiment.t) (c : SignalCandidate.t) :
  SentimentDivergenceRule.evaluate rule market (Some news) = Some c ->
  let score := NewsSentiment.sentiment_score news in
  let strength := SentimentDivergenceRule.min_sentiment_strength rule in
  let expected_price := 0.5 + score * 0.3 in
  exists price,
    Market.current_price market = Some price
    /\ match SignalCandidate.direction c with
       | BUY =>
           strength < score /\ price <= 0.70
           /\ SentimentDivergenceRule.threshold rule <= expected_price - price
       | SELL =>
           (score <= - strength \/ score == strength) /\ 0.30 <= price
           /\ SentimentDivergenceRule.threshold rule <= price - expected_price
       end.
Proof.
  unfold SentimentDivergenceRule.evaluate. intros Hc. cbv zeta.
  destruct (Market.current_price market) as [price |]; [| discriminate].
  exists price. split; [reflexivity |].
  cbv zeta in Hc.
  destruct (Py.lt _ _) eqn:Hzone in Hc; [discriminate |].
  destruct (_ <? _)%Z in Hc; [discriminate |].
  destruct (_ || _) in Hc; [discriminate |].
  unfold SentimentDivergenceRule.branch in Hc.
  destruct (Py.gt (NewsSentiment.sentiment_score news) _) eqn:Hbull in Hc.
  - destruct (Py.gt price 0.70) eqn:Hhigh in Hc; [discriminate |].
    destruct (Py.lt _ _) eqn:Hdiv in Hc; [discriminate |].
    injection Hc as <-. cbn [SignalCandidate.direction].
    py_props. repeat split; lra.
  - destruct (Py.lt price 0.30) eqn:Hlow in Hc; [discriminate |].
    destruct (Py.lt _ _) eqn:Hdiv in Hc; [discriminate |].
    injection Hc as <-. cbn [SignalCandidate.direction].
    py_props. unfold Py.abs in Hzone.
    repeat split; try lra.
    revert Hzone. apply Qabs_case; intros Hsign Hzone.
    + right. lra.
    + left. lra.
Qed.

(** C3, at the failing input: with the default settings (threshold 0.20,
    [min_sentiment_strength] 0.3, [min_article_count] 5), a market priced at
    0.80 and a news sentiment score of exactly +0.3 over 10 articles, the
    rule returns a SELL candidate, although the score is positive and not
    below -0.3. *)
Theorem C3_sentiment_sell_at_positive_threshold :
  let market := Examples.market "m1" 50000 (Some 0.80) in
  let news := Examples.news 0.3 10 in
  exists c,
    SentimentDivergenceRule.evaluate Examples.sentiment_rule market (Some news) = Some c
    /\ SignalCandidate.direction c = SELL
    /\ SignalCandidate.news_sentiment_score c = Some 0.3
    /\ 0 < NewsSentiment.sentiment_score news
    /\ ~ NewsSentiment.sentiment_score news
         < - SentimentDivergenceRule.min_sentiment_strength Examples.sentiment_rule.
Proof.
  cbv zeta. eexists. split; [vm_compute; reflexivity |].
  repeat split; vm_compute; congruence.
Qed.

(** ** The quality filter *)

Lemma tier_order_get_value (t : MarketTier) :
  SignalGenerator.tier_order_get (MarketTier_value t) 0 = SkipSpec.tier_rank t.
Proof. destruct t; reflexivity. Qed.

Lemma tier_order_get_min (settings : Settings.t) :
  SignalGenerator.tier_order_get
    (SignalGenerator.upper (Settings.min_market_tier settings)) 1
  = SkipSpec.min_tier_rank settings.
Proof.
  unfold SkipSpec.min_tier_rank, SkipSpec.parse_tier, SignalGenerator.tier_order_get.
  repeat match goal with
  | |- context [String.eqb ?a ?b] => destruct (String.eqb a b)
  end; reflexivity.
Qed.

Lemma datetime_micros_assume_utc (d : datetime.t) :
  datetime.micros (datetime.assume_utc d) = datetime.micros d.
Proof. unfold datetime.assume_utc. destruct (datetime.tz_aware d); reflexivity. Qed.

(** [should_skip_market] is the first match over the seven conditions. *)
Lemma should_skip_market_first_match (self : SignalGenerator.t) (clock : Z)
    (market : Market.t) :
  SignalGenerator.should_skip_market self clock market
  = SkipSpec.first_match
      (SkipSpec.skip_checks (SignalGenerator._settings self) clock market).
Proof.
  unfold SignalGenerator.should_skip_market, SkipSpec.skip_checks,
    SignalGenerator.expiry_skip, SignalGenerator.days_to_expiry,
    datetime.lt, datetime.sub, SkipSpec.when.
  cbv zeta. rewrite tier_order_get_value, tier_order_get_min.
  destruct (Market.closed market); [reflexivity |].
  destruct (Market.archived market); [reflexivity |].
  destruct (Market.accepting_orders market); [| reflexivity].
  cbn [negb SkipSpec.first_match].
  destruct (Market.end_date market) as [end_date |].
  - rewrite datetime_micros_assume_utc. cbn [datetime.now_utc datetime.micros].
    destruct (datetime.micros end_date <? clock)%Z; [reflexivity |].
    destruct (datetime.days (datetime.micros end_date - clock) <? _)%Z; [reflexivity |].
    destruct (_ <? _)%Z; [reflexivity |].
    destruct (Market.current_price market) as [price |]; [| reflexivity].
    destruct (Py.lt price _); [reflexivity |].
    destruct (Py.gt price _); reflexivity.
  - destruct (_ <? _)%Z; [reflexivity |].
    destruct (Market.current_price market) as [price |]; [| reflexivity].
    destruct (Py.lt price _); [reflexivity |].
    destruct (Py.gt price _); reflexivity.
Qed.

Lemma first_match_all_none (checks : list (option SignalGenerator.SkipReason)) :
  Forall (fun c => c = None) checks ->
  SkipSpec.first_match checks = (false, SignalGenerator.ReasonText "").
Proof.
  induction 1 as [| c rest Hc _ IH]; [reflexivity |]. subst c. exact IH.
Qed.

(** C4: [should_skip_market] reports the first of the seven conditions that
    applies, in the order closed, archived, not accepting orders, past end
    date, fewer than [min_days_to_expiry] days left, tier below
    [min_market_tier] (by the ordinal THIN < LOW < MEDIUM < HIGH), price
    outside the band; it returns [(false, "")] when none applies; a closed
    market reports the closed reason whatever its tier; and a market without
    a current price never reports a price reason. *)
Theorem C4_should_skip_market_priority :
  forall (self : SignalGenerator.t) (clock : Z) (market : Market.t),
    let result := SignalGenerator.should_skip_market self clock market in
    let checks := SkipSpec.skip_checks (SignalGenerator._settings self) clock market in
    result = SkipSpec.first_match checks
    /\ (Forall (fun c => c = None) checks ->
        result = (false, SignalGenerator.ReasonText ""))
    /\ (Market.closed market = true ->
        result = (true, SignalGenerator.ReasonText "Market is closed"))
    /\ (Market.current_price market = None ->
        SkipSpec.is_price_reason (snd result) = false).
Proof.
  intros self clock market result checks. subst result checks.
  split; [apply should_skip_market_first_match |].
  split; [| split].
  - intros Hnone. rewrite should_skip_market_first_match.
    apply first_match_all_none, Hnone.
  - intros Hclosed. unfold SignalGenerator.should_skip_market.
    now rewrite Hclosed.
  - intros Hprice. unfold SignalGenerator.should_skip_market.
    rewrite Hprice. cbv zeta.
    destruct (Market.closed market); [reflexivity |].
    destruct (Market.archived market); [reflexivity |].
    destruct (negb (Market.accepting_orders market)); [reflexivity |].
    unfold SignalGenerator.expiry_skip.
    destruct (Market.end_date market) as [end_date |].
    + destruct (datetime.lt _ _); [reflexivity |].
      destruct (_ <? _)%Z; [reflexivity |].
      destruct (_ <? _)%Z; reflexivity.
    + destruct (_ <? _)%Z; reflexivity.
Qed.

(** A market that is closed and of tier THIN reports the closed reason. *)
Example closed_thin_market_reports_closed :
  SignalGenerator.should_skip_market Examples.generator 0 Examples.closed_thin_market
  = (true, SignalGenerator.ReasonText "Market is closed").
Proof. reflexivity. Qed.

(** ** VolumeSurgeRule *)

(** C5, counterexample: with the default multiplier 3.0, a 24h volume of
    3005 against a previous 1000 and a price rising from 0.50 to 0.60, the
    rule fires with confidence 0.5, which is not
    [(3.005 - 3.0)/2 + 0.5 = 0.5025], the value of the claimed formula. *)
Lemma C5_volume_surge_confidence_is_rounded :
  exists c,
    Binary64.VolumeSurgeRule.evaluate Examples.volume_rule64
      (Examples.market64 3005 (F64.lit 60 2)) (Some (F64.lit 50 2)) (Some (F64.int 1000))
      = Py.Ok (Some c)
    /\ Binary64.SignalCandidate.confidence c = F64.lit 5 1
    /\ F64.lt (Binary64.SignalCandidate.confidence c)
         (F64.min (F64.int 1)
            (F64.add
               (F64.div (F64.sub (F64.div (F64.int 3005) (F64.int 1000)) (F64.int 3))
                  (F64.int 2))
               (F64.lit 5 1))) = true.
Proof.
  eexists. split; [vm_compute; reflexivity |]. split; reflexivity.
Qed.

(** C5, as amended: in binary64, [VolumeSurgeRule.evaluate] returns a
    candidate exactly when the market has a current price, a non-zero
    previous price and a non-zero previous 24h volume are supplied, the
    quotient [volume_24h / previous_volume_24h] is not below the multiplier
    and [|price_change|] is not below [price_change_threshold], with
    [price_change = (price - previous_price) / previous_price]; the candidate
    is BUY when [price_change > 0] and SELL otherwise, and its confidence is
    [min(1.0, (volume_ratio - multiplier)/2 + 0.5)] rounded to two decimals;
    with the default rule, a 5x volume ratio and a price rising from 0.50 to
    0.60 give a BUY of confidence 1.0. *)
Theorem C5_volume_surge_fires_iff :
  forall (rule : Binary64.VolumeSurgeRule.t) (market : Binary64.Market.t)
         (previous_price previous_volume_24h : option F64.t),
    let multiplier := Binary64.VolumeSurgeRule.volume_multiplier rule in
    let threshold := Binary64.VolumeSurgeRule.price_change_threshold rule in
    let volume_ratio v := F64.div (Binary64.Market.volume_24h market) v in
    let price_change price x := F64.div (F64.sub price x) x in
    (forall c,
        Binary64.VolumeSurgeRule.evaluate rule market previous_price previous_volume_24h
          = Py.Ok (Some c) ->
        exists price x v,
          Binary64.Market.current_price market = Some price
          /\ previous_price = Some x /\ previous_volume_24h = Some v
          /\ F64.is_zero x = false /\ F64.eq v (F64.int 0) = false
          /\ F64.lt (volume_ratio v) multiplier = false
          /\ F64.lt (F64.abs (price_change price x)) threshold = false
          /\ Binary64.SignalCandidate.signal_type c = VOLUME_SURGE
          /\ Binary64.SignalCandidate.direction c
             = (if F64.gt (price_change price x) (F64.int 0) then BUY else SELL)
          /\ Binary64.SignalCandidate.confidence c
             = F64.round2
                 (F64.min (F64.int 1)
                    (F64.add (F64.div (F64.sub (volume_ratio v) multiplier) (F64.int 2))
                       (F64.lit 5 1))))
    /\ (forall price x v,
          Binary64.Market.current_price market = Some price ->
          previous_price = Some x -> previous_volume_24h = Some v ->
          F64.is_zero x = false -> F64.eq v (F64.int 0) = false ->
          F64.lt (volume_ratio v) multiplier = false ->
          F64.lt (F64.abs (price_change price x)) threshold = false ->
          exists c,
            Binary64.VolumeSurgeRule.evaluate rule market previous_price
              previous_volume_24h = Py.Ok (Some c))
    /\ (exists c,
          Binary64.VolumeSurgeRule.evaluate Examples.volume_rule64
            (Examples.market64 50000 (F64.lit 60 2)) (Some (F64.lit 50 2))
            (Some (F64.int 10000)) = Py.Ok (Some c)
          /\ Binary64.SignalCandidate.direction c = BUY
          /\ Binary64.SignalCandidate.confidence c = F64.int 1).
Proof.
  intros rule market previous_price previous_volume_24h
         multiplier threshold volume_ratio price_change.
  subst multiplier threshold volume_ratio price_change. cbv beta.
  split; [| split].
  - intros c. unfold Binary64.VolumeSurgeRule.evaluate.
    destruct previous_price as [x |]; [| discriminate].
    destruct previous_volume_24h as [v |]; [| discriminate].
    destruct (Binary64.Market.current_price market) as [price |]; [| discriminate].
    destruct (F64.eq v (F64.int 0)) eqn:Hv; [discriminate |].
    rewrite (F64_truediv_ok _ v (F64_eq_zero v Hv)). cbn [Py.bind].
    destruct (F64.lt (F64.div _ v) _) eqn:Hratio; [discriminate |].
    destruct (F64.is_zero x) eqn:Hx.
    { rewrite (F64_truediv_zero _ x Hx). discriminate. }
    rewrite (F64_truediv_ok _ x Hx). cbn [Py.bind].
    destruct (F64.lt (F64.abs _) _) eqn:Hchange; [discriminate |].
    intros Hc. exists price, x, v.
    destruct (F64.gt _ (F64.int 0)); injection Hc as <-; repeat split; assumption.
  - intros price x v Hprice -> -> Hx Hv Hratio Hchange.
    unfold Binary64.VolumeSurgeRule.evaluate. rewrite Hprice, Hv.
    rewrite (F64_truediv_ok _ v (F64_eq_zero v Hv)). cbn [Py.bind].
    rewrite Hratio.
    rewrite (F64_truediv_ok _ x Hx). cbn [Py.bind].
    rewrite Hchange.
    destruct (F64.gt _ (F64.int 0)); eexists; reflexivity.
  - eexists. split; [vm_compute; reflexivity |]. split; reflexivity.
Qed.

(** A 24h volume of 3030 against a previous 1000 gives the confidence 0.51:
    the quotient 3.03 is the float just below 303/100, and the confidence
    before rounding is just below 0.515. *)
Example volume_surge_confidence_3030 :
  exists c,
    Binary64.VolumeSurgeRule.evaluate Examples.volume_rule64
      (Examples.market64 3030 (F64.lit 60 2)) (Some (F64.lit 50 2)) (Some (F64.int 1000))
      = Py.Ok (Some c)
    /\ Binary64.SignalCandidate.confidence c = F64.lit 51 2.
Proof.
  eexists. split; [vm_compute; reflexivity | reflexivity].
Qed.

(** A price rising from 0.40 to 0.42 is a change of 0.049999999999999906,
    below the threshold 0.05: no candidate, whatever the volume. *)
Example volume_surge_price_change_below_threshold :
  Binary64.VolumeSurgeRule.evaluate Examples.volume_rule64
    (Examples.market64 50000 (F64.lit 42 2)) (Some (F64.lit 40 2)) (Some (F64.int 10000))
    = Py.Ok None.
Proof. vm_compute. reflexivity. Qed.

(** ** SocialSpikeRule *)

(** C6, counterexample: with 5 mentions in the last hour and none in the
    last 24 hours, the average hourly rate the rule works with is 1, not
    [0/24], and with a social sentiment of 0.5 the default rule fires
    (5/1 >= 5.0). *)
Lemma C6_social_spike_zero_24h_mentions :
  let sm := SocialMention.mk 5 0 in
  Binary64.SocialSpikeRule.avg_hourly sm = Py.Ok (F64.int 1)
  /\ F64.eq (F64.int 1) (F64.ratio (SocialMention.mention_count_24h sm) 24) = false
  /\ exists c,
       Binary64.SocialSpikeRule.evaluate Examples.social_rule64 (Some sm)
         (Some (Binary64.SocialSentiment.mk (F64.lit 5 1))) = Py.Ok (Some c)
       /\ Binary64.SignalCandidate.direction c = BUY.
Proof.
  cbv zeta. split; [reflexivity |]. split; [reflexivity |].
  eexists. split; [vm_compute; reflexivity | reflexivity].
Qed.

(** C6, as amended: in binary64, the average hourly mention rate is the
    float nearest to [mention_count_24h/24] when [mention_count_24h] is not
    zero and 1 when it is zero, and, for a positive average, the hourly
    ratio is [mention_count_1h] divided by it.  For a rule with a positive
    multiplier, [SocialSpikeRule.evaluate] returns a candidate exactly when
    mention and sentiment context are both supplied, the average is
    positive, the hourly ratio is not below the multiplier and
    [|social sentiment|] is not below [sentiment_threshold]; the candidate
    is BUY for a positive sentiment and SELL otherwise, and its confidence is
    the average of [min(1.0, (hourly_ratio - multiplier)/multiplier + 0.5)]
    and [|sentiment|], rounded to two decimals. *)
Theorem C6_social_spike_fires_iff :
  forall (rule : Binary64.SocialSpikeRule.t) (social_mentions : option SocialMention.t)
         (social_sentiment : option Binary64.SocialSentiment.t),
    F64.gt (Binary64.SocialSpikeRule.mention_multiplier rule) (F64.int 0) = true ->
    let multiplier := Binary64.SocialSpikeRule.mention_multiplier rule in
    let threshold := Binary64.SocialSpikeRule.sentiment_threshold rule in
    (forall sm avg,
        Binary64.SocialSpikeRule.avg_hourly sm = Py.Ok avg ->
        avg = if (SocialMention.mention_count_24h sm =? 0)%Z then F64.int 1
              else F64.ratio (SocialMention.mention_count_24h sm) 24)
    /\ (forall sm avg ratio,
          F64.gt avg (F64.int 0) = true ->
          Binary64.SocialSpikeRule.hourly_ratio sm avg = Py.Ok ratio ->
          ratio = if (SocialMention.mention_count_24h sm =? 0)%Z
                  then F64.int (SocialMention.mention_count_1h sm)
                  else F64.div (F64.int (SocialMention.mention_count_1h sm)) avg)
    /\ (forall c,
          Binary64.SocialSpikeRule.evaluate rule social_mentions social_sentiment
            = Py.Ok (Some c) ->
          exists sm ss avg ratio,
            social_mentions = Some sm /\ social_sentiment = Some ss
            /\ Binary64.SocialSpikeRule.avg_hourly sm = Py.Ok avg
            /\ F64.gt avg (F64.int 0) = true
            /\ Binary64.SocialSpikeRule.hourly_ratio sm avg = Py.Ok ratio
            /\ F64.lt ratio multiplier = false
            /\ F64.lt (F64.abs (Binary64.SocialSentiment.sentiment_score ss)) threshold
               = false
            /\ Binary64.SignalCandidate.signal_type c = SOCIAL_SPIKE
            /\ Binary64.SignalCandidate.direction c
               = (if F64.gt (Binary64.SocialSentiment.sentiment_score ss) (F64.int 0)
                  then BUY else SELL)
            /\ Binary64.SignalCandidate.confidence c
               = F64.round2
                   (F64.div
                      (F64.add
                         (F64.min (F64.int 1)
                            (F64.add (F64.div (F64.sub ratio multiplier) multiplier)
                               (F64.lit 5 1)))
                         (F64.abs (Binary64.SocialSentiment.sentiment_score ss)))
                      (F64.int 2)))
    /\ (forall sm ss avg ratio,
          social_mentions = Some sm -> social_sentiment = Some ss ->
          Binary64.SocialSpikeRule.avg_hourly sm = Py.Ok avg ->
          F64.gt avg (F64.int 0) = true ->
          Binary64.SocialSpikeRule.hourly_ratio sm avg = Py.Ok ratio ->
          F64.lt ratio multiplier = false ->
          F64.lt (F64.abs (Binary64.SocialSentiment.sentiment_score ss)) threshold = false ->
          exists c,
            Binary64.SocialSpikeRule.evaluate rule social_mentions social_sentiment
              = Py.Ok (Some c)).
Proof.
  intros rule social_mentions social_sentiment Hm multiplier threshold.
  subst multiplier threshold.
  pose proof (F64_gt_zero _ Hm) as Hm0.
  split; [| split; [| split]].
  - intros sm avg. unfold Binary64.SocialSpikeRule.avg_hourly, F64.int_truediv.
    destruct (SocialMention.mention_count_24h sm =? 0)%Z; [congruence |].
    destruct (F64.ratio _ _); congruence.
  - intros sm avg ratio Havg.
    unfold Binary64.SocialSpikeRule.hourly_ratio. rewrite Havg.
    unfold F64.int_truediv, F64.of_int, F64.int.
    destruct (SocialMention.mention_count_24h sm =? 0)%Z.
    + destruct (F64.ratio _ _); congruence.
    + destruct (F64.ratio (SocialMention.mention_count_1h sm) 1) eqn:Hn;
        cbn [Py.bind]; try discriminate;
        rewrite (F64_truediv_ok _ avg (F64_gt_zero _ Havg)); congruence.
  - intros c. unfold Binary64.SocialSpikeRule.evaluate.
    destruct social_mentions as [sm |]; [| discriminate].
    destruct social_sentiment as [ss |]; [| destruct sm; discriminate].
    destruct (Binary64.SocialSpikeRule.avg_hourly sm) as [avg | e] eqn:Havg;
      [| discriminate].
    cbn [Py.bind].
    destruct (Binary64.SocialSpikeRule.hourly_ratio sm avg) as [ratio | e] eqn:Hratio;
      [| discriminate].
    cbn [Py.bind].
    destruct (F64.lt ratio _) eqn:Hspike; [discriminate |].
    destruct (F64.lt (F64.abs _) _) eqn:Hsent; [discriminate |].
    rewrite (F64_truediv_ok _ _ Hm0). cbn [Py.bind].
    intros Hc. exists sm, ss, avg, ratio.
    assert (Hpos : F64.gt avg (F64.int 0) = true).
    { destruct (F64.gt avg (F64.int 0)) eqn:Hpos; [reflexivity |].
      unfold Binary64.SocialSpikeRule.hourly_ratio in Hratio. rewrite Hpos in Hratio.
      injection Hratio as <-. unfold F64.gt in Hm. unfold F64.lt in Hspike.
      change (F64.int 0) with (S754_zero false) in Hm. congruence. }
    destruct (F64.gt (Binary64.SocialSentiment.sentiment_score ss) (F64.int 0));
      injection Hc as <-; repeat split; assumption.
  - intros sm ss avg ratio -> -> Havg Hpos Hratio Hspike Hsent.
    unfold Binary64.SocialSpikeRule.evaluate.
    rewrite Havg. cbn [Py.bind]. rewrite Hratio. cbn [Py.bind].
    rewrite Hspike, Hsent.
    rewrite (F64_truediv_ok _ _ Hm0). cbn [Py.bind].
    destruct (F64.gt (Binary64.SocialSentiment.sentiment_score ss) (F64.int 0));
      eexists; reflexivity.
Qed.

(** The default rule on 100 mentions in the last hour against 240 in the last
    24 hours, with a social sentiment of 0.81. *)
Lemma C6_social_spike_witness :
  exists c,
    Binary64.SocialSpikeRule.evaluate Examples.social_rule64
      (Some (SocialMention.mk 100 240)) (Some (Binary64.SocialSentiment.mk (F64.lit 81 2)))
      = Py.Ok (Some c).
Proof.
  assert (Hm : F64.gt (Binary64.SocialSpikeRule.mention_multiplier Examples.social_rule64)
                 (F64.int 0) = true) by reflexivity.
  destruct (C6_social_spike_fires_iff Examples.social_rule64
              (Some (SocialMention.mk 100 240))
              (Some (Binary64.SocialSentiment.mk (F64.lit 81 2))) Hm)
    as (_ & _ & _ & Hfires).
  apply (Hfires (SocialMention.mk 100 240) (Binary64.SocialSentiment.mk (F64.lit 81 2))
           (F64.int 10) (F64.int 10)).
  - reflexivity.
  - reflexivity.
  - reflexivity.
  - reflexivity.
  - reflexivity.
  - reflexivity.
  - reflexivity.
Defined.

(** That candidate has the confidence 0.91: the average of 1.0 and 0.81 is
    the float just above 0.905.  With 26 mentions against 120 and a
    sentiment of 0.75 the confidence is 0.65. *)
Example social_spike_confidence_rounding :
  (exists c,
      Binary64.SocialSpikeRule.evaluate Examples.social_rule64
        (Some (SocialMention.mk 100 240))
        (Some (Binary64.SocialSentiment.mk (F64.lit 81 2))) = Py.Ok (Some c)
      /\ Binary64.SignalCandidate.confidence c = F64.lit 91 2)
  /\ (exists c,
        Binary64.SocialSpikeRule.evaluate Examples.social_rule64
          (Some (SocialMention.mk 26 120))
          (Some (Binary64.SocialSentiment.mk (F64.lit 75 2))) = Py.Ok (Some c)
        /\ Binary64.SignalCandidate.confidence c = F64.lit 65 2).
Proof.
  split; eexists; (split; [vm_compute; reflexivity | reflexivity]).
Qed.

Lemma spike_confidence_positive (ratio multiplier : Q) :
  0 < multiplier -> multiplier <= ratio -> 0 < (ratio - multiplier) / multiplier + 0.5.
Proof.
  intros Hm H.
  assert (H2 : 0 <= (ratio - multiplier) / multiplier)
    by (apply Qle_shift_div_l; [exact Hm | lra]).
  set (d := (ratio - multiplier) / multiplier) in *. lra.
Qed.


(** ** Signal materialisation *)

Lemma in_range_true (lo hi x : Q) : lo <= x <= hi -> Signal.in_range lo hi x = true.
Proof.
  intros [Hlo Hhi]. unfold Signal.in_range.
  apply andb_true_intro. split; [apply Py_ge_true | apply Py_le_true]; assumption.
Qed.

Lemma optional_in_range_true (lo hi : Q) (x : option Q) :
  (forall v, x = Some v -> lo <= v <= hi) -> Signal.optional_in_range lo hi x = true.
Proof.
  intros H. destruct x as [v |]; [| reflexivity].
  apply in_range_true, H. reflexivity.
Qed.

Lemma or_float_nonzero (p d : Q) : ~ p == 0 -> Py.or_float (Some p) d = p.
Proof.
  intros Hp. unfold Py.or_float. apply Py_eq_false in Hp. now rewrite Hp.
Qed.

Lemma or_float_in_unit (x : option Q) :
  (forall p, x = Some p -> 0 <= p <= 1) -> 0 <= Py.or_float x 0.5 <= 1.
Proof.
  intros H. unfold Py.or_float. destruct x as [p |].
  - destruct (Py.eq p 0); [split; discriminate | apply H; reflexivity].
  - split; discriminate.
Qed.

(** C7, counterexample: a market without a current
    price passes the quality filter, a social spike yields a candidate that
    survives the adjustment, and the signal the pipeline returns has entry
    price 0.5, which is not the market's current price. *)
Lemma C7_entry_price_of_unpriced_market :
  let market := Examples.market "m1" 50000 None in
  exists s,
    snd (SignalGenerator.process_market Examples.generator Examples.env market None
           (Some (SocialMention.mk 100 240)) (Some (SocialSentiment.mk 0.8)) false)
    = Py.Ok [s]
    /\ Signal.entry_price s = 0.5
    /\ Market.current_price market <> Some (Signal.entry_price s).
Proof.
  cbv zeta. eexists. split; [vm_compute; reflexivity |].
  split; [reflexivity | discriminate].
Qed.

(** C7, as amended: for every market and every candidate that pass the
    constraints of the [Signal] fields (confidence and price in [0, 1],
    sentiment scores in [-1, 1]), [generate_signal] returns a signal whose
    entry price is the market's current price when that price is present and
    not zero, and 0.5 when the market has no current price; whose
    [entry_volume_24h], [entry_volume_total] and [entry_liquidity] are the
    market's 24h volume, total volume and liquidity; whose status is ACTIVE;
    and whose identity is the one freshly drawn for it. *)
Theorem C7_generate_signal_entry_snapshot :
  forall (id : UUID) (created_at : datetime.t) (market : Market.t)
         (candidate : SignalCandidate.t) (news_sentiment : option NewsSentiment.t)
         (social_mentions : option SocialMention.t),
    0 <= SignalCandidate.confidence candidate <= 1 ->
    (forall p, Market.current_price market = Some p -> 0 <= p <= 1) ->
    (forall x, SignalCandidate.news_sentiment_score candidate = Some x -> -1 <= x <= 1) ->
    (forall x, SignalCandidate.social_sentiment_score candidate = Some x -> -1 <= x <= 1) ->
    exists s,
      SignalGenerator.generate_signal id created_at market candidate
        news_sentiment social_mentions = Py.Ok s
      /\ (forall p, Market.current_price market = Some p -> ~ p == 0 ->
          Signal.entry_price s = p)
      /\ (Market.current_price market = None -> Signal.entry_price s = 0.5)
      /\ Signal.entry_volume_24h s = Market.volume_24h market
      /\ Signal.entry_volume_total s = Market.volume market
      /\ Signal.entry_liquidity s = Market.liquidity market
      /\ Signal.status s = ACTIVE
      /\ Signal.id s = id.
Proof.
  intros id created_at market candidate news_sentiment social_mentions
         Hconf Hprice Hnews Hsocial.
  unfold SignalGenerator.generate_signal, Signal.validate.
  cbn [Signal.confidence Signal.entry_price Signal.news_sentiment_score
       Signal.social_sentiment_score].
  rewrite (in_range_true 0 1 _ Hconf).
  rewrite (in_range_true 0 1 _ (or_float_in_unit _ Hprice)).
  rewrite (optional_in_range_true (-1) 1 _ Hnews).
  rewrite (optional_in_range_true (-1) 1 _ Hsocial).
  cbn [negb Py.bind].
  eexists. split; [reflexivity |].
  destruct news_sentiment as [ns |], social_mentions as [sm |];
    cbn [Signal.news_sentiment_score Signal.social_mention_count_24h];
    destruct (SignalCandidate.news_sentiment_score candidate);
    destruct (SignalCandidate.social_mention_count_24h candidate);
    cbn;
    (split; [intros p Hp Hnz; rewrite Hp; apply or_float_nonzero, Hnz |];
     split; [intros Hnone; rewrite Hnone; reflexivity |];
     repeat split).
Qed.

(** A BUY candidate of confidence 0.8 on a market priced at 0.40. *)
Lemma C7_generate_signal_witness :
  exists s,
    SignalGenerator.generate_signal 7%N (Examples.naive 0) Examples.expiring_low_market
      (Examples.candidate BUY 0.8) None None = Py.Ok s
    /\ Signal.entry_price s = 0.40
    /\ Signal.status s = ACTIVE.
Proof.
  assert (H1 : 0 <= SignalCandidate.confidence (Examples.candidate BUY 0.8) <= 1)
    by (split; discriminate).
  assert (H2 : forall p, Market.current_price Examples.expiring_low_market = Some p ->
                         0 <= p <= 1).
  { intros p Hp. injection Hp as <-. split; discriminate. }
  assert (H3 : forall x,
             SignalCandidate.news_sentiment_score (Examples.candidate BUY 0.8) = Some x ->
             -1 <= x <= 1) by discriminate.
  assert (H4 : forall x,
             SignalCandidate.social_sentiment_score (Examples.candidate BUY 0.8) = Some x ->
             -1 <= x <= 1).
  { intros x Hx. injection Hx as <-. split; discriminate. }
  destruct (C7_generate_signal_entry_snapshot 7%N (Examples.naive 0)
              Examples.expiring_low_market (Examples.candidate BUY 0.8) None None
              H1 H2 H3 H4)
    as (s & Hs & Hentry & _ & _ & _ & _ & Hstatus & _).
  exists s. split; [exact Hs |]. split; [| exact Hstatus].
  apply Hentry; [reflexivity | discriminate].
Defined.

(** ** The scanner's per-market isolation *)

Section ScanLoop.

Variable W : Type.
Variable scan_market : Market.t -> W -> W * Py.outcome (list Signal.t).

(** The loop of [run_scan] against the trace of the evaluations: it returns,
    appending the signals of the successful markets and one error string per
    failed market, and counting the successful ones. *)
Lemma scan_loop_trace (markets : list Market.t) :
  forall (w : W) (result : SignalScanner.ScanResult),
    ScanSpec.only_Exceptions (ScanSpec.trace W scan_market markets w) ->
    exists w' result',
      SignalScanner.scan_loop W scan_market markets w result = (w', Py.Ok result')
      /\ SignalScanner.signals result'
         = SignalScanner.signals result
           ++ ScanSpec.succeeded_signals (ScanSpec.trace W scan_market markets w)
      /\ SignalScanner.markets_scanned result'
         = (SignalScanner.markets_scanned result
            + ScanSpec.count_succeeded (ScanSpec.trace W scan_market markets w))%Z
      /\ SignalScanner.errors result'
         = SignalScanner.errors result
           ++ ScanSpec.failure_messages (ScanSpec.trace W scan_market markets w)
      /\ SignalScanner.scan_time result' = SignalScanner.scan_time result
      /\ SignalScanner.degraded result' = SignalScanner.degraded result.
Proof.
  induction markets as [| market rest IH]; intros w result Hexn.
  - exists w, result. cbn. rewrite !app_nil_r, Z.add_0_r. repeat split.
  - cbn [ScanSpec.trace SignalScanner.scan_loop] in *.
    destruct (scan_market market w) as [w1 [signals | e]].
    + inversion Hexn as [| x t _ Hrest]; subst.
      destruct (IH w1 (SignalScanner.increment_markets_scanned
                         (SignalScanner.extend_signals signals result)) Hrest)
        as (w' & result' & Hloop & Hsig & Hcount & Herr & Htime & Hdeg).
      exists w', result'. split; [exact Hloop |].
      rewrite Hsig, Hcount, Herr, Htime, Hdeg.
      unfold ScanSpec.count_succeeded. cbn.
      rewrite <- app_assoc. repeat split. lia.
    + inversion Hexn as [| x t Hcatch Hrest]; subst. cbn in Hcatch.
      rewrite Hcatch.
      destruct (IH w1 (SignalScanner.append_error (SignalScanner.error_msg market e) result)
                  Hrest)
        as (w' & result' & Hloop & Hsig & Hcount & Herr & Htime & Hdeg).
      exists w', result'. split; [exact Hloop |].
      rewrite Hsig, Hcount, Herr, Htime, Hdeg.
      unfold ScanSpec.count_succeeded. cbn.
      rewrite <- app_assoc. repeat split.
Qed.

(** One error string per failed market. *)
Lemma failure_messages_length (t : list ScanSpec.entry) :
  List.length (ScanSpec.failure_messages t) = ScanSpec.count_failed t.
Proof.
  unfold ScanSpec.failure_messages, ScanSpec.count_failed.
  induction t as [| [market [signals | e]] rest IH];
    cbn [flat_map filter snd fst negb ScanSpec.succeeded app List.length];
    [reflexivity | exact IH | f_equal; exact IH].
Qed.

End ScanLoop.

(** C9: when every exception raised while evaluating a market is an
    [Exception], [run_scan] on a non-empty list of markets returns a result
    whose signals are those of the markets that evaluated successfully, in
    order, whose [markets_scanned] counts exactly those markets, and whose
    errors hold exactly one string per market that raised; every market after
    a failure is still evaluated.  For three markets of which the second
    raises, the signals are those of the first and the third, there is one
    error entry and [markets_scanned] is 2. *)
Theorem C9_run_scan_isolates_failures :
  forall (W : Type)
         (get_markets_to_scan : option (list string) -> W -> W * Py.outcome (list Market.t))
         (scan_market : Market.t -> W -> W * Py.outcome (list Signal.t))
         (_persist_signals : list Signal.t -> list Market.t -> W -> W * Py.outcome unit)
         (is_available : string -> W -> bool) (settings : Settings.t)
         (override_markets : option (list string)) (persist : bool)
         (scan_time : datetime.t) (w w0 : W) (markets : list Market.t),
    get_markets_to_scan override_markets w = (w0, Py.Ok markets) ->
    markets <> [] ->
    ScanSpec.only_Exceptions (ScanSpec.trace W scan_market markets w0) ->
    (forall signals ms w1, snd (_persist_signals signals ms w1) = Py.Ok tt) ->
    let t := ScanSpec.trace W scan_market markets w0 in
    exists w' result,
      SignalScanner.run_scan W get_markets_to_scan scan_market _persist_signals
        is_available settings override_markets persist scan_time w = (w', Py.Ok result)
      /\ SignalScanner.signals result = ScanSpec.succeeded_signals t
      /\ SignalScanner.markets_scanned result = ScanSpec.count_succeeded t
      /\ SignalScanner.errors result = ScanSpec.failure_messages t
      /\ List.length (SignalScanner.errors result) = ScanSpec.count_failed t
      /\ SignalScanner.signals_generated result
         = Z.of_nat (List.length (SignalScanner.signals result))
      /\ (forall m1 m2 m3 s1 e s3 w1 w2 w3,
            markets = [m1; m2; m3] ->
            scan_market m1 w0 = (w1, Py.Ok s1) ->
            scan_market m2 w1 = (w2, Py.Raise e) ->
            scan_market m3 w2 = (w3, Py.Ok s3) ->
            SignalScanner.signals result = s1 ++ s3
            /\ SignalScanner.errors result = [SignalScanner.error_msg m2 e]
            /\ SignalScanner.markets_scanned result = 2%Z).
Proof.
  intros W get_markets_to_scan scan_market _persist_signals is_available settings
         override_markets persist scan_time w w0 markets
         Hget Hnonempty Hexn Hpersist t.
  destruct (scan_loop_trace W scan_market markets w0
              (SignalScanner.new_ScanResult scan_time) Hexn)
    as (w1 & r & Hloop & Hsig & Hcount & Herr & _ & _).
  cbn [SignalScanner.new_ScanResult SignalScanner.signals SignalScanner.markets_scanned
       SignalScanner.errors app] in Hsig, Hcount, Herr.
  rewrite Z.add_0_l in Hcount. fold t in Hsig, Hcount, Herr.
  unfold SignalScanner.run_scan. rewrite Hget.
  destruct markets as [| market rest]; [contradiction |].
  rewrite Hloop.
  set (r' := SignalScanner.set_signals_generated _ r).
  assert (Hfacts :
            forall d,
              let result := SignalScanner.set_degraded d r' in
              SignalScanner.signals result = ScanSpec.succeeded_signals t
              /\ SignalScanner.markets_scanned result = ScanSpec.count_succeeded t
              /\ SignalScanner.errors result = ScanSpec.failure_messages t
              /\ List.length (SignalScanner.errors result) = ScanSpec.count_failed t
              /\ SignalScanner.signals_generated result
                 = Z.of_nat (List.length (SignalScanner.signals result))
              /\ (forall m1 m2 m3 s1 e s3 w1 w2 w3,
                    market :: rest = [m1; m2; m3] ->
                    scan_market m1 w0 = (w1, Py.Ok s1) ->
                    scan_market m2 w1 = (w2, Py.Raise e) ->
                    scan_market m3 w2 = (w3, Py.Ok s3) ->
                    SignalScanner.signals result = s1 ++ s3
                    /\ SignalScanner.errors result = [SignalScanner.error_msg m2 e]
                    /\ SignalScanner.markets_scanned result = 2%Z)).
  { intros d. cbn.
    split; [exact Hsig |]. split; [exact Hcount |]. split; [exact Herr |].
    split; [rewrite Herr; apply failure_messages_length |].
    split; [reflexivity |].
    intros m1 m2 m3 s1 e s3 v1 v2 v3 Hms H1 H2 H3.
    rewrite Hsig, Herr, Hcount. subst t. rewrite Hms.
    cbn [ScanSpec.trace]. rewrite H1, H2, H3.
    unfold ScanSpec.count_succeeded. cbn. rewrite app_nil_r. repeat split. }
  destruct persist; [destruct (SignalScanner.signals r') as [| s0 more] eqn:Hsigs |].
  - eexists _, _. split; [reflexivity | apply Hfacts].
  - specialize (Hpersist (s0 :: more) (market :: rest) w1).
    destruct (_persist_signals (s0 :: more) (market :: rest) w1) as [w2 o].
    cbn in Hpersist. subst o.
    eexists _, _. split; [reflexivity | apply Hfacts].
  - eexists _, _. split; [reflexivity | apply Hfacts].
Qed.

(** Three markets of which the second raises, scanned with persistence off. *)
Lemma C9_run_scan_witness :
  exists calls result,
    SignalScanner.run_scan nat (fun _ w => (w, Py.Ok Examples.three_markets))
      Examples.scan_stub (fun _ _ w => (w, Py.Ok tt)) (fun _ _ => true)
      Settings.default None false (Examples.naive 0) 0%nat
    = (calls, Py.Ok result)
    /\ SignalScanner.signals result
       = [Examples.signal BUY 0.40; Examples.signal BUY 0.40]
    /\ List.length (SignalScanner.errors result) = 1%nat
    /\ SignalScanner.markets_scanned result = 2%Z.
Proof.
  assert (Hget : (fun (_ : option (list string)) (w : nat) =>
                    (w, Py.Ok Examples.three_markets)) None 0%nat
                 = (0%nat, Py.Ok Examples.three_markets)) by reflexivity.
  assert (Hnonempty : Examples.three_markets <> []) by discriminate.
  assert (Hexn : ScanSpec.only_Exceptions
                   (ScanSpec.trace nat Examples.scan_stub Examples.three_markets 0%nat)).
  { repeat constructor. }
  assert (Hpersist : forall (signals : list Signal.t) (ms : list Market.t) (w1 : nat),
             snd ((fun _ _ w => (w, Py.Ok tt)) signals ms w1 : nat * Py.outcome unit)
             = Py.Ok tt) by reflexivity.
  destruct (C9_run_scan_isolates_failures nat
              (fun _ w => (w, Py.Ok Examples.three_markets))
              Examples.scan_stub (fun _ _ w => (w, Py.Ok tt)) (fun _ _ => true)
              Settings.default None false (Examples.naive 0) 0%nat 0%nat
              Examples.three_markets Hget Hnonempty Hexn Hpersist)
    as (calls & result & Hrun & Hsig & Hcount & Herr & Hlen & _ & _).
  exists calls, result.
  split; [exact Hrun |]. split; [exact Hsig |]. split; [exact Hlen | exact Hcount].
Defined.

(** ** The gain function in the tracker *)

(** The gain recorded at the first checkpoint is the value of
    [Signal.calculate_gain]. *)
Lemma checkpoint_1h_records_calculate_gain (s : Signal.t) (db : list Signal.t)
    (hours price g : Q) (updated : bool) :
  Signal.price_1h s = None ->
  1 <= hours ->
  Signal.calculate_gain s price = Py.Ok g ->
  let s' := SignalTracker.signal
              (fst (SignalTracker.checkpoint_1h hours price updated
                      (SignalTracker.mkState s db))) in
  Signal.price_1h s' = Some price /\ Signal.gain_1h_pct s' = Some g.
Proof.
  intros Hunset Hreached Hgain. cbv zeta.
  unfold SignalTracker.checkpoint_1h, SignalTracker.bind, SignalTracker.read,
    SignalTracker.assign, SignalTracker.calculate_gain, SignalTracker.ret.
  cbv [SignalTracker.signal SignalTracker.db_updates fst].
  apply Py_ge_true in Hreached. rewrite Hreached, Hunset. cbn [andb Py.is_None].
  assert (Hgain' : Signal.calculate_gain (Signal.set_price_1h (Some price) s) price
                   = Py.Ok g) by exact Hgain.
  rewrite Hgain'. split; reflexivity.
Qed.

(** The final gain recorded at resolution is the value of
    [Signal.calculate_gain], and the signal wins exactly when it is positive. *)
Lemma resolve_signal_records_calculate_gain (s : Signal.t) (db : list Signal.t)
    (market : Market.t) (clock : Z) (final_price g : Q) :
  Market.current_price market = Some final_price ->
  Signal.calculate_gain s final_price = Py.Ok g ->
  let s' := SignalTracker.signal
              (fst (SignalTracker._resolve_signal market clock
                      (SignalTracker.mkState s db))) in
  Signal.price_at_resolution s' = Some final_price
  /\ Signal.gain_final_pct s' = Some g
  /\ Signal.status s' = (if Py.gt g 0 then RESOLVED_WIN else RESOLVED_LOSS)
  /\ Signal.resolved_at s' = Some (datetime.now_utc clock).
Proof.
  intros Hprice Hgain. cbv zeta.
  unfold SignalTracker._resolve_signal. rewrite Hprice.
  unfold SignalTracker.bind, SignalTracker.assign, SignalTracker.calculate_gain.
  cbv [SignalTracker.signal SignalTracker.db_updates fst].
  rewrite Hgain. repeat split.
Qed.

(* ================================================================== *)
(** * Further properties of the pipeline *)

(** ** Rounding to two decimals *)

Lemma round_half_even_lower (n : Z) (x : Q) :
  inject_Z n <= x -> (n <= Py.round_half_even x)%Z.
Proof.
  intros Hn. apply Qfloor_resp_le in Hn. rewrite Qfloor_Z in Hn.
  unfold Py.round_half_even. cbv zeta.
  destruct (Py.lt _ _); [exact Hn |].
  destruct (Py.gt _ _); [lia |].
  destruct (Z.even _); lia.
Qed.

Lemma round_half_even_upper (n : Z) (x : Q) :
  x <= inject_Z n -> (Py.round_half_even x <= n)%Z.
Proof.
  intros Hn. pose proof (Qfloor_le x) as Hfloor.
  assert (Hfn : (Qfloor x <= n)%Z) by (rewrite Zle_Qle; lra).
  unfold Py.round_half_even. cbv zeta.
  destruct (Py.lt (x - inject_Z (Qfloor x)) 0.5) eqn:Hlow; [exact Hfn |].
  apply Py_lt_false in Hlow.
  assert (Hstrict : (Qfloor x < n)%Z) by (rewrite Zlt_Qlt; lra).
  destruct (Py.gt _ _); [lia |].
  destruct (Z.even _); lia.
Qed.

Lemma hundredths_le_l (a x : Q) : a / 100 <= x <-> a <= x * 100.
Proof.
  split; intros H.
  - setoid_replace a with (a / 100 * 100) by field.
    apply Qmult_le_compat_r; [exact H | discriminate].
  - apply Qle_shift_div_r; [reflexivity | exact H].
Qed.

Lemma hundredths_le_r (a x : Q) : x <= a / 100 <-> x * 100 <= a.
Proof.
  split; intros H.
  - setoid_replace a with (a / 100 * 100) by field.
    apply Qmult_le_compat_r; [exact H | discriminate].
  - apply Qle_shift_div_l; [reflexivity | exact H].
Qed.

(** Rounding keeps a value between two bounds that are multiples of 0.01. *)
Lemma round2_between (lo hi : Z) (x : Q) :
  inject_Z lo / 100 <= x <= inject_Z hi / 100 ->
  inject_Z lo / 100 <= Py.round2 x <= inject_Z hi / 100.
Proof.
  intros [Hlo Hhi]. unfold Py.round2.
  apply hundredths_le_l in Hlo. apply hundredths_le_r in Hhi.
  apply round_half_even_lower in Hlo. apply round_half_even_upper in Hhi.
  rewrite Zle_Qle in Hlo, Hhi.
  split.
  - apply hundredths_le_l.
    setoid_replace (inject_Z (Py.round_half_even (x * 100)) / 100 * 100)
      with (inject_Z (Py.round_half_even (x * 100))) by field.
    exact Hlo.
  - apply hundredths_le_r.
    setoid_replace (inject_Z (Py.round_half_even (x * 100)) / 100 * 100)
      with (inject_Z (Py.round_half_even (x * 100))) by field.
    exact Hhi.
Qed.

Lemma round2_between_decimals (lo hi : Z) (a b x : Q) :
  a == inject_Z lo / 100 -> b == inject_Z hi / 100 ->
  a <= x <= b -> a <= Py.round2 x <= b.
Proof.
  intros Ha Hb Hx. rewrite Ha, Hb in Hx |- *. apply round2_between, Hx.
Qed.

(** ** Confidence of the rule candidates *)

Lemma Py_min_one (x : Q) : Py.min 1.0 x <= 1.
Proof. eapply Qle_trans; [apply Py_min_le_l | discriminate]. Qed.

(** The candidates of [SentimentDivergenceRule] carry a confidence between
    0.3 and 0.9, the sentiment score they were built from, and come from a
    market priced in [0.05, 0.95] with at least [min_article_count]
    articles. *)
Theorem sentiment_candidate_bounds :
  forall (rule : SentimentDivergenceRule.t) (market : Market.t)
         (news : option NewsSentiment.t) (c : SignalCandidate.t),
    SentimentDivergenceRule.evaluate rule market news = Some c ->
    0.3 <= SignalCandidate.confidence c <= 0.9
    /\ SignalCandidate.signal_type c = SENTIMENT_DIVERGENCE
    /\ exists n price,
         news = Some n /\ Market.current_price market = Some price
         /\ SignalCandidate.news_sentiment_score c
            = Some (NewsSentiment.sentiment_score n)
         /\ (SentimentDivergenceRule.min_article_count rule
             <= NewsSentiment.article_count n)%Z
         /\ 0.05 <= price <= 0.95.
Proof.
  intros rule market news c. unfold SentimentDivergenceRule.evaluate.
  destruct news as [n |]; [| discriminate].
  destruct (Market.current_price market) as [price |]; [| discriminate].
  cbv zeta.
  destruct (Py.lt _ _); [discriminate |].
  destruct (_ <? _)%Z eqn:Hcount; [discriminate |]. apply Z.ltb_ge in Hcount.
  destruct (Py.lt price 0.05) eqn:Hlow; [discriminate |].
  destruct (Py.gt price 0.95) eqn:Hhigh; [discriminate |].
  cbn [orb]. py_props.
  destruct (SentimentDivergenceRule.branch _ _ _ _) as [[[direction reasoning] divergence] |];
    [| discriminate].
  intros Hc. injection Hc as <-. cbn [SignalCandidate.confidence SignalCandidate.signal_type
                                      SignalCandidate.news_sentiment_score].
  split.
  - apply (round2_between_decimals 30 90); [reflexivity | reflexivity |].
    split.
    + apply Py_max_ge_l.
    + apply Py_max_lub; [discriminate | apply Py_min_le_l].
  - split; [reflexivity |]. exists n, price. repeat split; assumption.
Qed.

(** Positive news (0.7 over 10 articles) on a market priced at 0.35. *)
Lemma sentiment_candidate_bounds_witness :
  exists c,
    SentimentDivergenceRule.evaluate Examples.sentiment_rule
      (Examples.market "m1" 50000 (Some 0.35)) (Some (Examples.news 0.7 10)) = Some c
    /\ 0.3 <= SignalCandidate.confidence c <= 0.9.
Proof.
  destruct (SentimentDivergenceRule.evaluate Examples.sentiment_rule
              (Examples.market "m1" 50000 (Some 0.35)) (Some (Examples.news 0.7 10)))
    as [c |] eqn:E.
  - exists c. split; [reflexivity |].
    exact (proj1 (sentiment_candidate_bounds _ _ _ c E)).
  - vm_compute in E. discriminate.
Defined.

(** What a candidate of [VolumeSurgeRule] tells about the call. *)
Lemma volume_surge_inversion (rule : VolumeSurgeRule.t) (market : Market.t)
    (previous_price previous_volume_24h : option Q) (c : SignalCandidate.t) :
  VolumeSurgeRule.evaluate rule market previous_price previous_volume_24h
    = Py.Ok (Some c) ->
  exists price x v,
    Market.current_price market = Some price
    /\ previous_price = Some x /\ previous_volume_24h = Some v
    /\ ~ x == 0 /\ ~ v == 0
    /\ VolumeSurgeRule.volume_multiplier rule <= Market.volume_24h market / v
    /\ SignalCandidate.confidence c
       = Py.round2 (Py.min 1.0 ((Market.volume_24h market / v
                                 - VolumeSurgeRule.volume_multiplier rule) / 2 + 0.5)).
Proof.
  unfold VolumeSurgeRule.evaluate.
  destruct previous_price as [x |]; [| discriminate].
  destruct previous_volume_24h as [v |]; [| discriminate].
  destruct (Market.current_price market) as [price |]; [| discriminate].
  destruct (Py.eq v 0) eqn:Hv; [discriminate |]. apply Py_eq_false in Hv.
  rewrite (Py_truediv_ok _ v Hv). cbn [Py.bind].
  destruct (Py.lt _ _) eqn:Hratio; [discriminate |]. apply Py_lt_false in Hratio.
  destruct (Py.eq x 0) eqn:Hx.
  { apply Py_eq_true in Hx. rewrite (Py_truediv_zero _ x Hx). discriminate. }
  apply Py_eq_false in Hx. rewrite (Py_truediv_ok _ x Hx). cbn [Py.bind].
  destruct (Py.lt _ _); [discriminate |].
  intros Hc. exists price, x, v.
  destruct (Py.gt _ 0); injection Hc as <-; repeat split; assumption.
Qed.

(** The candidates of [VolumeSurgeRule] carry a confidence between 0.5 and 1,
    whatever the multiplier and the threshold of the rule. *)
Theorem volume_surge_confidence_bounds :
  forall (rule : VolumeSurgeRule.t) (market : Market.t)
         (previous_price previous_volume_24h : option Q) (c : SignalCandidate.t),
    VolumeSurgeRule.evaluate rule market previous_price previous_volume_24h
      = Py.Ok (Some c) ->
    0.5 <= SignalCandidate.confidence c <= 1.
Proof.
  intros rule market previous_price previous_volume_24h c Hc.
  destruct (volume_surge_inversion _ _ _ _ _ Hc)
    as (price & x & v & _ & _ & _ & _ & _ & Hratio & ->).
  apply (round2_between_decimals 50 100); [reflexivity | reflexivity |].
  assert (H : 0 <= (Market.volume_24h market / v
                    - VolumeSurgeRule.volume_multiplier rule) / 2)
    by (apply Qle_shift_div_l; lra).
  set (d := (Market.volume_24h market / v - VolumeSurgeRule.volume_multiplier rule) / 2)
    in *.
  split.
  - apply Py_min_glb; [discriminate | lra].
  - apply Py_min_one.
Qed.

(** A tripled volume with the price rising from 0.50 to 0.60. *)
Lemma volume_surge_confidence_witness :
  exists c,
    VolumeSurgeRule.evaluate Examples.volume_rule
      (Examples.market "m1" 30000 (Some 0.60)) (Some 0.50) (Some 10000) = Py.Ok (Some c)
    /\ 0.5 <= SignalCandidate.confidence c <= 1.
Proof.
  destruct (VolumeSurgeRule.evaluate Examples.volume_rule
              (Examples.market "m1" 30000 (Some 0.60)) (Some 0.50) (Some 10000))
    as [[c |] | e] eqn:E.
  - exists c. split; [reflexivity |].
    exact (volume_surge_confidence_bounds _ _ _ _ c E).
  - vm_compute in E. discriminate.
  - vm_compute in E. discriminate.
Defined.

(** What a candidate of [SocialSpikeRule] with a positive multiplier tells
    about the call. *)
Lemma social_spike_inversion (rule : SocialSpikeRule.t)
    (social_mentions : option SocialMention.t)
    (social_sentiment : option SocialSentiment.t) (c : SignalCandidate.t) :
  0 < SocialSpikeRule.mention_multiplier rule ->
  SocialSpikeRule.evaluate rule social_mentions social_sentiment = Py.Ok (Some c) ->
  exists sm ss ratio,
    social_mentions = Some sm /\ social_sentiment = Some ss
    /\ SocialSpikeRule.mention_multiplier rule <= ratio
    /\ SocialSpikeRule.sentiment_threshold rule
       <= Qabs (SocialSentiment.sentiment_score ss)
    /\ SignalCandidate.confidence c
       = Py.round2
           ((Py.min 1.0 ((ratio - SocialSpikeRule.mention_multiplier rule)
                         / SocialSpikeRule.mention_multiplier rule + 0.5)
             + Qabs (SocialSentiment.sentiment_score ss)) / 2)
    /\ SignalCandidate.social_mention_count_24h c
       = Some (SocialMention.mention_count_24h sm)
    /\ SignalCandidate.social_sentiment_score c
       = Some (SocialSentiment.sentiment_score ss).
Proof.
  intros Hm. assert (Hm0 : ~ SocialSpikeRule.mention_multiplier rule == 0) by lra.
  unfold SocialSpikeRule.evaluate.
  destruct social_mentions as [sm |]; [| discriminate].
  destruct social_sentiment as [ss |]; [| discriminate].
  destruct (SocialSpikeRule.hourly_ratio sm) as [ratio | e]; [| discriminate].
  cbn [Py.bind].
  destruct (Py.lt ratio _) eqn:Hratio; [discriminate |]. apply Py_lt_false in Hratio.
  destruct (Py.lt _ _) eqn:Hsent; [discriminate |]. apply Py_lt_false in Hsent.
  rewrite (Py_truediv_ok _ _ Hm0).
  intros Hc. exists sm, ss, ratio.
  destruct (Py.gt _ 0); cbn [Py.bind] in Hc; injection Hc as <-;
    repeat split; assumption.
Qed.

(** For a rule with a positive multiplier and a social sentiment score in
    [-1, 1], the candidates of [SocialSpikeRule] carry a confidence between
    0.25 and 1, and the mention count and the score they were built from. *)
Theorem social_spike_confidence_bounds :
  forall (rule : SocialSpikeRule.t) (sm : SocialMention.t) (ss : SocialSentiment.t)
         (c : SignalCandidate.t),
    0 < SocialSpikeRule.mention_multiplier rule ->
    -1 <= SocialSentiment.sentiment_score ss <= 1 ->
    SocialSpikeRule.evaluate rule (Some sm) (Some ss) = Py.Ok (Some c) ->
    0.25 <= SignalCandidate.confidence c <= 1
    /\ SignalCandidate.social_mention_count_24h c
       = Some (SocialMention.mention_count_24h sm)
    /\ SignalCandidate.social_sentiment_score c
       = Some (SocialSentiment.sentiment_score ss).
Proof.
  intros rule sm ss c Hm Hscore Hc.
  destruct (social_spike_inversion _ _ _ _ Hm Hc)
    as (sm' & ss' & ratio & Hsm & Hss & Hratio & _ & -> & Hcount & Hsent).
  injection Hsm as <-. injection Hss as <-.
  split; [| split; assumption].
  apply (round2_between_decimals 25 100); [reflexivity | reflexivity |].
  pose proof (spike_confidence_positive _ _ Hm Hratio) as Hpos.
  assert (Hq : 0 <= (ratio - SocialSpikeRule.mention_multiplier rule)
                    / SocialSpikeRule.mention_multiplier rule)
    by (apply Qle_shift_div_l; [exact Hm | lra]).
  set (q := (ratio - SocialSpikeRule.mention_multiplier rule)
            / SocialSpikeRule.mention_multiplier rule) in *.
  assert (Hspike : 0.5 <= Py.min 1.0 (q + 0.5) <= 1).
  { split; [apply Py_min_glb; [discriminate | lra] | apply Py_min_one]. }
  assert (Habs : 0 <= Qabs (SocialSentiment.sentiment_score ss) <= 1).
  { split; [apply Qabs_nonneg |]. apply Qabs_Qle_condition. lra. }
  set (a := Py.min 1.0 (q + 0.5)) in *.
  set (b := Qabs (SocialSentiment.sentiment_score ss)) in *.
  split.
  - apply Qle_shift_div_l; [reflexivity | lra].
  - apply Qle_shift_div_r; [reflexivity | lra].
Qed.

(** 100 mentions in the last hour against 240 in the last 24 hours, with a
    social sentiment of 0.8. *)
Lemma social_spike_confidence_witness :
  exists c,
    SocialSpikeRule.evaluate Examples.social_rule
      (Some (SocialMention.mk 100 240)) (Some (SocialSentiment.mk 0.8)) = Py.Ok (Some c)
    /\ 0.25 <= SignalCandidate.confidence c <= 1.
Proof.
  destruct (SocialSpikeRule.evaluate Examples.social_rule
              (Some (SocialMention.mk 100 240)) (Some (SocialSentiment.mk 0.8)))
    as [[c |] | e] eqn:E.
  - exists c. split; [reflexivity |].
    assert (Hm : 0 < SocialSpikeRule.mention_multiplier Examples.social_rule)
      by reflexivity.
    assert (Hs : -1 <= SocialSentiment.sentiment_score (SocialSentiment.mk 0.8) <= 1)
      by (split; discriminate).
    exact (proj1 (social_spike_confidence_bounds _ _ _ c Hm Hs E)).
  - vm_compute in E. discriminate.
  - vm_compute in E. discriminate.
Defined.

(** ** PriceMomentumRule *)

Lemma volume_confirmation_spec (rule : Binary64.PriceMomentumRule.t)
    (market : Binary64.Market.t) (previous_volume_24h : option F64.t) :
  exists note,
    Binary64.PriceMomentumRule.volume_confirmation rule market previous_volume_24h
      = Py.Ok note
    /\ (note <> None <-> volume_confirmed rule market previous_volume_24h).
Proof.
  unfold Binary64.PriceMomentumRule.volume_confirmation, volume_confirmed.
  destruct previous_volume_24h as [v |].
  - destruct (F64.gt v (F64.int 0)) eqn:Hv.
    + rewrite (F64_gt_zero v Hv). cbn [negb andb].
      rewrite (F64_truediv_ok _ v (F64_gt_zero v Hv)). cbn [Py.bind].
      destruct (F64.ge _ _) eqn:Hratio.
      * eexists. split; [reflexivity |]. split; [| discriminate].
        intros _. exists v. repeat split; assumption.
      * eexists. split; [reflexivity |]. split; [congruence |].
        intros (v' & Hv' & _ & Hr). injection Hv' as <-. congruence.
    + rewrite andb_false_r.
      eexists. split; [reflexivity |]. split; [congruence |].
      intros (v' & Hv' & Hpos & _). injection Hv' as <-. congruence.
  - eexists. split; [reflexivity |]. split; [congruence |].
    intros (v' & Hv' & _). discriminate.
Qed.

(** In binary64, for a rule with a positive price threshold,
    [PriceMomentumRule.evaluate] returns a candidate exactly when the market
    has a current price, a non-zero previous price is supplied, the
    relative price change is not below the threshold in absolute value, and
    the move is either volume-confirmed or not below
    [price_threshold * 1.5]; the candidate is BUY for a positive change and
    SELL otherwise, and its confidence is
    [min(1.0, |price_change| / price_threshold * 0.5)], raised by 0.3 and
    limited to 1.0 again when the move is volume-confirmed, rounded to two
    decimals. *)
Theorem price_momentum_fires_iff :
  forall (rule : Binary64.PriceMomentumRule.t) (market : Binary64.Market.t)
         (previous_price previous_volume_24h : option F64.t),
    F64.gt (Binary64.PriceMomentumRule.price_threshold rule) (F64.int 0) = true ->
    let threshold := Binary64.PriceMomentumRule.price_threshold rule in
    let price_change price x := F64.div (F64.sub price x) x in
    let large_move price x :=
      F64.lt (F64.abs (price_change price x)) (F64.mul threshold (F64.lit 15 1)) = false in
    let base price x :=
      F64.min (F64.int 1)
        (F64.mul (F64.div (F64.abs (price_change price x)) threshold) (F64.lit 5 1)) in
    (forall c,
        Binary64.PriceMomentumRule.evaluate rule market previous_price previous_volume_24h
          = Py.Ok (Some c) ->
        exists price x,
          Binary64.Market.current_price market = Some price /\ previous_price = Some x
          /\ F64.is_zero x = false
          /\ F64.lt (F64.abs (price_change price x)) threshold = false
          /\ Binary64.SignalCandidate.signal_type c = PRICE_MOMENTUM
          /\ Binary64.SignalCandidate.direction c
             = (if F64.gt (price_change price x) (F64.int 0) then BUY else SELL)
          /\ ((volume_confirmed rule market previous_volume_24h
               /\ Binary64.SignalCandidate.confidence c
                  = F64.round2
                      (F64.min (F64.int 1) (F64.add (base price x) (F64.lit 3 1))))
              \/ (~ volume_confirmed rule market previous_volume_24h
                  /\ large_move price x
                  /\ Binary64.SignalCandidate.confidence c
                     = F64.round2 (F64.min (F64.int 1) (base price x)))))
    /\ (forall price x,
          Binary64.Market.current_price market = Some price -> previous_price = Some x ->
          F64.is_zero x = false ->
          F64.lt (F64.abs (price_change price x)) threshold = false ->
          (volume_confirmed rule market previous_volume_24h \/ large_move price x) ->
          exists c,
            Binary64.PriceMomentumRule.evaluate rule market previous_price
              previous_volume_24h = Py.Ok (Some c)).
Proof.
  intros rule market previous_price previous_volume_24h Ht
         threshold price_change large_move base.
  subst threshold price_change large_move base. cbv beta.
  pose proof (F64_gt_zero _ Ht) as Ht0.
  destruct (volume_confirmation_spec rule market previous_volume_24h)
    as (note & Hnote & Hconfirmed).
  split.
  - intros c. unfold Binary64.PriceMomentumRule.evaluate.
    destruct previous_price as [x |]; [| discriminate].
    destruct (Binary64.Market.current_price market) as [price |]; [| discriminate].
    destruct (F64.is_zero x) eqn:Hx.
    { rewrite (F64_truediv_zero _ x Hx). discriminate. }
    rewrite (F64_truediv_ok _ x Hx). cbn [Py.bind].
    destruct (F64.lt (F64.abs _) (Binary64.PriceMomentumRule.price_threshold rule))
      eqn:Hchange; [discriminate |].
    rewrite Hnote. cbn [Py.bind].
    rewrite (F64_truediv_ok _ _ Ht0). cbn [Py.bind].
    destruct note as [r |]; cbn [Py.is_None negb andb].
    + intros Hc. exists price, x.
      assert (Hconf : volume_confirmed rule market previous_volume_24h)
        by (apply Hconfirmed; discriminate).
      destruct (F64.gt (F64.div _ _) (F64.int 0)); apply Py_Ok_Some_inj in Hc; subst c;
        (split; [reflexivity |]); (split; [reflexivity |]); (split; [exact Hx |]);
        (split; [exact Hchange |]); (split; [reflexivity |]); (split; [reflexivity |]);
        left; (split; [exact Hconf | reflexivity]).
    + destruct (F64.lt (F64.abs _) (F64.mul _ _)) eqn:Hlarge; [discriminate |].
      intros Hc. exists price, x.
      assert (Hconf : ~ volume_confirmed rule market previous_volume_24h)
        by (intros H; apply Hconfirmed in H; congruence).
      destruct (F64.gt (F64.div _ _) (F64.int 0)); apply Py_Ok_Some_inj in Hc; subst c;
        (split; [reflexivity |]); (split; [reflexivity |]); (split; [exact Hx |]);
        (split; [exact Hchange |]); (split; [reflexivity |]); (split; [reflexivity |]);
        right; (split; [exact Hconf | split; [exact Hlarge | reflexivity]]).
  - intros price x Hprice -> Hx Hchange Hmove.
    unfold Binary64.PriceMomentumRule.evaluate. rewrite Hprice.
    rewrite (F64_truediv_ok _ x Hx). cbn [Py.bind].
    rewrite Hchange, Hnote. cbn [Py.bind].
    rewrite (F64_truediv_ok _ _ Ht0). cbn [Py.bind].
    destruct note as [r |]; cbn [Py.is_None negb andb].
    + destruct (F64.gt (F64.div _ _) (F64.int 0)); eexists; reflexivity.
    + destruct Hmove as [Hconf | Hlarge];
        [apply Hconfirmed in Hconf; congruence |].
      rewrite Hlarge.
      destruct (F64.gt (F64.div _ _) (F64.int 0)); eexists; reflexivity.
Qed.

(** The price rising from 0.50 to 0.60 without any previous volume: a move
    of 20 percent against a threshold of 10 percent. *)
Lemma price_momentum_witness :
  exists c,
    Binary64.PriceMomentumRule.evaluate Examples.momentum_rule64
      (Examples.market64 50000 (F64.lit 60 2)) (Some (F64.lit 50 2)) None = Py.Ok (Some c).
Proof.
  assert (Ht : F64.gt (Binary64.PriceMomentumRule.price_threshold Examples.momentum_rule64)
                 (F64.int 0) = true) by reflexivity.
  destruct (price_momentum_fires_iff Examples.momentum_rule64
              (Examples.market64 50000 (F64.lit 60 2)) (Some (F64.lit 50 2)) None Ht)
    as [_ Hfires].
  apply (Hfires (F64.lit 60 2) (F64.lit 50 2)).
  - reflexivity.
  - reflexivity.
  - reflexivity.
  - reflexivity.
  - right. reflexivity.
Defined.

(** A price rising from 0.20 to 0.23 without volume confirmation: the change
    is 0.15, but the bound [0.10 * 1.5] is 0.15000000000000002, and no
    candidate is returned.  A price rising from 0.524 to 0.5764 on a doubled
    volume: the quotient rounds to 0.1, not below the threshold, and the
    candidate has the confidence 0.8. *)
Example price_momentum_at_the_thresholds :
  Binary64.PriceMomentumRule.evaluate Examples.momentum_rule64
    (Examples.market64 50000 (F64.lit 23 2)) (Some (F64.lit 20 2)) None = Py.Ok None
  /\ exists c,
       Binary64.PriceMomentumRule.evaluate Examples.momentum_rule64
         (Examples.market64 50000 (F64.lit 5764 4)) (Some (F64.lit 524 3))
         (Some (F64.int 25000)) = Py.Ok (Some c)
       /\ Binary64.SignalCandidate.direction c = BUY
       /\ Binary64.SignalCandidate.confidence c = F64.lit 8 1.
Proof.
  split; [vm_compute; reflexivity |].
  eexists. split; [vm_compute; reflexivity |]. split; reflexivity.
Qed.

(** ** The generator's rule loop and its cache *)

Lemma run_rules_appends (min_confidence : Q) (rules : list SignalRule)
    (market : Market.t) (news : option NewsSentiment.t)
    (sm : option SocialMention.t) (ss : option SocialSentiment.t)
    (previous_price previous_volume_24h : option Q) :
  forall (acc result : list SignalCandidate.t),
    SignalGenerator.run_rules min_confidence rules market news sm ss
      previous_price previous_volume_24h acc = Py.Ok result ->
    exists added,
      result = acc ++ added
      /\ Forall (fun c => min_confidence <= SignalCandidate.confidence c) added
      /\ (List.length added <= List.length rules)%nat.
Proof.
  induction rules as [| rule rest IH]; intros acc result Hrun; cbn in Hrun.
  - injection Hrun as <-. exists []. rewrite app_nil_r. repeat constructor.
  - destruct (rule market news sm ss previous_price previous_volume_24h)
      as [[c |] | e].
    + destruct (Py.ge (SignalCandidate.confidence c) min_confidence) eqn:Hc.
      * destruct (IH _ _ Hrun) as (added & -> & Hall & Hlen).
        exists (c :: added). rewrite <- app_assoc. split; [reflexivity |].
        apply Py_ge_true in Hc. split; [constructor; assumption | cbn; lia].
      * destruct (IH _ _ Hrun) as (added & -> & Hall & Hlen).
        exists added. split; [reflexivity |]. split; [assumption | cbn; lia].
    + destruct (IH _ _ Hrun) as (added & -> & Hall & Hlen).
      exists added. split; [reflexivity |]. split; [assumption | cbn; lia].
    + destruct (Py.isinstance_Exception e); [| discriminate].
      destruct (IH _ _ Hrun) as (added & -> & Hall & Hlen).
      exists added. split; [reflexivity |]. split; [assumption | cbn; lia].
Qed.

Lemma run_rules_app (min_confidence : Q) (rules1 rules2 : list SignalRule)
    (market : Market.t) (news : option NewsSentiment.t)
    (sm : option SocialMention.t) (ss : option SocialSentiment.t)
    (previous_price previous_volume_24h : option Q) :
  forall acc,
    SignalGenerator.run_rules min_confidence (rules1 ++ rules2) market news sm ss
      previous_price previous_volume_24h acc
    = match SignalGenerator.run_rules min_confidence rules1 market news sm ss
              previous_price previous_volume_24h acc with
      | Py.Ok candidates =>
          SignalGenerator.run_rules min_confidence rules2 market news sm ss
            previous_price previous_volume_24h candidates
      | Py.Raise e => Py.Raise e
      end.
Proof.
  induction rules1 as [| rule rest IH]; intros acc; cbn; [reflexivity |].
  destruct (rule market news sm ss previous_price previous_volume_24h) as [[c |] | e].
  - destruct (Py.ge _ _); apply IH.
  - apply IH.
  - destruct (Py.isinstance_Exception e); [apply IH | reflexivity].
Qed.

(** What [process_market] needs of [evaluate_market]: at most one candidate
    per rule, and the same [min_confidence] afterwards. *)
Lemma evaluate_market_frame (self self' : SignalGenerator.t) (market : Market.t)
    (news : option NewsSentiment.t) (sm : option SocialMention.t)
    (ss : option SocialSentiment.t) (candidates : list SignalCandidate.t) :
  SignalGenerator.evaluate_market self market news sm ss = (self', Py.Ok candidates) ->
  (List.length candidates <= List.length (SignalGenerator.rules self))%nat
  /\ SignalGenerator.min_confidence self' = SignalGenerator.min_confidence self.
Proof.
  unfold SignalGenerator.evaluate_market. cbv zeta.
  destruct (SignalGenerator.run_rules _ _ _ _ _ _ _ _ _) as [result | e] eqn:Hrun;
    [| discriminate].
  destruct (run_rules_appends _ _ _ _ _ _ _ _ _ _ Hrun) as (added & -> & Hall & Hlen).
  cbn [app].
  destruct (Market.current_price market); intros H; injection H as <- <-;
    split; auto.
Qed.

(** Every candidate [evaluate_market] returns has a confidence of at least
    [min_confidence], and there is at most one candidate per rule. *)
Theorem evaluate_market_candidates_qualify :
  forall (self self' : SignalGenerator.t) (market : Market.t)
         (news : option NewsSentiment.t) (sm : option SocialMention.t)
         (ss : option SocialSentiment.t) (candidates : list SignalCandidate.t),
    SignalGenerator.evaluate_market self market news sm ss = (self', Py.Ok candidates) ->
    Forall (fun c => SignalGenerator.min_confidence self <= SignalCandidate.confidence c)
           candidates
    /\ (List.length candidates <= List.length (SignalGenerator.rules self))%nat.
Proof.
  intros self self' market news sm ss candidates.
  unfold SignalGenerator.evaluate_market. cbv zeta.
  destruct (SignalGenerator.run_rules _ _ _ _ _ _ _ _ _) as [result | e] eqn:Hrun.
  - destruct (run_rules_appends _ _ _ _ _ _ _ _ _ _ Hrun) as (added & -> & Hall & Hlen).
    cbn [app].
    destruct (Market.current_price market); intros H; injection H as _ <-; auto.
  - discriminate.
Qed.

(** [evaluate_market] remembers what it saw: after it returns, the cached
    previous state of a market that has a price is that price and the
    market's 24h volume; the entries of the other markets are as they were;
    a market without a price leaves the generator as it was. *)
Theorem evaluate_market_remembers_state :
  forall (self self' : SignalGenerator.t) (market : Market.t)
         (news : option NewsSentiment.t) (sm : option SocialMention.t)
         (ss : option SocialSentiment.t) (candidates : list SignalCandidate.t),
    SignalGenerator.evaluate_market self market news sm ss = (self', Py.Ok candidates) ->
    (forall price,
        Market.current_price market = Some price ->
        SignalGenerator.get_previous_state (SignalGenerator._previous_states self')
          (Market.id market) = Some (price, Market.volume_24h market))
    /\ (Market.current_price market = None -> self' = self)
    /\ (forall other,
          other <> Market.id market ->
          SignalGenerator.get_previous_state (SignalGenerator._previous_states self') other
          = SignalGenerator.get_previous_state (SignalGenerator._previous_states self) other)
    /\ SignalGenerator.min_confidence self' = SignalGenerator.min_confidence self
    /\ SignalGenerator.rules self' = SignalGenerator.rules self.
Proof.
  intros self self' market news sm ss candidates.
  unfold SignalGenerator.evaluate_market. cbv zeta.
  destruct (SignalGenerator.run_rules _ _ _ _ _ _ _ _ _) as [result | e];
    [| discriminate].
  destruct (Market.current_price market) as [price |]; intros H; injection H as <- _.
  - split; [| split; [discriminate | split; [| split; reflexivity]]].
    + intros p Hp. injection Hp as <-. cbn.
      now rewrite String.eqb_refl.
    + intros other Hother. cbn.
      destruct (String.eqb (Market.id market) other) eqn:E; [| reflexivity].
      apply String.eqb_eq in E. congruence.
  - split; [discriminate |]. repeat split.
Qed.

(** The generator with the default settings on a market priced at 0.40. *)
Lemma evaluate_market_remembers_witness :
  exists generator' candidates,
    SignalGenerator.evaluate_market Examples.generator
      (Examples.market "m1" 50000 (Some 0.40)) None None None
    = (generator', Py.Ok candidates)
    /\ SignalGenerator.get_previous_state
         (SignalGenerator._previous_states generator') "m1" = Some (0.40, 50000).
Proof.
  destruct (SignalGenerator.evaluate_market Examples.generator
              (Examples.market "m1" 50000 (Some 0.40)) None None None)
    as [generator' [candidates | e]] eqn:E.
  - exists generator', candidates. split; [reflexivity |].
    destruct (evaluate_market_remembers_state _ _ _ _ _ _ _ E) as (Hcache & _).
    apply (Hcache 0.40). reflexivity.
  - apply (f_equal snd) in E. vm_compute in E. discriminate.
Defined.

(** The same call, for the confidence of the candidates. *)
Lemma evaluate_market_candidates_witness :
  exists generator' candidates,
    SignalGenerator.evaluate_market Examples.generator
      (Examples.market "m1" 50000 (Some 0.40)) None
      (Some (SocialMention.mk 100 240)) (Some (SocialSentiment.mk 0.8))
    = (generator', Py.Ok candidates)
    /\ Forall (fun c => 0.5 <= SignalCandidate.confidence c) candidates.
Proof.
  destruct (SignalGenerator.evaluate_market Examples.generator
              (Examples.market "m1" 50000 (Some 0.40)) None
              (Some (SocialMention.mk 100 240)) (Some (SocialSentiment.mk 0.8)))
    as [generator' [candidates | e]] eqn:E.
  - exists generator', candidates. split; [reflexivity |].
    exact (proj1 (evaluate_market_candidates_qualify _ _ _ _ _ _ _ E)).
  - apply (f_equal snd) in E. vm_compute in E. discriminate.
Defined.

(** A rule added with [add_rule] that raises an [Exception] on a market
    changes nothing: the candidates are those of the generator without it.
    Any other added rule that returns leaves the earlier candidates in place,
    in order, and adds at most one candidate after them. *)
Theorem add_rule_is_isolated :
  forall (self : SignalGenerator.t) (rule : SignalRule) (market : Market.t)
         (news : option NewsSentiment.t) (sm : option SocialMention.t)
         (ss : option SocialSentiment.t) (candidates : list SignalCandidate.t),
    snd (SignalGenerator.evaluate_market self market news sm ss) = Py.Ok candidates ->
    let previous :=
      SignalGenerator.get_previous_state (SignalGenerator._previous_states self)
        (Market.id market) in
    let answer := rule market news sm ss (option_map fst previous) (option_map snd previous) in
    let candidates' :=
      snd (SignalGenerator.evaluate_market (SignalGenerator.add_rule self rule)
             market news sm ss) in
    (forall e, answer = Py.Raise e -> Py.isinstance_Exception e = true ->
               candidates' = Py.Ok candidates)
    /\ (answer = Py.Ok None -> candidates' = Py.Ok candidates)
    /\ (forall c, answer = Py.Ok (Some c) ->
                  candidates' = Py.Ok candidates \/ candidates' = Py.Ok (candidates ++ [c])).
Proof.
  intros self rule market news sm ss candidates Heval previous answer candidates'.
  subst previous answer candidates'.
  unfold SignalGenerator.evaluate_market in *. cbv zeta in *.
  cbn [SignalGenerator.add_rule SignalGenerator.rules SignalGenerator.min_confidence
       SignalGenerator._previous_states].
  rewrite run_rules_app.
  destruct (SignalGenerator.run_rules _ (SignalGenerator.rules self) _ _ _ _ _ _ _)
    as [result | e0]; [| discriminate].
  assert (Hres : result = candidates).
  { destruct (Market.current_price market); cbn in Heval; congruence. }
  subst result. cbn [SignalGenerator.run_rules].
  split; [| split].
  - intros e -> ->. destruct (Market.current_price market); reflexivity.
  - intros ->. destruct (Market.current_price market); reflexivity.
  - intros c ->. destruct (Py.ge _ _); [right | left];
      destruct (Market.current_price market); reflexivity.
Qed.

(** A rule that always raises, added to the default generator. *)
Lemma add_rule_is_isolated_witness :
  snd (SignalGenerator.evaluate_market
         (SignalGenerator.add_rule Examples.generator
            (fun _ _ _ _ _ _ => Py.Raise (Py.Exception "broken rule")))
         (Examples.market "m1" 50000 (Some 0.40)) None None None)
  = Py.Ok [].
Proof.
  assert (H : snd (SignalGenerator.evaluate_market Examples.generator
                     (Examples.market "m1" 50000 (Some 0.40)) None None None)
              = Py.Ok []) by (vm_compute; reflexivity).
  destruct (add_rule_is_isolated Examples.generator
              (fun _ _ _ _ _ _ => Py.Raise (Py.Exception "broken rule"))
              (Examples.market "m1" 50000 (Some 0.40)) None None None [] H)
    as (Hraise & _).
  apply (Hraise (Py.Exception "broken rule")); reflexivity.
Defined.

(** ** The signals [process_market] returns *)

Lemma adjust_confidence_in_unit (clock : Z) (candidate : SignalCandidate.t)
    (market : Market.t) :
  0 <= SignalGenerator.adjust_confidence_for_quality clock candidate market <= 1.
Proof.
  unfold SignalGenerator.adjust_confidence_for_quality. cbv zeta. split.
  - eapply Qle_trans; [| apply Py_max_ge_l]. discriminate.
  - apply Py_max_lub; [discriminate | apply Py_min_one].
Qed.

Lemma qualify_confidence (min_confidence : Q) (clock_adjust : nat -> Z)
    (market : Market.t) (candidates : list SignalCandidate.t) :
  forall i,
    Forall (fun c => min_confidence <= SignalCandidate.confidence c
                     /\ 0 <= SignalCandidate.confidence c <= 1)
           (SignalGenerator.qualify min_confidence clock_adjust market i candidates)
    /\ (List.length (SignalGenerator.qualify min_confidence clock_adjust market i candidates)
        <= List.length candidates)%nat.
Proof.
  induction candidates as [| c rest IH]; intros i; cbn.
  - split; [constructor | lia].
  - destruct (IH (S i)) as [Hall Hlen].
    destruct (Py.ge _ _) eqn:Hkeep.
    + split; [| cbn; lia]. constructor; [| exact Hall].
      cbn. apply Py_ge_true in Hkeep. split; [exact Hkeep |].
      apply adjust_confidence_in_unit.
    + split; [exact Hall | lia].
Qed.

(** What [generate_signal] copies into the signal it returns. *)
Lemma generate_signal_fields (id : UUID) (created_at : datetime.t) (market : Market.t)
    (candidate : SignalCandidate.t) (news : option NewsSentiment.t)
    (sm : option SocialMention.t) (s : Signal.t) :
  SignalGenerator.generate_signal id created_at market candidate news sm = Py.Ok s ->
  Signal.id s = id
  /\ Signal.created_at s = created_at
  /\ Signal.market_id s = Market.id market
  /\ Signal.signal_type s = SignalCandidate.signal_type candidate
  /\ Signal.direction s = SignalCandidate.direction candidate
  /\ Signal.confidence s = SignalCandidate.confidence candidate
  /\ Signal.status s = ACTIVE
  /\ Signal.price_1h s = None /\ Signal.price_24h s = None /\ Signal.price_7d s = None
  /\ Signal.price_at_resolution s = None
  /\ 0 <= Signal.entry_price s <= 1.
Proof.
  unfold SignalGenerator.generate_signal, Signal.validate.
  cbn [Signal.confidence Signal.entry_price Signal.news_sentiment_score
       Signal.social_sentiment_score].
  destruct (Signal.in_range 0 1 (SignalCandidate.confidence candidate));
    [| discriminate].
  destruct (Signal.in_range 0 1 (Py.or_float (Market.current_price market) 0.5)) eqn:Hentry;
    [| discriminate].
  destruct (Signal.optional_in_range (-1) 1 _); [| discriminate].
  destruct (Signal.optional_in_range (-1) 1 _); [| discriminate].
  cbn [negb Py.bind].
  unfold Signal.in_range in Hentry. apply andb_prop in Hentry as [Hlo Hhi].
  py_props.
  destruct news as [n |], sm as [m |];
    cbn [Signal.news_sentiment_score Signal.social_mention_count_24h];
    destruct (SignalCandidate.news_sentiment_score candidate);
    destruct (SignalCandidate.social_mention_count_24h candidate);
    intros H; injection H as <-; cbn; repeat split; assumption.
Qed.

Lemma generate_signals_spec (self : SignalGenerator.t) (persist : bool)
    (fresh : nat -> UUID * datetime.t) (market : Market.t)
    (news : option NewsSentiment.t) (sm : option SocialMention.t)
    (P : Signal.t -> Prop) (qualified : list SignalCandidate.t) :
  (forall id created_at c s,
      In c qualified ->
      SignalGenerator.generate_signal id created_at market c news sm = Py.Ok s -> P s) ->
  forall (i : nat) (acc result : list Signal.t),
    SignalGenerator.generate_signals self persist fresh market news sm i qualified acc
      = Py.Ok result ->
    exists new,
      result = acc ++ new
      /\ List.length new = List.length qualified
      /\ Forall P new
      /\ map Signal.id new
         = map (fun k => fst (fresh k)) (seq i (List.length qualified)).
Proof.
  induction qualified as [| c rest IH]; intros HP i acc result Hgen; cbn in Hgen.
  - injection Hgen as <-. exists []. rewrite app_nil_r. repeat split. constructor.
  - destruct (SignalGenerator.generate_signal _ _ market c news sm) as [s | e] eqn:Hs;
      [| discriminate].
    cbn [Py.bind] in Hgen.
    destruct (SignalGenerator.persist_signal self persist s); [| discriminate].
    cbn [Py.bind] in Hgen.
    destruct (IH (fun id ca c' s' Hin => HP id ca c' s' (or_intror Hin)) _ _ _ Hgen)
      as (new & -> & Hlen & Hall & Hids).
    exists (s :: new). rewrite <- app_assoc. split; [reflexivity |].
    split; [cbn; lia |].
    split.
    + constructor; [| exact Hall]. eapply HP; [left; reflexivity | exact Hs].
    + cbn. rewrite Hids. f_equal.
      apply generate_signal_fields in Hs. apply Hs.
Qed.

(** Every signal [process_market] returns belongs to the market, is ACTIVE
    with no tracking price yet, and has a confidence between the generator's
    [min_confidence] and 1; the i-th signal carries the i-th identity drawn,
    so the identities are distinct when the draws are; and there is at most
    one signal per rule. *)
Theorem process_market_signals :
  forall (self self' : SignalGenerator.t) (e : SignalGenerator.env) (market : Market.t)
         (news : option NewsSentiment.t) (sm : option SocialMention.t)
         (ss : option SocialSentiment.t) (persist : bool) (signals : list Signal.t),
    SignalGenerator.process_market self e market news sm ss persist
      = (self', Py.Ok signals) ->
    Forall (fun s =>
              Signal.market_id s = Market.id market
              /\ Signal.status s = ACTIVE
              /\ Signal.price_1h s = None /\ Signal.price_at_resolution s = None
              /\ SignalGenerator.min_confidence self <= Signal.confidence s <= 1)
           signals
    /\ map Signal.id signals
       = map (fun k => fst (SignalGenerator.fresh e k)) (seq 0 (List.length signals))
    /\ (List.length signals <= List.length (SignalGenerator.rules self))%nat.
Proof.
  intros self self' e market news sm ss persist signals.
  unfold SignalGenerator.process_market.
  destruct (SignalGenerator.should_skip_market self (SignalGenerator.clock_skip e) market)
    as [[|] reason].
  { intros H. injection H as _ <-. repeat split; [constructor | cbn; lia]. }
  destruct (SignalGenerator.evaluate_market self market news sm ss)
    as [self1 [candidates | exc]] eqn:Heval; [| discriminate].
  destruct (evaluate_market_frame _ _ _ _ _ _ _ Heval) as [Hcount Hmin].
  destruct candidates as [| c0 rest].
  { intros H. injection H as _ <-. repeat split; [constructor | cbn; lia]. }
  intros H. injection H as _ Hgen.
  set (qualified := SignalGenerator.qualify (SignalGenerator.min_confidence self1)
                      (SignalGenerator.clock_adjust e) market 0 (c0 :: rest)) in *.
  destruct (qualify_confidence (SignalGenerator.min_confidence self1)
              (SignalGenerator.clock_adjust e) market (c0 :: rest) 0%nat)
    as [Hqual Hqlen]. fold qualified in Hqual, Hqlen.
  destruct (generate_signals_spec self1 persist (SignalGenerator.fresh e) market news sm
              (fun s =>
                 Signal.market_id s = Market.id market
                 /\ Signal.status s = ACTIVE
                 /\ Signal.price_1h s = None /\ Signal.price_at_resolution s = None
                 /\ SignalGenerator.min_confidence self <= Signal.confidence s <= 1)
              qualified) with (i := 0%nat) (acc := @nil Signal.t) (result := signals)
    as (new & Hnew & Hlen & Hall & Hids); [| exact Hgen |].
  - intros id ca c s Hin Hs. apply generate_signal_fields in Hs.
    destruct Hs as (_ & _ & Hm & _ & _ & Hconf & Hst & H1 & _ & _ & Hres & _).
    rewrite Forall_forall in Hqual. destruct (Hqual c Hin) as [Hlo [_ Hhi]].
    rewrite Hconf, <- Hmin. repeat split; assumption.
  - cbn [app] in Hnew. subst new.
    split; [exact Hall |]. split; [rewrite Hlen; exact Hids |].
    rewrite Hlen. lia.
Qed.

(** A social spike on a market without a price, through the default
    generator. *)
Lemma process_market_signals_witness :
  exists generator' signals,
    SignalGenerator.process_market Examples.generator Examples.env
      (Examples.market "m1" 50000 None) None
      (Some (SocialMention.mk 100 240)) (Some (SocialSentiment.mk 0.8)) false
    = (generator', Py.Ok signals)
    /\ map Signal.id signals = map (fun k => N.of_nat (S k)) (seq 0 (List.length signals))
    /\ List.length signals = 1%nat.
Proof.
  destruct (SignalGenerator.process_market Examples.generator Examples.env
              (Examples.market "m1" 50000 None) None
              (Some (SocialMention.mk 100 240)) (Some (SocialSentiment.mk 0.8)) false)
    as [generator' [signals | exc]] eqn:E.
  - exists generator', signals. split; [reflexivity |].
    destruct (process_market_signals _ _ _ _ _ _ _ _ _ E) as (_ & Hids & _).
    split; [exact Hids |].
    apply (f_equal snd) in E. cbn [snd] in E.
    apply (f_equal (fun o => match o with Py.Ok l => List.length l | Py.Raise _ => 0%nat end))
      in E.
    vm_compute in E. symmetry. exact E.
  - apply (f_equal snd) in E. vm_compute in E. discriminate.
Defined.

(** ** Markets that are not current *)

(** Whatever [is_market_current] rejects, [should_skip_market] skips, at the
    same clock reading and with any settings. *)
Lemma not_current_is_skipped (self : SignalGenerator.t) (clock : Z) (market : Market.t) :
  is_market_current clock market = false ->
  fst (SignalGenerator.should_skip_market self clock market) = true.
Proof.
  unfold is_market_current, SignalGenerator.should_skip_market,
    SignalGenerator.expiry_skip. cbv zeta.
  destruct (Market.closed market); [reflexivity |].
  destruct (Market.archived market); [reflexivity |].
  destruct (Market.accepting_orders market); [| reflexivity].
  cbn [negb].
  destruct (Market.end_date market) as [end_date |]; [| discriminate].
  destruct (datetime.lt _ _); [reflexivity | discriminate].
Qed.

(** A market that is not current (closed, archived, not accepting orders or
    past its end date) yields no signal and leaves the generator, with its
    cache of previous states, as it was. *)
Theorem process_market_ignores_stale_markets :
  forall (self : SignalGenerator.t) (e : SignalGenerator.env) (market : Market.t)
         (news : option NewsSentiment.t) (sm : option SocialMention.t)
         (ss : option SocialSentiment.t) (persist : bool),
    is_market_current (SignalGenerator.clock_skip e) market = false ->
    SignalGenerator.process_market self e market news sm ss persist = (self, Py.Ok []).
Proof.
  intros self e market news sm ss persist Hstale.
  apply (not_current_is_skipped self) in Hstale.
  unfold SignalGenerator.process_market.
  destruct (SignalGenerator.should_skip_market self (SignalGenerator.clock_skip e) market)
    as [skip reason].
  cbn in Hstale. subst skip. reflexivity.
Qed.

(** The closed market of tier THIN, with a social spike at hand. *)
Lemma process_market_ignores_stale_witness :
  SignalGenerator.process_market Examples.generator Examples.env
    Examples.closed_thin_market None
    (Some (SocialMention.mk 100 240)) (Some (SocialSentiment.mk 0.8)) true
  = (Examples.generator, Py.Ok []).
Proof.
  apply process_market_ignores_stale_markets. reflexivity.
Defined.

(** ** Status transitions of the tracker *)

Lemma same_resolution_refl (s : Signal.t) : same_resolution s s.
Proof. repeat split. Qed.

Lemma same_resolution_trans (s1 s2 s3 : Signal.t) :
  same_resolution s1 s2 -> same_resolution s2 s3 -> same_resolution s1 s3.
Proof.
  intros (A1 & A2 & A3 & A4 & A5 & A6) (B1 & B2 & B3 & B4 & B5 & B6).
  repeat split; congruence.
Qed.

(** Solves [keeps same_resolution m] for a computation made of reads,
    gain computations and assignments to horizon fields. *)
Ltac keeps_same_resolution :=
  repeat first
    [ apply keeps_bind; [ exact same_resolution_trans | | intros ? ]
    | apply keeps_read; exact same_resolution_refl
    | apply keeps_ret; exact same_resolution_refl
    | apply keeps_calculate_gain; exact same_resolution_refl
    | apply keeps_assign; intros ?; repeat split
    | match goal with |- keeps _ (if ?b then _ else _) => destruct b end ].

Lemma keeps_resolution_fill_horizons (hours price : Q) :
  keeps same_resolution (SignalTracker.fill_horizons hours price).
Proof.
  unfold SignalTracker.fill_horizons, SignalTracker.checkpoint_1h,
    SignalTracker.checkpoint_24h, SignalTracker.checkpoint_7d.
  keeps_same_resolution.
Qed.

Lemma is_market_current_not_closed (clock : Z) (market : Market.t) :
  is_market_current clock market = true -> Market.closed market = false.
Proof.
  unfold is_market_current. destruct (Market.closed market); [discriminate | reflexivity].
Qed.

(** [_resolve_signal] on a market with a price: the signal resolved, or
    untouched when the gain cannot be computed. *)
Lemma resolve_signal_result (market : Market.t) (clock : Z) (st : SignalTracker.state) :
  let st' := fst (SignalTracker._resolve_signal market clock st) in
  SignalTracker.db_updates st' = SignalTracker.db_updates st
  /\ same_horizons (SignalTracker.signal st) (SignalTracker.signal st')
  /\ match snd (SignalTracker._resolve_signal market clock st) with
     | Py.Ok _ =>
         Market.current_price market <> None ->
         resolved_from market clock (SignalTracker.signal st) (SignalTracker.signal st')
     | Py.Raise _ => st' = st
     end.
Proof.
  destruct st as [s db]. cbv zeta. unfold SignalTracker._resolve_signal.
  destruct (Market.current_price market) as [price |] eqn:Hprice.
  - unfold SignalTracker.bind, SignalTracker.assign, SignalTracker.calculate_gain.
    cbv [SignalTracker.signal SignalTracker.db_updates fst snd].
    destruct (Signal.calculate_gain s price) as [gain | e] eqn:Hgain.
    + split; [reflexivity |]. split; [repeat split |].
      intros _. exists price, gain.
      split; [exact Hprice |]. split; [exact Hgain |]. repeat split.
    + split; [reflexivity |]. split; [apply same_horizons_refl | reflexivity].
  - cbn. split; [reflexivity |]. split; [apply same_horizons_refl |].
    intros H. contradiction.
Qed.

Lemma bind_step {A B : Type} (m : SignalTracker.M A) (k : A -> SignalTracker.M B)
    (st : SignalTracker.state) :
  SignalTracker.bind m k st
  = match m st with
    | (st', Py.Ok a) => k a st'
    | (st', Py.Raise e) => (st', Py.Raise e)
    end.
Proof. reflexivity. Qed.

(** One call of [update_signal_tracking] leaves the resolution block as it
    is, or resolves an ACTIVE signal on a closed market that has a price. *)
Lemma update_signal_tracking_resolution (tk : SignalTracker.tick)
    (st : SignalTracker.state) :
  same_resolution (SignalTracker.signal st)
    (SignalTracker.signal (fst (SignalTracker.update_signal_tracking tk st)))
  \/ (Signal.status (SignalTracker.signal st) = ACTIVE
      /\ same_horizons (SignalTracker.signal st)
           (SignalTracker.signal (fst (SignalTracker.update_signal_tracking tk st)))
      /\ exists market,
           SignalTracker.get_market tk = Py.Ok (Some market)
           /\ Market.closed market = true
           /\ resolved_from market (SignalTracker.clock_resolved tk)
                (SignalTracker.signal st)
                (SignalTracker.signal
                   (fst (SignalTracker.update_signal_tracking tk st)))).
Proof.
  unfold SignalTracker.update_signal_tracking.
  destruct (SignalTracker.get_market tk) as [[market |] | e] eqn:Hget;
    [rewrite bind_lift_ok | rewrite bind_lift_ok | rewrite bind_lift_raise];
    try (left; apply same_resolution_refl).
  destruct (Market.current_price market) as [price |] eqn:Hprice;
    [| left; apply same_resolution_refl].
  destruct (is_market_current (SignalTracker.clock_is_current tk) market) eqn:Hcur;
    cbn [negb].
  - left. rewrite (is_market_current_not_closed _ _ Hcur). cbn [andb].
    rewrite bind_read.
    apply (keeps_bind same_resolution);
      [exact same_resolution_trans | apply keeps_resolution_fill_horizons
      | intros updated].
    keeps_same_resolution; apply keeps_db_update_signal, same_resolution_refl.
  - rewrite bind_read.
    destruct (Market.closed market) eqn:Hclosed; cbn [andb];
      [| left; apply same_resolution_refl].
    destruct (Signal.status (SignalTracker.signal st)) eqn:Hstatus;
      cbn [SignalTracker.is_ACTIVE]; try (left; apply same_resolution_refl).
    pose proof (resolve_signal_result market (SignalTracker.clock_resolved tk) st)
      as (Hdb & Hhor & Hres). cbv zeta in Hres.
    rewrite bind_step.
    destruct (SignalTracker._resolve_signal market (SignalTracker.clock_resolved tk) st)
      as [st1 [u | e]]; cbn [fst snd SignalTracker.db_update_signal
                             SignalTracker.signal] in *.
    + right. split; [reflexivity |]. split; [exact Hhor |].
      exists market. split; [reflexivity |]. split; [exact Hclosed |].
      apply Hres. rewrite Hprice. discriminate.
    + left. subst st1. apply same_resolution_refl.
Qed.

(** One call of [update_signal_tracking] leaves the resolution block as it
    is, or resolves an ACTIVE signal on a closed market that has a price.  A
    signal that is not ACTIVE keeps its status, and no call moves a signal to
    EXPIRED. *)
Theorem tracker_status_transitions :
  forall (tk : SignalTracker.tick) (st : SignalTracker.state),
    let s := SignalTracker.signal st in
    let s' := SignalTracker.signal (fst (SignalTracker.update_signal_tracking tk st)) in
    (same_resolution s s'
     \/ (Signal.status s = ACTIVE
         /\ same_horizons s s'
         /\ exists market,
              SignalTracker.get_market tk = Py.Ok (Some market)
              /\ Market.closed market = true
              /\ resolved_from market (SignalTracker.clock_resolved tk) s s'))
    /\ (Signal.status s <> ACTIVE -> Signal.status s' = Signal.status s)
    /\ (Signal.status s <> EXPIRED -> Signal.status s' <> EXPIRED).
Proof.
  intros tk st. cbv zeta.
  pose proof (update_signal_tracking_resolution tk st) as Hmain.
  split; [exact Hmain |].
  destruct Hmain as [(Hst & _) | (Hactive & _ & market & _ & _ & price & gain & _ & _ & Hst & _)].
  - split; [intros _; exact Hst | rewrite Hst; auto].
  - split; [intros H; contradiction |].
    intros _. rewrite Hst. destruct (Py.gt gain 0); discriminate.
Qed.

(** ** What the tracker leaves alone, and what it writes *)

(** Without a market, without a price, or on a market that is not current
    and gives no reason to resolve, [update_signal_tracking] returns without
    touching the signal or the store. *)
Theorem tracker_skips_without_mutation :
  forall (tk : SignalTracker.tick) (st : SignalTracker.state),
    nothing_to_track tk (Signal.status (SignalTracker.signal st)) ->
    SignalTracker.update_signal_tracking tk st = (st, Py.Ok tt).
Proof.
  intros tk st [Hnone | (market & Hget & Hwhy)];
    unfold SignalTracker.update_signal_tracking.
  - rewrite Hnone. reflexivity.
  - rewrite Hget, bind_lift_ok.
    destruct Hwhy as [Hprice | (Hcur & Hwhy)].
    + rewrite Hprice. reflexivity.
    + destruct (Market.current_price market); [| reflexivity].
      rewrite Hcur. cbn [negb]. rewrite bind_read.
      destruct Hwhy as [Hopen | Hstatus].
      * rewrite Hopen. reflexivity.
      * destruct (Signal.status (SignalTracker.signal st));
          [contradiction | | |]; now rewrite andb_false_r.
Qed.

(** An ACTIVE signal on a market that is archived but not closed. *)
Lemma tracker_skips_witness :
  SignalTracker.update_signal_tracking
    (Examples.tick_on Examples.archived_market (30 * Examples.hour))
    (Examples.tracked (Examples.signal BUY 0.40))
  = (Examples.tracked (Examples.signal BUY 0.40), Py.Ok tt).
Proof.
  apply tracker_skips_without_mutation.
  right. exists Examples.archived_market. split; [reflexivity |].
  right. split; [reflexivity |]. left. reflexivity.
Defined.

Lemma writes_nothing_bind {A B : Type} (m : SignalTracker.M A)
    (k : A -> SignalTracker.M B) :
  writes_nothing m -> (forall a, writes_nothing (k a)) ->
  writes_nothing (SignalTracker.bind m k).
Proof.
  intros Hm Hk st. rewrite bind_step. specialize (Hm st).
  destruct (m st) as [st' [a | e]]; cbn [fst] in *.
  - rewrite Hk. exact Hm.
  - exact Hm.
Qed.

(** Solves [writes_nothing m] for a computation without [db_update_signal]. *)
Ltac writes_nothing :=
  repeat first
    [ apply writes_nothing_bind; [ | intros ? ]
    | match goal with |- writes_nothing (if ?b then _ else _) => destruct b end
    | match goal with
      | |- writes_nothing (match ?x with Some _ => _ | None => _ end) => destruct x
      end
    | intros ?; reflexivity ].

Lemma writes_nothing_fill_horizons (hours price : Q) :
  writes_nothing (SignalTracker.fill_horizons hours price).
Proof.
  unfold SignalTracker.fill_horizons, SignalTracker.checkpoint_1h,
    SignalTracker.checkpoint_24h, SignalTracker.checkpoint_7d.
  writes_nothing.
Qed.

Lemma writes_nothing_resolve_signal (market : Market.t) (clock : Z) :
  writes_nothing (SignalTracker._resolve_signal market clock).
Proof. unfold SignalTracker._resolve_signal. writes_nothing. Qed.

Lemma writes_nothing_then_once {A : Type} (m : SignalTracker.M A) :
  writes_nothing m -> writes_once_at_end m.
Proof. intros Hm st. left. apply Hm. Qed.

Lemma writes_once_bind {A B : Type} (m : SignalTracker.M A)
    (k : A -> SignalTracker.M B) :
  writes_nothing m -> (forall a, writes_once_at_end (k a)) ->
  writes_once_at_end (SignalTracker.bind m k).
Proof.
  intros Hm Hk st. rewrite bind_step. specialize (Hm st).
  destruct (m st) as [st1 [a | e]]; cbn [fst] in *.
  - rewrite <- Hm. apply Hk.
  - left. exact Hm.
Qed.

Lemma writes_once_db_update_signal (result : Py.outcome unit) :
  writes_once_at_end (SignalTracker.db_update_signal result).
Proof. intros st. right. reflexivity. Qed.

(** One call of [update_signal_tracking] writes to the store at most once,
    and what it writes is the signal as the call leaves it. *)
Theorem tracker_writes_final_signal_once :
  forall (tk : SignalTracker.tick) (st : SignalTracker.state),
    let st' := fst (SignalTracker.update_signal_tracking tk st) in
    SignalTracker.db_updates st' = SignalTracker.db_updates st
    \/ SignalTracker.db_updates st'
       = SignalTracker.db_updates st ++ [SignalTracker.signal st'].
Proof.
  intros tk st. cbv zeta.
  assert (H : writes_once_at_end (SignalTracker.update_signal_tracking tk)).
  { unfold SignalTracker.update_signal_tracking.
    apply writes_once_bind; [intros ?; reflexivity | intros [market |]];
      [| apply writes_nothing_then_once; intros ?; reflexivity].
    destruct (Market.current_price market) as [price |];
      [| apply writes_nothing_then_once; intros ?; reflexivity].
    destruct (negb (is_market_current (SignalTracker.clock_is_current tk) market)).
    - apply writes_once_bind; [intros ?; reflexivity | intros status].
      destruct (Market.closed market && SignalTracker.is_ACTIVE status);
        [| apply writes_nothing_then_once; intros ?; reflexivity].
      apply writes_once_bind;
        [apply writes_nothing_resolve_signal | intros _].
      apply writes_once_db_update_signal.
    - apply writes_once_bind; [intros ?; reflexivity | intros created_at].
      apply writes_once_bind; [apply writes_nothing_fill_horizons | intros updated].
      apply writes_once_bind; [intros ?; reflexivity | intros status].
      apply writes_once_bind.
      + destruct (Market.closed market && SignalTracker.is_ACTIVE status).
        * apply writes_nothing_bind;
            [apply writes_nothing_resolve_signal | intros ? ?; reflexivity].
        * intros ?; reflexivity.
      + intros [|]; [apply writes_once_db_update_signal
                    | apply writes_nothing_then_once; intros ?; reflexivity]. }
  apply H.
Qed.

(* ================================================================== *)
(** ** The rate limiter *)

Lemma exponential_backoff_le (base : Z) (self : RateLimitedClient.t) :
  (RateLimitedClient.exponential_backoff base self <= 7200)%Z.
Proof. unfold RateLimitedClient.exponential_backoff. lia. Qed.

Lemma exponential_backoff_ge (base : Z) (self : RateLimitedClient.t) :
  (0 < base)%Z ->
  (Z.min (base * 60) 7200 <= RateLimitedClient.exponential_backoff base self)%Z.
Proof.
  intros Hbase. unfold RateLimitedClient.exponential_backoff.
  assert (Hpow : (1 <= 2 ^ Z.of_nat (RateLimitedClient.consecutive_failures self))%Z)
    by (apply Z.pow_le_mono_r with (a := 2%Z) (b := 0%Z); lia).
  nia.
Qed.

Lemma backoff_seconds_fallback (base : Z) (retry_after : option Z)
    (self : RateLimitedClient.t) :
  retry_after = None \/ retry_after = Some 0%Z ->
  RateLimitedClient.backoff_seconds base retry_after self
  = RateLimitedClient.exponential_backoff base self.
Proof. intros [-> | ->]; reflexivity. Qed.

Lemma mark_rate_limited_fallback (base clock : Z) (retry_after : option Z)
    (self : RateLimitedClient.t) :
  retry_after = None \/ retry_after = Some 0%Z ->
  RateLimitedClient.mark_rate_limited base clock retry_after self
  = (RateLimitedClient.mk (RateLimitedClient.name self)
       (Some (RateLimitedClient.plus_seconds (RateLimitedClient.utcnow clock)
                (RateLimitedClient.exponential_backoff base self)))
       (S (RateLimitedClient.consecutive_failures self))
       (RateLimitedClient.last_error self),
     Py.Ok tt).
Proof. intros [-> | ->]; reflexivity. Qed.

Lemma timedelta_returns (seconds : Z) :
  (- 999999999 <= seconds / 86400 <= 999999999)%Z ->
  RateLimitedClient.timedelta seconds = Py.Ok (seconds * 1000000)%Z.
Proof.
  intros Hdays. unfold RateLimitedClient.timedelta. cbv zeta.
  destruct (Z.ltb_spec (seconds / 86400) (- 2147483648)); [lia |].
  destruct (Z.ltb_spec 2147483647 (seconds / 86400)); [lia |].
  destruct (Z.ltb_spec (seconds / 86400) (- 999999999)); [lia |].
  destruct (Z.ltb_spec 999999999 (seconds / 86400)); [lia |].
  reflexivity.
Qed.

Lemma timedelta_overflows (seconds : Z) :
  ~ (- 999999999 <= seconds / 86400 <= 999999999)%Z ->
  exists msg, RateLimitedClient.timedelta seconds = Py.Raise (Py.Exception msg).
Proof.
  intros Hdays. unfold RateLimitedClient.timedelta. cbv zeta.
  destruct (_ || _); [eexists; reflexivity |].
  destruct (Z.ltb_spec (seconds / 86400) (- 999999999)); [eexists; reflexivity |].
  destruct (Z.ltb_spec 999999999 (seconds / 86400)); [eexists; reflexivity |].
  lia.
Qed.

(** A [retry_after] that is used: the deadline is [clock + retry_after]
    when that is a [datetime], and an [OverflowError] otherwise. *)
Lemma deadline_representable (base clock seconds : Z) (self : RateLimitedClient.t) :
  seconds <> 0%Z -> representable clock seconds ->
  RateLimitedClient.deadline base clock (Some seconds) self
  = Py.Ok (datetime.mk (clock + seconds * 1000000) false).
Proof.
  intros Hs [Hdays Hrange]. unfold RateLimitedClient.deadline, RateLimitedClient.backoff_seconds.
  destruct (Z.eqb_spec seconds 0); [contradiction |].
  rewrite (timedelta_returns seconds Hdays). cbn [Py.bind].
  unfold RateLimitedClient.datetime_add, RateLimitedClient.utcnow.
  cbn [datetime.micros datetime.tz_aware]. cbv zeta.
  destruct (Z.ltb_spec (clock + seconds * 1000000) 0); [lia |].
  destruct (Z.ltb_spec RateLimitedClient.datetime_range (clock + seconds * 1000000));
    [lia | reflexivity].
Qed.

Lemma deadline_overflows (base clock seconds : Z) (self : RateLimitedClient.t) :
  seconds <> 0%Z -> ~ representable clock seconds ->
  exists msg,
    RateLimitedClient.deadline base clock (Some seconds) self
    = Py.Raise (Py.Exception msg).
Proof.
  intros Hs Hnot. unfold RateLimitedClient.deadline, RateLimitedClient.backoff_seconds.
  destruct (Z.eqb_spec seconds 0); [contradiction |].
  assert (Hdec : (- 999999999 <= seconds / 86400 <= 999999999)%Z
                 \/ ~ (- 999999999 <= seconds / 86400 <= 999999999)%Z) by lia.
  destruct Hdec as [Hdays | Hdays].
  - rewrite (timedelta_returns seconds Hdays). cbn [Py.bind].
    unfold RateLimitedClient.datetime_add, RateLimitedClient.utcnow.
    cbn [datetime.micros datetime.tz_aware]. cbv zeta.
    destruct (Z.ltb_spec (clock + seconds * 1000000) 0); [eexists; reflexivity |].
    destruct (Z.ltb_spec RateLimitedClient.datetime_range (clock + seconds * 1000000));
      [eexists; reflexivity |].
    exfalso. apply Hnot. split; [exact Hdays | lia].
  - destruct (timedelta_overflows seconds Hdays) as (msg & ->).
    eexists. reflexivity.
Qed.



(** After 0, 1, 2, 3 and 4 failures the default base of 15 minutes gives
    15, 30, 60, 120 and again 120 minutes. *)
Example exponential_backoff_schedule :
  map (fun failures =>
         RateLimitedClient.exponential_backoff 15
           (RateLimitedClient.mk "newsapi" None failures None))
      [0; 1; 2; 3; 4]%nat
  = [900; 1800; 3600; 7200; 7200]%Z.
Proof. reflexivity. Qed.

(** A [retry_after] that is not zero is taken as it is, above two hours
    too.  When [clock + retry_after] is a [datetime], the client is limited
    until then: it refuses every call made strictly before that instant
    and, from that instant on, answers the first call with [True] and
    forgets the limit and the failure count.  When it is not,
    [mark_rate_limited] raises and the client stays as it was. *)
Theorem rate_limit_window :
  forall (base clock seconds : Z) (self : RateLimitedClient.t) (clock' : Z),
    seconds <> 0%Z ->
    let run := RateLimitedClient.mark_rate_limited base clock (Some seconds) self in
    let limited := fst run in
    (representable clock seconds ->
       snd run = Py.Ok tt
       /\ limited_until limited = Some (clock + seconds * 1000000)%Z
       /\ RateLimitedClient.consecutive_failures limited
          = S (RateLimitedClient.consecutive_failures self)
       /\ ((clock' < clock + seconds * 1000000)%Z ->
           RateLimitedClient.is_available clock' limited = (limited, false))
       /\ ((clock + seconds * 1000000 <= clock')%Z ->
           RateLimitedClient.is_available clock' limited
           = (RateLimitedClient.mk (RateLimitedClient.name self) None 0
                (RateLimitedClient.last_error self), true)))
    /\ (~ representable clock seconds ->
        limited = self
        /\ exists msg, snd run = Py.Raise (Py.Exception msg)).
Proof.
  intros base clock seconds self clock' Hs. cbv zeta.
  unfold RateLimitedClient.mark_rate_limited.
  split.
  - intros Hrep. rewrite (deadline_representable base clock seconds self Hs Hrep).
    cbn [fst snd]. unfold limited_until, RateLimitedClient.is_available, datetime.lt.
    cbn [RateLimitedClient.rate_limited_until option_map RateLimitedClient.utcnow
         datetime.micros RateLimitedClient.name RateLimitedClient.last_error
         RateLimitedClient.consecutive_failures].
    repeat (split; [reflexivity |]).
    split; intros Hclock.
    + destruct (Z.ltb_spec clock' (clock + seconds * 1000000)); [reflexivity | lia].
    + destruct (Z.ltb_spec clock' (clock + seconds * 1000000)); [lia | reflexivity].
  - intros Hnot.
    destruct (deadline_overflows base clock seconds self Hs Hnot) as (msg & ->).
    cbn [fst snd]. split; [reflexivity | exists msg; reflexivity].
Qed.

(** A [retry-after] of four hours, at the reading [0]. *)
Lemma rate_limit_window_witness :
  limited_until
    (fst (RateLimitedClient.mark_rate_limited 15 0 (Some 14400%Z) Examples.limiter))
  = Some (14400 * 1000000)%Z.
Proof.
  assert (Hs : 14400%Z <> 0%Z) by discriminate.
  destruct (rate_limit_window 15 0 14400 Examples.limiter 0 Hs) as [Hmarked _].
  assert (Hrep : representable 0 14400).
  { unfold representable, RateLimitedClient.datetime_range.
    change (14400 / 86400)%Z with 0%Z. lia. }
  destruct (Hmarked Hrep) as (_ & Huntil & _).
  exact Huntil.
Defined.

(** At the first instant of 2026, a [retry_after] of [10 ** 12] seconds
    names a deadline beyond [datetime.max], and one of [10 ** 14] seconds
    more days than a [timedelta] holds. *)
Example mark_rate_limited_overflows :
  RateLimitedClient.mark_rate_limited 15 Examples.year_2026 (Some (10 ^ 12)%Z)
    Examples.limiter
  = (Examples.limiter, Py.Raise (Py.Exception "date value out of range"))
  /\ RateLimitedClient.mark_rate_limited 15 Examples.year_2026 (Some (10 ^ 14)%Z)
       Examples.limiter
     = (Examples.limiter,
        Py.Raise (Py.Exception "days=1157407407; must have magnitude <= 999999999")).
Proof. split; vm_compute; reflexivity. Qed.

Lemma is_available_true (clock : Z) (self : RateLimitedClient.t) :
  snd (RateLimitedClient.is_available clock self) = true ->
  RateLimitedClient.rate_limited_until (fst (RateLimitedClient.is_available clock self))
    = None
  /\ (RateLimitedClient.consecutive_failures
        (fst (RateLimitedClient.is_available clock self)) = 0%nat
      \/ fst (RateLimitedClient.is_available clock self) = self).
Proof.
  unfold RateLimitedClient.is_available.
  destruct (RateLimitedClient.rate_limited_until self) as [until |] eqn:Huntil.
  - destruct (negb (datetime.lt (RateLimitedClient.utcnow clock) until));
      cbn [fst snd]; [| discriminate].
    intros _. split; [reflexivity | left; reflexivity].
  - cbn [fst snd]. intros _. split; [exact Huntil | right; reflexivity].
Qed.

Lemma is_available_false (clock : Z) (self : RateLimitedClient.t) :
  snd (RateLimitedClient.is_available clock self) = false ->
  fst (RateLimitedClient.is_available clock self) = self.
Proof.
  unfold RateLimitedClient.is_available.
  destruct (RateLimitedClient.rate_limited_until self) as [until |].
  - destruct (negb (datetime.lt (RateLimitedClient.utcnow clock) until));
      cbn [fst snd]; [discriminate | reflexivity].
  - reflexivity.
Qed.

(** Unfolding [execute] along the answer of [is_available]. *)
Lemma execute_unavailable {R : Type} (base ca cl : Z) (func : RateLimitedClient.call R)
    (default : R) (self : RateLimitedClient.t) :
  snd (RateLimitedClient.is_available ca self) = false ->
  RateLimitedClient.execute base ca cl func default self = (self, Py.Ok default).
Proof.
  intros Hno. unfold RateLimitedClient.execute.
  pose proof (is_available_false ca self Hno) as Hself.
  destruct (RateLimitedClient.is_available ca self) as [self' available].
  cbn [fst snd] in *. subst. reflexivity.
Qed.

Lemma execute_available {R : Type} (base ca cl : Z) (func : RateLimitedClient.call R)
    (default : R) (self : RateLimitedClient.t) :
  snd (RateLimitedClient.is_available ca self) = true ->
  RateLimitedClient.execute base ca cl func default self
  = let self := fst (RateLimitedClient.is_available ca self) in
    match func with
    | RateLimitedClient.Returned result =>
        (RateLimitedClient.mark_success self, Py.Ok result)
    | RateLimitedClient.HTTPStatusError status_code reason_phrase retry_seconds =>
        if (status_code =? 429)%Z then
          match RateLimitedClient.mark_rate_limited base cl retry_seconds self with
          | (self, Py.Ok _) =>
              (RateLimitedClient.set_last_error RateLimitedClient.Http429 self,
               Py.Ok default)
          | (self, Py.Raise e) => (self, Py.Raise e)
          end
        else
          (RateLimitedClient.set_last_error
             (RateLimitedClient.HttpStatus status_code reason_phrase) self,
           Py.Ok default)
    | RateLimitedClient.RetryAfterRejected status_code reason_phrase msg =>
        if (status_code =? 429)%Z then (self, Py.Raise (Py.Exception msg))
        else
          (RateLimitedClient.set_last_error
             (RateLimitedClient.HttpStatus status_code reason_phrase) self,
           Py.Ok default)
    | RateLimitedClient.TimeoutException =>
        (RateLimitedClient.set_last_error RateLimitedClient.RequestTimeout self,
         Py.Ok default)
    | RateLimitedClient.RequestError msg =>
        (RateLimitedClient.set_last_error (RateLimitedClient.RequestFailed msg) self,
         Py.Ok default)
    | RateLimitedClient.Raised e =>
        if Py.isinstance_Exception e then
          (RateLimitedClient.set_last_error
             (RateLimitedClient.UnexpectedError (Py.str e)) self, Py.Ok default)
        else (self, Py.Raise e)
    end.
Proof.
  intros Hyes. unfold RateLimitedClient.execute.
  destruct (RateLimitedClient.is_available ca self) as [self' available].
  cbn [fst snd] in *. subst. reflexivity.
Qed.

(** The client [mark_rate_limited] leaves: the one it got, or that one with
    a limit and one failure more. *)
Lemma mark_rate_limited_cases (base clock : Z) (retry_after : option Z)
    (self : RateLimitedClient.t) :
  (exists e, RateLimitedClient.mark_rate_limited base clock retry_after self
             = (self, Py.Raise e))
  \/ (exists until,
        RateLimitedClient.mark_rate_limited base clock retry_after self
        = (RateLimitedClient.mk (RateLimitedClient.name self) (Some until)
             (S (RateLimitedClient.consecutive_failures self))
             (RateLimitedClient.last_error self), Py.Ok tt)).
Proof.
  unfold RateLimitedClient.mark_rate_limited.
  destruct (RateLimitedClient.deadline base clock retry_after self) as [until | e].
  - right. exists until. reflexivity.
  - left. exists e. reflexivity.
Qed.

(** The invariant of a client used through [is_available] and [execute]:
    at most one failure is on record, and none while no limit is set. *)
Lemma reachable_invariant (self : RateLimitedClient.t) :
  reachable self ->
  (RateLimitedClient.consecutive_failures self <= 1)%nat
  /\ (RateLimitedClient.rate_limited_until self = None ->
      RateLimitedClient.consecutive_failures self = 0%nat).
Proof.
  assert (Havail : forall clock s,
            ((RateLimitedClient.consecutive_failures s <= 1)%nat
             /\ (RateLimitedClient.rate_limited_until s = None ->
                 RateLimitedClient.consecutive_failures s = 0%nat)) ->
            (RateLimitedClient.consecutive_failures
               (fst (RateLimitedClient.is_available clock s)) <= 1)%nat
            /\ (RateLimitedClient.rate_limited_until
                  (fst (RateLimitedClient.is_available clock s)) = None ->
                RateLimitedClient.consecutive_failures
                  (fst (RateLimitedClient.is_available clock s)) = 0%nat)).
  { intros clock s [Hle Hnone]. unfold RateLimitedClient.is_available.
    destruct (RateLimitedClient.rate_limited_until s) as [until |] eqn:Huntil.
    - destruct (negb (datetime.lt (RateLimitedClient.utcnow clock) until));
        cbn [fst RateLimitedClient.consecutive_failures
             RateLimitedClient.rate_limited_until].
      + split; [lia | reflexivity].
      + split; [exact Hle | rewrite Huntil; discriminate].
    - cbn [fst]. split; [exact Hle | intros _; apply Hnone; reflexivity]. }
  induction 1 as [name | clock self _ IH | R base ca cl func default self _ IH].
  - cbn. split; [lia | reflexivity].
  - apply Havail, IH.
  - destruct (snd (RateLimitedClient.is_available ca self)) eqn:Hanswer.
    + rewrite execute_available by exact Hanswer. cbv zeta.
      destruct (is_available_true ca self Hanswer) as [Huntil _].
      assert (Hzero : RateLimitedClient.consecutive_failures
                        (fst (RateLimitedClient.is_available ca self)) = 0%nat)
        by (apply (Havail ca self IH), Huntil).
      destruct func
        as [result | status_code reason_phrase retry_seconds
            | status_code reason_phrase msg | | msg | e];
        try (destruct (status_code =? 429)%Z);
        try (destruct (Py.isinstance_Exception e));
        try (destruct (mark_rate_limited_cases base cl retry_seconds
                         (fst (RateLimitedClient.is_available ca self)))
               as [(e & ->) | (until & ->)]);
        cbn [fst RateLimitedClient.set_last_error RateLimitedClient.mark_success
             RateLimitedClient.consecutive_failures
             RateLimitedClient.rate_limited_until];
        rewrite ?Hzero; split; try lia; try reflexivity;
        try discriminate; intros _; exact Hzero.
    + rewrite execute_unavailable by exact Hanswer. exact IH.
Qed.

(** Used through [execute], the backoff never grows: every backoff that
    [execute] sets for a 429 response without a usable [retry-after] header
    lasts [min(base * 60, 7200)] seconds, the first step of the exponential
    schedule, however many 429 responses came before; the failure count of
    such a client never exceeds one. *)
Theorem execute_backoff_never_escalates :
  forall self : RateLimitedClient.t,
    reachable self ->
    (RateLimitedClient.consecutive_failures self <= 1)%nat
    /\ forall (R : Type) (base ca cl : Z) (reason_phrase : string)
              (retry_seconds : option Z) (default : R),
         retry_seconds = None \/ retry_seconds = Some 0%Z ->
         snd (RateLimitedClient.is_available ca self) = true ->
         limited_until
           (fst (RateLimitedClient.execute base ca cl
                   (RateLimitedClient.HTTPStatusError 429 reason_phrase retry_seconds)
                   default self))
         = Some (cl + Z.min (base * 60) 7200 * 1000000)%Z.
Proof.
  intros self Hreach.
  destruct (reachable_invariant self Hreach) as [Hle Hnone].
  split; [exact Hle |].
  intros R base ca cl reason_phrase retry_seconds default Hretry Hanswer.
  rewrite execute_available by exact Hanswer. cbv zeta.
  change (429 =? 429)%Z with true. cbv iota.
  rewrite mark_rate_limited_fallback by exact Hretry.
  unfold limited_until.
  cbn [fst RateLimitedClient.set_last_error
       RateLimitedClient.rate_limited_until option_map
       RateLimitedClient.plus_seconds RateLimitedClient.utcnow datetime.micros].
  assert (Hzero : RateLimitedClient.consecutive_failures
                    (fst (RateLimitedClient.is_available ca self)) = 0%nat).
  { destruct (is_available_true ca self Hanswer) as [_ [Hzero | Hsame]];
      [exact Hzero |].
    rewrite Hsame. apply Hnone.
    destruct (is_available_true ca self Hanswer) as [Huntil _].
    rewrite Hsame in Huntil. exact Huntil. }
  unfold RateLimitedClient.exponential_backoff. rewrite Hzero.
  change (2 ^ Z.of_nat 0)%Z with 1%Z. rewrite Z.mul_1_r. reflexivity.
Qed.

(** A client limited at reading [0] meets a second 429 two hours later:
    the backoff is again 15 minutes. *)
Lemma execute_backoff_witness :
  (RateLimitedClient.consecutive_failures Examples.limited <= 1)%nat
  /\ forall (R : Type) (base ca cl : Z) (reason_phrase : string)
            (retry_seconds : option Z) (default : R),
       retry_seconds = None \/ retry_seconds = Some 0%Z ->
       snd (RateLimitedClient.is_available ca Examples.limited) = true ->
       limited_until
         (fst (RateLimitedClient.execute base ca cl
                 (RateLimitedClient.HTTPStatusError 429 reason_phrase retry_seconds)
                 default Examples.limited))
       = Some (cl + Z.min (base * 60) 7200 * 1000000)%Z.
Proof.
  apply (execute_backoff_never_escalates Examples.limited).
  apply reachable_execute, reachable_init.
Defined.

(** When the [except] clause that a failure reaches returns, so does
    [execute]: with the result of a call that returned, with [default] for a
    failure inside [Exception]. *)
Lemma execute_result {R : Type} (base ca cl : Z) (func : RateLimitedClient.call R)
    (default : R) (self : RateLimitedClient.t) :
  catchable func -> handler_returns cl func ->
  snd (RateLimitedClient.execute base ca cl func default self)
  = Py.Ok (match func with
           | RateLimitedClient.Returned result =>
               if snd (RateLimitedClient.is_available ca self) then result else default
           | _ => default
           end).
Proof.
  intros Hcatch Hreturns.
  destruct (snd (RateLimitedClient.is_available ca self)) eqn:Hanswer.
  - rewrite execute_available by exact Hanswer. cbv zeta.
    destruct func
      as [result | status_code reason_phrase retry_seconds
          | status_code reason_phrase msg | | msg | e]; try reflexivity.
    + destruct (Z.eqb_spec status_code 429) as [Hcode | Hcode]; [| reflexivity].
      unfold RateLimitedClient.mark_rate_limited.
      destruct retry_seconds as [seconds |]; [| reflexivity].
      destruct (Z.eq_dec seconds 0) as [-> | Hs]; [reflexivity |].
      rewrite (deadline_representable base cl seconds _ Hs (Hreturns Hcode Hs)).
      reflexivity.
    + destruct (Z.eqb_spec status_code 429) as [Hcode | Hcode]; [| reflexivity].
      exfalso. exact (Hreturns Hcode).
    + rewrite (Hcatch e eq_refl). reflexivity.
  - rewrite execute_unavailable by exact Hanswer. destruct func; reflexivity.
Qed.

(** [execute] and the failures of the call.  While the client is rate
    limited it gives back [default] and leaves the client as it is.
    Otherwise, for a failure inside [Exception], it gives back the result of
    a call that returned and [default] for any other, and only a 429
    response sets a limit, unless the call ended in a 429 response whose
    [retry-after] header [int] refuses or whose [retry-after] names a
    deadline that is not a [datetime]: then the exception raised inside the
    [except] clause leaves [execute], and the client stays as [is_available]
    left it. *)
Theorem execute_degrades_to_default :
  forall (R : Type) (base ca cl : Z) (func : RateLimitedClient.call R) (default : R)
         (self : RateLimitedClient.t),
    catchable func ->
    let run := RateLimitedClient.execute base ca cl func default self in
    let available := snd (RateLimitedClient.is_available ca self) in
    (available = false -> run = (self, Py.Ok default))
    /\ (handler_returns cl func ->
        snd run
        = Py.Ok (match func with
                 | RateLimitedClient.Returned result =>
                     if available then result else default
                 | _ => default
                 end)
        /\ ((forall reason_phrase retry_seconds,
               func <> RateLimitedClient.HTTPStatusError 429 reason_phrase retry_seconds) ->
            available = true ->
            RateLimitedClient.rate_limited_until (fst run) = None))
    /\ (available = true -> ~ handler_returns cl func ->
        fst run = fst (RateLimitedClient.is_available ca self)
        /\ exists e, snd run = Py.Raise e /\ Py.isinstance_Exception e = true).
Proof.
  intros R base ca cl func default self Hcatch. cbv zeta.
  split; [intros Hanswer; apply execute_unavailable; exact Hanswer |].
  split.
  - intros Hreturns. split; [apply execute_result; assumption |].
    intros Hnot Hanswer.
    rewrite execute_available by exact Hanswer. cbv zeta.
    destruct (is_available_true ca self Hanswer) as [Huntil _].
    destruct func
      as [result | status_code reason_phrase retry_seconds
          | status_code reason_phrase msg | | msg | e];
      try exact Huntil.
    + destruct (Z.eqb_spec status_code 429) as [-> | Hcode]; [| exact Huntil].
      exfalso. exact (Hnot reason_phrase retry_seconds eq_refl).
    + destruct (Z.eqb_spec status_code 429) as [Hcode | Hcode]; exact Huntil.
    + destruct (Py.isinstance_Exception e); exact Huntil.
  - intros Hanswer Hnot.
    rewrite execute_available by exact Hanswer. cbv zeta.
    destruct func
      as [result | status_code reason_phrase retry_seconds
          | status_code reason_phrase msg | | msg | e];
      try (exfalso; apply Hnot; exact I).
    + destruct retry_seconds as [seconds |]; [| exfalso; apply Hnot; exact I].
      cbn [handler_returns] in Hnot.
      destruct (Z.eqb_spec status_code 429) as [Hcode | Hcode];
        [| exfalso; apply Hnot; intros Hc; contradiction].
      destruct (Z.eq_dec seconds 0) as [Hs | Hs];
        [exfalso; apply Hnot; intros _ Hs'; contradiction |].
      assert (Hrep : ~ representable cl seconds)
        by (intros Hrep; apply Hnot; intros _ _; exact Hrep).
      unfold RateLimitedClient.mark_rate_limited.
      destruct (deadline_overflows base cl seconds
                  (fst (RateLimitedClient.is_available ca self)) Hs Hrep) as (msg & ->).
      split; [reflexivity |]. eexists. split; reflexivity.
    + cbn [handler_returns] in Hnot.
      destruct (Z.eqb_spec status_code 429) as [Hcode | Hcode];
        [| exfalso; apply Hnot; exact Hcode].
      split; [reflexivity |]. eexists. split; reflexivity.
Qed.

(** A request time-out on a fresh client. *)
Lemma execute_degrades_witness :
  snd (RateLimitedClient.execute 15 0 0 RateLimitedClient.TimeoutException
         (@None Market.t) Examples.limiter)
  = Py.Ok None.
Proof.
  assert (Hcatch : catchable (@RateLimitedClient.TimeoutException (option Market.t)))
    by (intros e He; discriminate He).
  destruct (execute_degrades_to_default (option Market.t) 15 0 0
              RateLimitedClient.TimeoutException None Examples.limiter Hcatch)
    as (_ & Hreturns & _).
  destruct (Hreturns I) as [Hresult _].
  exact Hresult.
Defined.

(** On the first instant of 2026, a 429 response asking to retry after
    [10 ** 12] seconds, and one whose [retry-after] header has 5000
    digits: [execute] raises, and the client is not marked. *)
Example execute_raises_in_the_handler :
  RateLimitedClient.execute 15 Examples.year_2026 Examples.year_2026
    (RateLimitedClient.HTTPStatusError 429 "Too Many Requests" (Some (10 ^ 12)%Z))
    (@None Market.t) Examples.limiter
  = (Examples.limiter, Py.Raise (Py.Exception "date value out of range"))
  /\ RateLimitedClient.execute 15 Examples.year_2026 Examples.year_2026
       (RateLimitedClient.RetryAfterRejected 429 "Too Many Requests"
          Examples.int_refuses_5000_digits)
       (@None Market.t) Examples.limiter
     = (Examples.limiter, Py.Raise (Py.Exception Examples.int_refuses_5000_digits)).
Proof. split; vm_compute; reflexivity. Qed.

(** [get_status] looks at the stored limit only, not at the clock: it can
    report an API as unavailable after the backoff has run out, never the
    other way round; once [is_available] has been called the two agree. *)
Theorem get_status_lags_is_available :
  forall (clock : Z) (self : RateLimitedClient.t),
    (RateLimitedClient.available (RateLimitedClient.get_status self) = true ->
     snd (RateLimitedClient.is_available clock self) = true)
    /\ RateLimitedClient.available
         (RateLimitedClient.get_status (fst (RateLimitedClient.is_available clock self)))
       = snd (RateLimitedClient.is_available clock self)
    /\ (RateLimitedClient.available (RateLimitedClient.get_status self) = false ->
        exists later : Z,
          snd (RateLimitedClient.is_available later self) = true).
Proof.
  intros clock self.
  unfold RateLimitedClient.get_status, RateLimitedClient.is_available.
  destruct (RateLimitedClient.rate_limited_until self) as [until |] eqn:Huntil.
  - split; [discriminate |]. split.
    + destruct (negb (datetime.lt (RateLimitedClient.utcnow clock) until));
        cbn [fst snd RateLimitedClient.rate_limited_until RateLimitedClient.available];
        [reflexivity | rewrite Huntil; reflexivity].
    + intros _. exists (datetime.micros until).
      unfold datetime.lt. cbn [RateLimitedClient.utcnow datetime.micros].
      rewrite Z.ltb_irrefl. reflexivity.
  - split; [reflexivity |]. split.
    + cbn [fst snd]. rewrite Huntil. reflexivity.
    + discriminate.
Qed.

(* ================================================================== *)
(** ** The Polymarket source behind the rate limiter *)

Lemma is_market_current_open (clock : Z) (m : Market.t) :
  is_market_current clock m = true -> open_for_trading m.
Proof.
  unfold is_market_current, open_for_trading.
  destruct (Market.closed m); [discriminate |].
  destruct (Market.archived m); [discriminate |].
  destruct (Market.accepting_orders m); [| discriminate].
  intros _. repeat split.
Qed.

Lemma filter_current_sound (clock : nat -> Z) (markets : list Market.t) :
  forall (i : nat) (m : Market.t),
    In m (PolymarketDataSource.filter_current clock i markets) ->
    exists j, nth_error markets j = Some m
              /\ is_market_current (clock (i + j)%nat) m = true.
Proof.
  induction markets as [| x rest IH]; intros i m Hin; [destruct Hin |].
  cbn [PolymarketDataSource.filter_current] in Hin.
  destruct (is_market_current (clock i) x) eqn:Hx.
  - destruct Hin as [<- | Hin].
    + exists 0%nat. rewrite Nat.add_0_r. split; [reflexivity | exact Hx].
    + destruct (IH (S i) m Hin) as (j & Hj & Hcur).
      exists (S j). rewrite Nat.add_succ_r. split; assumption.
  - destruct (IH (S i) m Hin) as (j & Hj & Hcur).
    exists (S j). rewrite Nat.add_succ_r. split; assumption.
Qed.

Lemma filter_current_complete (clock : nat -> Z) (markets : list Market.t) :
  forall (i j : nat) (m : Market.t),
    nth_error markets j = Some m ->
    is_market_current (clock (i + j)%nat) m = true ->
    In m (PolymarketDataSource.filter_current clock i markets).
Proof.
  induction markets as [| x rest IH]; intros i j m Hj Hcur;
    [destruct j; discriminate |].
  cbn [PolymarketDataSource.filter_current].
  destruct j as [| j].
  - injection Hj as ->. rewrite Nat.add_0_r in Hcur. rewrite Hcur. left. reflexivity.
  - cbn [nth_error] in Hj. rewrite Nat.add_succ_r in Hcur.
    specialize (IH (S i) j m Hj Hcur).
    destruct (is_market_current (clock i) x); [right |]; exact IH.
Qed.

(** The answer of the limiter to a fetch whose failure handling returns. *)
Lemma rate_limited_execute_result {R : Type} (f : PolymarketDataSource.fetch R)
    (default : R) (rate_limiter : RateLimitedClient.t) :
  catchable (PolymarketDataSource.response f) ->
  handler_returns (PolymarketDataSource.clock_limited f) (PolymarketDataSource.response f) ->
  exists after,
    PolymarketDataSource.rate_limited_execute f default rate_limiter
    = (after,
       Py.Ok (match PolymarketDataSource.response f with
              | RateLimitedClient.Returned result =>
                  if snd (RateLimitedClient.is_available
                            (PolymarketDataSource.clock_available f) rate_limiter)
                  then result else default
              | _ => default
              end)).
Proof.
  intros Hcatch Hreturns. unfold PolymarketDataSource.rate_limited_execute.
  pose proof (execute_result (PolymarketDataSource.api_retry_after_minutes f)
                (PolymarketDataSource.clock_available f)
                (PolymarketDataSource.clock_limited f)
                (PolymarketDataSource.response f) default rate_limiter
                Hcatch Hreturns) as Hresult.
  destruct (RateLimitedClient.execute _ _ _ _ _ _) as [after out].
  cbn [snd] in Hresult. subst out. exists after. reflexivity.
Qed.

(** When the request fails inside [Exception] and the failure handling of
    the limiter returns, [get_markets] with [filter_current] does not
    raise; what it returns are exactly the fetched markets that
    [is_market_current] accepts at the reading of their check, all of them
    open for trading; and it returns the empty list, as for an exchange
    without markets, while the client is rate limited and when the request
    fails. *)
Theorem get_markets_only_current :
  forall (f : PolymarketDataSource.fetch (list Market.t)) (clock : nat -> Z)
         (rate_limiter : RateLimitedClient.t),
    catchable (PolymarketDataSource.response f) ->
    handler_returns (PolymarketDataSource.clock_limited f)
      (PolymarketDataSource.response f) ->
    exists markets : list Market.t,
      snd (PolymarketDataSource.get_markets f clock true rate_limiter) = Py.Ok markets
      /\ (forall m, In m markets -> open_for_trading m)
      /\ (forall fetched,
            PolymarketDataSource.response f = RateLimitedClient.Returned fetched ->
            snd (RateLimitedClient.is_available (PolymarketDataSource.clock_available f)
                   rate_limiter) = true ->
            forall m, In m markets
                      <-> exists j, nth_error fetched j = Some m
                                    /\ is_market_current (clock j) m = true)
      /\ (snd (RateLimitedClient.is_available (PolymarketDataSource.clock_available f)
                 rate_limiter) = false
          \/ (forall fetched,
                PolymarketDataSource.response f <> RateLimitedClient.Returned fetched) ->
          markets = []).
Proof.
  intros f clock rate_limiter Hcatch Hreturns.
  unfold PolymarketDataSource.get_markets.
  destruct (rate_limited_execute_result f [] rate_limiter Hcatch Hreturns)
    as (after & ->).
  cbn [snd].
  assert (Hempty : exists markets : list Market.t,
            Py.Ok (PolymarketDataSource.filter_current clock 0 []) = Py.Ok markets
            /\ (forall m, In m markets -> open_for_trading m)
            /\ markets = []).
  { exists []. split; [reflexivity |]. split; [intros m [] | reflexivity]. }
  destruct (PolymarketDataSource.response f) as [fetched | | | | |] eqn:Hresp;
    [| destruct Hempty as (markets & Hrun & Hopen & ->); exists [];
       (split; [exact Hrun |]); (split; [exact Hopen |]);
       (split; [intros ? Heq; discriminate Heq | reflexivity]) ..].
  destruct (snd (RateLimitedClient.is_available (PolymarketDataSource.clock_available f)
                   rate_limiter)) eqn:Hanswer.
  - exists (PolymarketDataSource.filter_current clock 0 fetched).
    split; [reflexivity |]. split; [| split].
    + intros m Hin. destruct (filter_current_sound clock fetched 0 m Hin) as (j & _ & Hc).
      exact (is_market_current_open _ _ Hc).
    + intros fetched' Heq _ m. injection Heq as <-. split.
      * intros Hin. exact (filter_current_sound clock fetched 0 m Hin).
      * intros (j & Hj & Hc). exact (filter_current_complete clock fetched 0 j m Hj Hc).
    + intros [Hno | Hno]; [discriminate | exfalso; exact (Hno fetched eq_refl)].
  - exists []. split; [reflexivity |]. split; [intros m [] |].
    split; [intros ? _ Heq; discriminate Heq | reflexivity].
Qed.

(** A server error on a fresh client. *)
Lemma get_markets_witness :
  exists markets : list Market.t,
    snd (PolymarketDataSource.get_markets
           (PolymarketDataSource.mkFetch 15 0 0
              (RateLimitedClient.HTTPStatusError 500 "Internal Server Error" None))
           (fun _ => 0%Z) true Examples.limiter) = Py.Ok markets
    /\ markets = [].
Proof.
  destruct (get_markets_only_current
              (PolymarketDataSource.mkFetch 15 0 0
                 (RateLimitedClient.HTTPStatusError 500 "Internal Server Error" None))
              (fun _ => 0%Z) Examples.limiter)
    as (markets & Hrun & _ & _ & Hempty).
  - intros e He. discriminate He.
  - exact I.
  - exists markets. split; [exact Hrun |].
    apply Hempty. right. intros fetched He. discriminate He.
Defined.

(** When the request fails inside [Exception] and the failure handling of
    the limiter returns, [get_market_by_slug] does not raise: with
    [require_current] it gives a market only if [is_market_current] accepts
    it; without, it gives whatever the request returned; and a failure reads
    as [None]. *)
Theorem get_market_by_slug_requires_current :
  forall (f : PolymarketDataSource.fetch (option Market.t)) (clock : Z)
         (require_current : bool) (rate_limiter : RateLimitedClient.t),
    catchable (PolymarketDataSource.response f) ->
    handler_returns (PolymarketDataSource.clock_limited f)
      (PolymarketDataSource.response f) ->
    exists result : option Market.t,
      snd (PolymarketDataSource.get_market_by_slug f clock require_current rate_limiter)
        = Py.Ok result
      /\ (forall m, result = Some m <->
            PolymarketDataSource.response f = RateLimitedClient.Returned (Some m)
            /\ snd (RateLimitedClient.is_available
                      (PolymarketDataSource.clock_available f) rate_limiter) = true
            /\ (require_current = true -> is_market_current clock m = true)).
Proof.
  intros f clock require_current rate_limiter Hcatch Hreturns.
  unfold PolymarketDataSource.get_market_by_slug.
  destruct (rate_limited_execute_result f None rate_limiter Hcatch Hreturns)
    as (after & ->).
  destruct (PolymarketDataSource.response f) as [[market |] | | | | |] eqn:Hresp;
    [| try destruct (snd (RateLimitedClient.is_available _ rate_limiter));
       exists None; (split; [reflexivity |]); intros m;
       (split; [discriminate | intros (Heq & _); discriminate Heq]) ..].
  destruct (snd (RateLimitedClient.is_available (PolymarketDataSource.clock_available f)
                   rate_limiter)) eqn:Hanswer.
  - destruct require_current; cbn [andb].
    + destruct (is_market_current clock market) eqn:Hcur; cbn [negb].
      * exists (Some market). split; [reflexivity |]. intros m. split.
        -- intros Heq. injection Heq as <-. repeat split. intros _. exact Hcur.
        -- intros (Heq & _). injection Heq as <-. reflexivity.
      * exists None. split; [reflexivity |]. intros m. split; [discriminate |].
        intros (Heq & _ & Hc). injection Heq as <-.
        specialize (Hc eq_refl). congruence.
    + exists (Some market). split; [reflexivity |]. intros m. split.
      * intros Heq. injection Heq as <-. repeat split. discriminate.
      * intros (Heq & _). injection Heq as <-. reflexivity.
  - exists None. split; [reflexivity |]. intros m.
    split; [discriminate | intros (_ & Hyes & _); discriminate Hyes].
Qed.

(** The closed market of the examples, fetched by slug. *)
Lemma get_market_by_slug_witness :
  exists result : option Market.t,
    snd (PolymarketDataSource.get_market_by_slug
           (PolymarketDataSource.mkFetch 15 0 0
              (RateLimitedClient.Returned (Some Examples.closed_thin_market)))
           0 true Examples.limiter) = Py.Ok result
    /\ result = None.
Proof.
  destruct (get_market_by_slug_requires_current
              (PolymarketDataSource.mkFetch 15 0 0
                 (RateLimitedClient.Returned (Some Examples.closed_thin_market)))
              0 true Examples.limiter)
    as (result & Hrun & Hresult).
  - intros e He. discriminate He.
  - exact I.
  - exists result. split; [exact Hrun |].
    destruct result as [m |]; [| reflexivity].
    destruct (proj1 (Hresult m) eq_refl) as (Heq & _ & Hcur).
    injection Heq as <-. specialize (Hcur eq_refl). discriminate Hcur.
Defined.

(** Neither function has an exception handler of its own: a 429 response
    asking to retry after [10 ** 12] seconds makes both raise. *)
Example polymarket_fetches_raise_with_the_limiter :
  let f R : PolymarketDataSource.fetch R :=
    PolymarketDataSource.mkFetch 15 Examples.year_2026 Examples.year_2026
      (RateLimitedClient.HTTPStatusError 429 "Too Many Requests" (Some (10 ^ 12)%Z)) in
  snd (PolymarketDataSource.get_markets (f _) (fun _ => Examples.year_2026) true
         Examples.limiter)
  = Py.Raise (Py.Exception "date value out of range")
  /\ snd (PolymarketDataSource.get_market_by_slug (f _) Examples.year_2026 true
            Examples.limiter)
     = Py.Raise (Py.Exception "date value out of range")
  /\ snd (PolymarketDataSource.get_market (f _) Examples.limiter)
     = Py.Raise (Py.Exception "date value out of range").
Proof. cbv zeta. repeat split; vm_compute; reflexivity. Qed.

(** While the Polymarket client is rate limited, and when the request for
    the market finds nothing or fails inside [Exception] with the failure
    handling of the limiter returning, [update_signal_tracking] on top of
    [get_market] returns normally and leaves the signal and the store as
    they are: a horizon that falls due in the meantime is filled by a later
    call, at the later price. *)
Theorem tracker_idle_when_source_is_down :
  forall (f : PolymarketDataSource.fetch (option Market.t))
         (rate_limiter : RateLimitedClient.t)
         (tk : SignalTracker.tick) (st : SignalTracker.state),
    catchable (PolymarketDataSource.response f) ->
    handler_returns (PolymarketDataSource.clock_limited f)
      (PolymarketDataSource.response f) ->
    delivers_no_market f rate_limiter ->
    SignalTracker.get_market tk
      = snd (PolymarketDataSource.get_market f rate_limiter) ->
    SignalTracker.update_signal_tracking tk st = (st, Py.Ok tt).
Proof.
  intros f rate_limiter tk st Hcatch Hreturns Hdown Hget.
  assert (Hnone : SignalTracker.get_market tk = Py.Ok None).
  { rewrite Hget. unfold PolymarketDataSource.get_market.
    destruct (rate_limited_execute_result f None rate_limiter Hcatch Hreturns)
      as (after & ->).
    cbn [snd].
    destruct (PolymarketDataSource.response f) as [[market |] | | | | |] eqn:Hresp;
      try reflexivity.
    - destruct Hdown as [Hno | Hno]; [rewrite Hno; reflexivity |].
      exfalso. exact (Hno market Hresp).
    - destruct (snd (RateLimitedClient.is_available _ rate_limiter)); reflexivity. }
  unfold SignalTracker.update_signal_tracking. rewrite Hnone. reflexivity.
Qed.

(** A rate-limited client one minute into its backoff. *)
Lemma tracker_idle_witness :
  SignalTracker.update_signal_tracking
    (SignalTracker.mkTick
       (snd (PolymarketDataSource.get_market
               (PolymarketDataSource.mkFetch 15 60000000 60000000
                  (RateLimitedClient.Returned (Some (Examples.market "m1" 1000 (Some 0.60)))))
               Examples.limited))
       0 (30 * Examples.hour) 0 (Py.Ok tt))
    (Examples.tracked (Examples.signal BUY 0.40))
  = (Examples.tracked (Examples.signal BUY 0.40), Py.Ok tt).
Proof.
  apply (tracker_idle_when_source_is_down
           (PolymarketDataSource.mkFetch 15 60000000 60000000
              (RateLimitedClient.Returned (Some (Examples.market "m1" 1000 (Some 0.60)))))
           Examples.limited).
  - intros e He. discriminate He.
  - exact I.
  - left. reflexivity.
  - reflexivity.
Defined.

(* ================================================================== *)
(** ** The sweeps over the active signals *)

Lemma framed_bind {A B : Type} (m : SignalTracker.M A) (k : A -> SignalTracker.M B) :
  framed m -> (forall a, framed (k a)) -> framed (SignalTracker.bind m k).
Proof.
  intros Hm Hk s w. rewrite !bind_step, (Hm s w).
  destruct (m (SignalTracker.mkState s [])) as [[s1 w1] [a | e]];
    cbn [fst snd SignalTracker.signal SignalTracker.db_updates].
  - rewrite (Hk a s1 (w ++ w1)), (Hk a s1 w1).
    cbn [fst snd SignalTracker.signal SignalTracker.db_updates].
    rewrite app_assoc. reflexivity.
  - reflexivity.
Qed.

Lemma framed_ret {A : Type} (a : A) : framed (SignalTracker.ret a).
Proof. intros s w. cbn. rewrite app_nil_r. reflexivity. Qed.

Lemma framed_lift {A : Type} (o : Py.outcome A) : framed (SignalTracker.lift o).
Proof. intros s w. cbn. rewrite app_nil_r. reflexivity. Qed.

Lemma framed_read {A : Type} (f : Signal.t -> A) : framed (SignalTracker.read f).
Proof. intros s w. cbn. rewrite app_nil_r. reflexivity. Qed.

Lemma framed_assign (f : Signal.t -> Signal.t) : framed (SignalTracker.assign f).
Proof. intros s w. cbn. rewrite app_nil_r. reflexivity. Qed.

Lemma framed_calculate_gain (price : Q) : framed (SignalTracker.calculate_gain price).
Proof.
  intros s w. unfold SignalTracker.calculate_gain.
  cbn [fst snd SignalTracker.signal SignalTracker.db_updates].
  rewrite app_nil_r. reflexivity.
Qed.

Lemma framed_db_update_signal (result : Py.outcome unit) :
  framed (SignalTracker.db_update_signal result).
Proof. intros s w. reflexivity. Qed.

(** Solves [framed m] by the structure of [m]. *)
Ltac framed :=
  repeat first
    [ apply framed_ret | apply framed_lift | apply framed_read | apply framed_assign
    | apply framed_calculate_gain | apply framed_db_update_signal
    | apply framed_bind; [ | intros ? ]
    | match goal with |- framed (if ?b then _ else _) => destruct b end
    | match goal with
      | |- framed (match ?x with Some _ => _ | None => _ end) => destruct x
      end ].

Lemma framed_update_signal_tracking (tk : SignalTracker.tick) :
  framed (SignalTracker.update_signal_tracking tk).
Proof.
  unfold SignalTracker.update_signal_tracking, SignalTracker.fill_horizons,
    SignalTracker.checkpoint_1h, SignalTracker.checkpoint_24h,
    SignalTracker.checkpoint_7d, SignalTracker._resolve_signal.
  cbv zeta. framed.
Qed.

Lemma update_loop_closed_form (active : list (Signal.t * SignalTracker.tick)) :
  Forall (fun x => caught (snd (tracked_alone x))) active ->
  forall (writes : list Signal.t) (count : Z),
    SignalTracker.update_loop active writes count
    = (map (fun x => SignalTracker.signal (fst (tracked_alone x))) active,
       writes ++ flat_map (fun x => SignalTracker.db_updates (fst (tracked_alone x))) active,
       Py.Ok (count + Z.of_nat (List.length
                                  (filter (fun x => returned (snd (tracked_alone x)))
                                     active)))%Z).
Proof.
  induction 1 as [| [signal tk] rest Hx _ IH]; intros writes count.
  - cbn. rewrite app_nil_r, Z.add_0_r. reflexivity.
  - cbn [SignalTracker.update_loop].
    rewrite (framed_update_signal_tracking tk signal writes).
    unfold tracked_alone in Hx. cbn [fst snd] in Hx.
    cbn [map flat_map filter]. unfold tracked_alone at 1 3 5. cbn [fst snd].
    destruct (snd (SignalTracker.update_signal_tracking tk
                     (SignalTracker.mkState signal []))) as [[] | e].
    + rewrite IH. cbn [SignalTracker.signal SignalTracker.db_updates returned List.length].
      rewrite app_assoc, Nat2Z.inj_succ. f_equal. f_equal. lia.
    + cbn in Hx. rewrite Hx, IH.
      cbn [SignalTracker.signal SignalTracker.db_updates returned].
      rewrite app_assoc. reflexivity.
Qed.

(** [update_all_active_signals] treats every signal by itself: when the
    exceptions raised are inside [Exception], each signal ends as its own
    call of [update_signal_tracking] leaves it, whatever happened to the
    signals before it; the store receives the writes of the calls in order;
    and the number returned counts the calls that did not raise - also those
    that found nothing to update - so that it never exceeds the number of
    active signals. *)
Theorem update_all_active_signals_isolates :
  forall active : list (Signal.t * SignalTracker.tick),
    Forall (fun x => caught (snd (tracked_alone x))) active ->
    exists count : Z,
      SignalTracker.update_all_active_signals (Py.Ok active)
      = (map (fun x => SignalTracker.signal (fst (tracked_alone x))) active,
         flat_map (fun x => SignalTracker.db_updates (fst (tracked_alone x))) active,
         Py.Ok count)
      /\ count = Z.of_nat (List.length
                             (filter (fun x => returned (snd (tracked_alone x))) active))
      /\ (0 <= count <= Z.of_nat (List.length active))%Z.
Proof.
  intros active Hcaught. eexists. split; [| split; [reflexivity |]].
  - unfold SignalTracker.update_all_active_signals.
    rewrite (update_loop_closed_form active Hcaught [] 0). reflexivity.
  - split; [lia |]. apply inj_le, filter_length_le.
Qed.

Lemma stale_is_before_cutoff (clock max_age_days : Z) (s : Signal.t) :
  datetime.lt (datetime.assume_utc (Signal.created_at s))
    (SignalTracker.cutoff clock max_age_days)
  = stale clock max_age_days s.
Proof.
  unfold stale, datetime.lt, datetime.assume_utc, SignalTracker.cutoff.
  destruct (datetime.tz_aware (Signal.created_at s)); reflexivity.
Qed.



(** Two signals a day old: the store refuses the first, the second goes
    through; one call is counted. *)
Lemma update_all_active_signals_witness :
  exists signals writes,
    SignalTracker.update_all_active_signals
      (Py.Ok [(Examples.signal BUY 0.40, Examples.tick_refused (30 * Examples.hour) 0.60);
              (Examples.signal SELL 0.40, Examples.tick (30 * Examples.hour) 0.60)])
    = (signals, writes, Py.Ok 1%Z)
    /\ List.length writes = 2%nat.
Proof.
  destruct (update_all_active_signals_isolates
              [(Examples.signal BUY 0.40, Examples.tick_refused (30 * Examples.hour) 0.60);
               (Examples.signal SELL 0.40, Examples.tick (30 * Examples.hour) 0.60)])
    as (count & Hrun & Hcount & _).
  - repeat constructor.
  - rewrite Hrun, Hcount. do 2 eexists. split; reflexivity.
Defined.


Lemma expire_loop_aborts (clock max_age_days : Z)
    (before : list (Signal.t * SignalTracker.expiry)) :
  Forall (fun x => stale clock max_age_days (fst x) = true ->
                   returned (SignalTracker.update_expired (snd x)) = true) before ->
  forall (s : Signal.t) (obs : SignalTracker.expiry) (e : Py.exn)
         (after : list (Signal.t * SignalTracker.expiry))
         (writes : list Signal.t) (count : Z),
    stale clock max_age_days s = true ->
    SignalTracker.update_expired obs = Py.Raise e ->
    SignalTracker.expire_loop (SignalTracker.cutoff clock max_age_days)
      (before ++ (s, obs) :: after) writes count
    = (map (swept clock max_age_days) before
         ++ expired_at (SignalTracker.clock_expired obs) s :: map fst after,
       writes
         ++ map (swept clock max_age_days)
              (filter (fun x => stale clock max_age_days (fst x)) before)
         ++ [expired_at (SignalTracker.clock_expired obs) s],
       Py.Raise e).
Proof.
  induction 1 as [| [signal obs'] rest Hx _ IH];
    intros s obs e after writes count Hstale Hraise.
  - cbn [app map filter SignalTracker.expire_loop]. cbv zeta.
    rewrite stale_is_before_cutoff, Hstale, Hraise. reflexivity.
  - assert (Hswept : swept clock max_age_days (signal, obs')
                     = if stale clock max_age_days signal
                       then expired_at (SignalTracker.clock_expired obs') signal
                       else signal) by reflexivity.
    cbn [app SignalTracker.expire_loop]. cbv zeta. rewrite stale_is_before_cutoff.
    cbn [map filter fst snd] in *.
    destruct (stale clock max_age_days signal) eqn:Hsignal.
    + specialize (Hx eq_refl).
      destruct (SignalTracker.update_expired obs') as [[] | e']; [| discriminate Hx].
      rewrite (IH s obs e after _ _ Hstale Hraise).
      cbn [map app]. rewrite !Hswept, <- app_assoc. reflexivity.
    + rewrite (IH s obs e after _ _ Hstale Hraise), Hswept. reflexivity.
Qed.

(** [expire_stale_signals] does not guard its store writes: the first write
    that raises ends the sweep with that exception, whatever its class. The
    signals before it are expired and stored, the signal itself is left
    marked EXPIRED in memory, the signals after it are not looked at, and the
    count is lost. *)
Theorem expire_stale_signals_aborts_on_store_failure :
  forall (clock max_age_days : Z)
         (before after : list (Signal.t * SignalTracker.expiry))
         (s : Signal.t) (obs : SignalTracker.expiry) (e : Py.exn),
    Forall (fun x => stale clock max_age_days (fst x) = true ->
                     returned (SignalTracker.update_expired (snd x)) = true) before ->
    stale clock max_age_days s = true ->
    SignalTracker.update_expired obs = Py.Raise e ->
    SignalTracker.expire_stale_signals clock max_age_days
      (Py.Ok (before ++ (s, obs) :: after))
    = (map (swept clock max_age_days) before
         ++ expired_at (SignalTracker.clock_expired obs) s :: map fst after,
       map (swept clock max_age_days)
         (filter (fun x => stale clock max_age_days (fst x)) before)
         ++ [expired_at (SignalTracker.clock_expired obs) s],
       Py.Raise e).
Proof.
  intros clock max_age_days before after s obs e Hbefore Hstale Hraise.
  unfold SignalTracker.expire_stale_signals.
  exact (expire_loop_aborts clock max_age_days before Hbefore s obs e after [] 0
           Hstale Hraise).
Qed.

(** At day 40: the store fails on the signal of day 5; the signal of day 0
    behind it stays ACTIVE. *)
Lemma expire_stale_signals_aborts_witness :
  SignalTracker.expire_stale_signals (40 * Examples.day) 30
    (Py.Ok ([] ++ (Examples.signal_created (5 * Examples.day), Examples.refused)
               :: [(Examples.signal_created 0, Examples.accepted)]))
  = ([] ++ expired_at (40 * Examples.day) (Examples.signal_created (5 * Examples.day))
        :: [Examples.signal_created 0],
     [] ++ [expired_at (40 * Examples.day) (Examples.signal_created (5 * Examples.day))],
     Py.Raise (Py.Exception "connection reset")).
Proof.
  apply (expire_stale_signals_aborts_on_store_failure (40 * Examples.day) 30 []
           [(Examples.signal_created 0, Examples.accepted)]
           (Examples.signal_created (5 * Examples.day)) Examples.refused
           (Py.Exception "connection reset")).
  - constructor.
  - reflexivity.
  - reflexivity.
Defined.

(* ================================================================== *)
(** ** The two ways of resolving a signal *)

(** [Signal.resolve], called with the verdict the tracker computes ([gain >
    0]), and the tracker's [_resolve_signal] record the same final price,
    final gain and status; [resolve] stamps a time without zone, the tracker
    a UTC time. When the gain cannot be computed (entry price 0) both raise,
    but [resolve] has already overwritten [price_at_resolution], while the
    tracker leaves the signal as it was. *)
Theorem resolve_agrees_with_tracker :
  forall (market : Market.t) (clock_tracker clock_model : Z) (final_price : Q)
         (st : SignalTracker.state),
    Market.current_price market = Some final_price ->
    let s := SignalTracker.signal st in
    let tracker := SignalTracker._resolve_signal market clock_tracker st in
    match Signal.calculate_gain s final_price with
    | Py.Ok gain =>
        let model := Signal.resolve clock_model final_price (Py.gt gain 0) s in
        let s1 := fst model in
        let s2 := SignalTracker.signal (fst tracker) in
        snd model = Py.Ok s1 /\ snd tracker = Py.Ok tt
        /\ Signal.price_at_resolution s1 = Some final_price
        /\ Signal.price_at_resolution s2 = Some final_price
        /\ Signal.gain_final_pct s1 = Some gain
        /\ Signal.gain_final_pct s2 = Some gain
        /\ Signal.status s1 = Signal.status s2
        /\ Signal.resolved_at s1 = Some (datetime.mk clock_model false)
        /\ Signal.resolved_at s2 = Some (datetime.mk clock_tracker true)
    | Py.Raise e =>
        forall is_win,
          Signal.resolve clock_model final_price is_win s
          = (Signal.set_price_at_resolution (Some final_price) s, Py.Raise e)
          /\ tracker = (st, Py.Raise e)
    end.
Proof.
  intros market clock_tracker clock_model final_price [s w] Hprice. cbv zeta.
  cbn [SignalTracker.signal].
  unfold SignalTracker._resolve_signal, Signal.resolve. rewrite Hprice.
  rewrite bind_step. unfold SignalTracker.calculate_gain.
  cbn [SignalTracker.signal].
  change (Signal.calculate_gain
            (Signal.set_price_at_resolution (Some final_price) s) final_price)
    with (Signal.calculate_gain s final_price).
  destruct (Signal.calculate_gain s final_price) as [gain | e].
  - cbv zeta. unfold SignalTracker.bind, SignalTracker.assign.
    cbn [fst snd SignalTracker.signal SignalTracker.db_updates].
    repeat split.
  - intros is_win. split; reflexivity.
Qed.

(** A BUY at 0.40 resolved at 0.60: a win with a gain of 50 on both paths. *)
Lemma resolve_agrees_witness :
  Signal.status
    (fst (Signal.resolve 7 0.60 true (Examples.signal BUY 0.40)))
  = Signal.status
      (SignalTracker.signal
         (fst (SignalTracker._resolve_signal (Examples.market "m1" 50000 (Some 0.60)) 7
                 (Examples.tracked (Examples.signal BUY 0.40))))).
Proof.
  pose proof (resolve_agrees_with_tracker (Examples.market "m1" 50000 (Some 0.60)) 7 7
                0.60 (Examples.tracked (Examples.signal BUY 0.40)) eq_refl) as H.
  cbv zeta in H. cbn [SignalTracker.signal Examples.tracked] in H.
  change (Signal.calculate_gain (Examples.signal BUY 0.40) 0.60)
    with (Py.Ok (A := Q) ((0.60 - 0.40) / 0.40 * 100)) in H.
  cbv iota beta in H.
  change (Py.gt ((0.60 - 0.40) / 0.40 * 100) 0) with true in H.
  exact (proj1 (proj2 (proj2 (proj2 (proj2 (proj2 (proj2 H))))))).
Defined.

(* ================================================================== *)
(** ** Market discovery *)

Lemma in_ids_true (id : string) (ids : list string) :
  SignalScanner.in_ids id ids = true <-> In id ids.
Proof.
  unfold SignalScanner.in_ids. rewrite existsb_exists. split.
  - intros (x & Hin & Heq). apply String.eqb_eq in Heq. subst. exact Hin.
  - intros Hin. exists id. split; [exact Hin | apply String.eqb_refl].
Qed.

Lemma eligibleb_true (settings : Settings.t) (exclude_ids : list string)
    (min_volume : Q) (m : Market.t) :
  eligibleb settings exclude_ids min_volume m = true
  <-> eligible settings exclude_ids min_volume m.
Proof.
  unfold eligibleb, eligible. rewrite !andb_true_iff, !negb_true_iff.
  rewrite Py_lt_false, <- not_true_iff_false, in_ids_true.
  destruct (Market.current_price m) as [price |].
  - rewrite andb_true_iff, !negb_true_iff, Py_lt_false, Py_gt_false. split.
    + intros ((Hid & Hvol) & Hlo & Hhi). repeat split; try assumption.
      exists price. repeat split; assumption.
    + intros (Hid & Hvol & p & Hp & Hlo & Hhi). injection Hp as <-.
      repeat split; assumption.
  - split; [intros (_ & Hfalse); discriminate |].
    intros (_ & _ & p & Hp & _). discriminate.
Qed.

(** The filter loop raises at the first unpriced candidate, and otherwise
    appends the eligible markets in order. *)
Lemma discover_loop_closed_form (settings : Settings.t) (exclude_ids : list string)
    (min_volume : Q) (all_markets : list Market.t) :
  forall discovered : list Market.t,
    SignalScanner.discover_loop settings exclude_ids min_volume all_markets discovered
    = if existsb (unpriced_candidate exclude_ids min_volume) all_markets
      then Py.Raise SignalScanner.TypeError_format_None
      else Py.Ok (discovered
                    ++ filter (eligibleb settings exclude_ids min_volume) all_markets).
Proof.
  induction all_markets as [| m rest IH]; intros discovered.
  - cbn. rewrite app_nil_r. reflexivity.
  - cbn [SignalScanner.discover_loop existsb filter].
    unfold unpriced_candidate at 1, eligibleb at 1.
    destruct (SignalScanner.in_ids (Market.id m) exclude_ids); cbn [negb andb orb];
      [apply IH |].
    destruct (Py.lt (Market.volume m) min_volume); cbn [negb andb orb]; [apply IH |].
    destruct (Market.current_price m) as [price |]; cbn [Py.is_None orb];
      [| reflexivity].
    destruct (Py.lt price (Settings.min_price_for_signals settings));
      cbn [negb andb]; [apply IH |].
    destruct (Py.gt price (Settings.max_price_for_signals settings));
      cbn [negb andb]; [apply IH |].
    rewrite IH. destruct (existsb _ rest); [reflexivity |].
    rewrite <- app_assoc. reflexivity.
Qed.

Lemma insert_by_volume_In (m x : Market.t) (sorted : list Market.t) :
  In x (SignalScanner.insert_by_volume m sorted) <-> x = m \/ In x sorted.
Proof.
  induction sorted as [| y rest IH]; cbn [SignalScanner.insert_by_volume].
  - cbn. intuition.
  - destruct (Py.lt (Market.volume y) (Market.volume m)); cbn [In].
    + intuition.
    + rewrite IH. intuition.
Qed.

Lemma insert_by_volume_sorted (m : Market.t) (sorted : list Market.t) :
  by_volume_descending sorted ->
  by_volume_descending (SignalScanner.insert_by_volume m sorted).
Proof.
  unfold by_volume_descending.
  induction 1 as [| y rest Hrest IH Hy]; cbn [SignalScanner.insert_by_volume].
  - repeat constructor.
  - destruct (Py.lt (Market.volume y) (Market.volume m)) eqn:Hlt; py_props.
    + constructor; [constructor; assumption |].
      constructor; [lra |].
      rewrite Forall_forall in *. intros z Hz. specialize (Hy z Hz). lra.
    + constructor; [exact IH |].
      rewrite Forall_forall in *. intros z Hz.
      apply insert_by_volume_In in Hz as [-> | Hz]; [exact Hlt | exact (Hy z Hz)].
Qed.

Lemma sort_by_volume_spec (discovered : list Market.t) :
  by_volume_descending (SignalScanner.sort_by_volume discovered)
  /\ forall x, In x (SignalScanner.sort_by_volume discovered) <-> In x discovered.
Proof.
  unfold SignalScanner.sort_by_volume.
  assert (H : forall acc,
            by_volume_descending acc ->
            by_volume_descending
              (fold_left (fun sorted m => SignalScanner.insert_by_volume m sorted)
                 discovered acc)
            /\ forall x,
                 In x (fold_left (fun sorted m => SignalScanner.insert_by_volume m sorted)
                         discovered acc)
                 <-> In x discovered \/ In x acc).
  { induction discovered as [| m rest IH]; intros acc Hacc; cbn [fold_left].
    - split; [exact Hacc | cbn; intuition].
    - destruct (IH _ (insert_by_volume_sorted m acc Hacc)) as [Hsorted Hin].
      split; [exact Hsorted |].
      intros x. rewrite Hin, insert_by_volume_In. cbn [In]. intuition. }
  destruct (H [] (SSorted_nil _)) as [Hsorted Hin].
  split; [exact Hsorted |]. intros x. rewrite Hin. cbn [In]. intuition.
Qed.

Lemma slice_to_firstn {A : Type} (n : Z) (l : list A) :
  exists k : nat,
    SignalScanner.slice_to n l = firstn k l
    /\ ((0 <= n)%Z -> (Z.of_nat k <= n)%Z).
Proof.
  unfold SignalScanner.slice_to. destruct (Z.ltb_spec n 0).
  - eexists. split; [reflexivity | lia].
  - exists (Z.to_nat n). split; [reflexivity | lia].
Qed.

Lemma firstn_incl {A : Type} (k : nat) (l : list A) (x : A) :
  In x (firstn k l) -> In x l.
Proof.
  intros Hin. rewrite <- (firstn_skipn k l). apply in_or_app. left. exact Hin.
Qed.

Lemma firstn_sorted (k : nat) (l : list Market.t) :
  by_volume_descending l -> by_volume_descending (firstn k l).
Proof.
  unfold by_volume_descending. intros Hl. revert k.
  induction Hl as [| x rest Hrest IH Hx]; intros [| k]; cbn [firstn];
    try constructor.
  - apply IH.
  - rewrite Forall_forall in *. intros z Hz. apply Hx.
    exact (firstn_incl _ _ _ Hz).
Qed.

(** In a list sorted by volume, what [firstn] leaves out is not above what
    it keeps. *)
Lemma firstn_takes_the_top (k : nat) (l : list Market.t) :
  by_volume_descending l ->
  forall m m', In m (firstn k l) -> In m' l -> ~ In m' (firstn k l) ->
               Market.volume m' <= Market.volume m.
Proof.
  unfold by_volume_descending. intros Hl. revert k.
  induction Hl as [| x rest Hrest IH Hx]; intros k m m' Hm Hm' Hout.
  - destruct Hm'.
  - destruct k as [| k]; [destruct Hm |].
    cbn [firstn In] in Hm, Hout.
    destruct Hm' as [-> | Hm']; [exfalso; apply Hout; left; reflexivity |].
    destruct Hm as [<- | Hm].
    + rewrite Forall_forall in Hx. exact (Hx m' Hm').
    + apply (IH k m m' Hm Hm'). intros Hin. apply Hout. right. exact Hin.
Qed.

(** [_discover_markets] does not raise on a failure inside [Exception].
    Every market it returns passed the filters (not excluded, volume at least
    [min_volume], priced within the signal bounds) and has a slug; the
    markets come by volume, largest first; for a [max_markets] that is not
    negative there are at most [max_markets] of them; and when it returns any
    market at all, no eligible market it left out has a larger volume than
    one it returned. *)
Theorem discover_markets_selects_top_volume :
  forall (settings : Settings.t) (get_markets : Py.outcome (list Market.t))
         (exclude_ids : list string) (max_markets : Z) (min_volume : Q),
    caught get_markets ->
    exists result : list Market.t,
      SignalScanner._discover_markets settings get_markets exclude_ids max_markets
        min_volume = Py.Ok result
      /\ Forall (fun m => eligible settings exclude_ids min_volume m
                          /\ Market.slug m <> None
                          /\ exists all, get_markets = Py.Ok all /\ In m all) result
      /\ by_volume_descending result
      /\ ((0 <= max_markets)%Z -> (Z.of_nat (List.length result) <= max_markets)%Z)
      /\ (result <> [] ->
          forall all m m',
            get_markets = Py.Ok all ->
            In m result -> In m' all ->
            eligible settings exclude_ids min_volume m' -> ~ In m' result ->
            Market.volume m' <= Market.volume m).
Proof.
  intros settings get_markets exclude_ids max_markets min_volume Hcaught.
  assert (Hempty : exists result : list Market.t,
             Py.Ok (A := list Market.t) [] = Py.Ok result
             /\ Forall (fun m => eligible settings exclude_ids min_volume m
                                 /\ Market.slug m <> None
                                 /\ exists all, get_markets = Py.Ok all /\ In m all) result
             /\ by_volume_descending result
             /\ ((0 <= max_markets)%Z ->
                 (Z.of_nat (List.length result) <= max_markets)%Z)
             /\ (result <> [] ->
                 forall all m m',
                   get_markets = Py.Ok all ->
                   In m result -> In m' all ->
                   eligible settings exclude_ids min_volume m' -> ~ In m' result ->
                   Market.volume m' <= Market.volume m)).
  { exists []. split; [reflexivity |]. split; [constructor |].
    split; [constructor |]. split; [cbn; lia |]. intros Hne. contradiction. }
  unfold SignalScanner._discover_markets.
  destruct get_markets as [all | e]; cbn [Py.bind SignalScanner.except_Exception].
  2:{ cbn in Hcaught. rewrite Hcaught. exact Hempty. }
  rewrite discover_loop_closed_form. cbn [app].
  destruct (existsb (unpriced_candidate exclude_ids min_volume) all);
    cbn [Py.bind SignalScanner.except_Exception SignalScanner.TypeError_format_None
         Py.isinstance_Exception]; [exact Hempty |].
  cbv zeta.
  set (eligible_ones := filter (eligibleb settings exclude_ids min_volume) all).
  destruct (sort_by_volume_spec eligible_ones) as [Hsorted Hin].
  destruct (slice_to_firstn max_markets (SignalScanner.sort_by_volume eligible_ones))
    as (k & Hslice & Hk).
  rewrite Hslice.
  set (result := firstn k (SignalScanner.sort_by_volume eligible_ones)).
  assert (Hresult : forall m, In m result ->
                              In m all /\ eligible settings exclude_ids min_volume m).
  { intros m Hm. apply firstn_incl in Hm. apply Hin in Hm.
    apply filter_In in Hm as [Hall Hel]. split; [exact Hall |].
    apply eligibleb_true, Hel. }
  unfold SignalScanner.log_discovered.
  destruct result as [| m0 rest] eqn:Hres; cbn [Py.bind]; [exact Hempty |].
  rewrite <- Hres in *.
  destruct (existsb (fun m => Py.is_None (Market.slug m)) result) eqn:Hslug;
    cbn [Py.bind SignalScanner.except_Exception SignalScanner.TypeError_subscript_None
         Py.isinstance_Exception]; [exact Hempty |].
  exists result. split; [reflexivity |]. split; [| split; [| split]].
  - apply Forall_forall. intros m Hm. destruct (Hresult m Hm) as [Hall Hel].
    split; [exact Hel |]. split.
    + intros Hnone.
      assert (Hex : existsb (fun m => Py.is_None (Market.slug m)) result = true)
        by (apply existsb_exists; exists m; split; [exact Hm | rewrite Hnone; reflexivity]).
      congruence.
    + exists all. split; [reflexivity | exact Hall].
  - apply firstn_sorted, Hsorted.
  - intros Hmax. specialize (Hk Hmax).
    pose proof (firstn_le_length k (SignalScanner.sort_by_volume eligible_ones)) as Hlen.
    fold result in Hlen. lia.
  - intros _ all' m m' Hall Hm Hm' Hel Hout. injection Hall as <-.
    apply (firstn_takes_the_top k (SignalScanner.sort_by_volume eligible_ones) Hsorted
             m m' Hm); [| exact Hout].
    apply Hin, filter_In. split; [exact Hm' | apply eligibleb_true, Hel].
Qed.

(** One market without a price among the markets that are not excluded and
    have the volume empties the discovery: the debug line written for it
    raises, and the handler returns the empty list, whatever else was
    fetched. *)
Theorem discover_markets_empty_on_unpriced_candidate :
  forall (settings : Settings.t) (all : list Market.t) (exclude_ids : list string)
         (max_markets : Z) (min_volume : Q) (m : Market.t),
    In m all ->
    ~ In (Market.id m) exclude_ids ->
    min_volume <= Market.volume m ->
    Market.current_price m = None ->
    SignalScanner._discover_markets settings (Py.Ok all) exclude_ids max_markets
      min_volume = Py.Ok [].
Proof.
  intros settings all exclude_ids max_markets min_volume m Hin Hid Hvol Hprice.
  unfold SignalScanner._discover_markets. cbn [Py.bind].
  rewrite discover_loop_closed_form.
  assert (Hex : existsb (unpriced_candidate exclude_ids min_volume) all = true).
  { apply existsb_exists. exists m. split; [exact Hin |].
    unfold unpriced_candidate. rewrite Hprice.
    rewrite !andb_true_iff, !negb_true_iff. repeat split.
    - apply not_true_iff_false. rewrite in_ids_true. exact Hid.
    - apply Py_lt_false. exact Hvol. }
  rewrite Hex. reflexivity.
Qed.

(** Of three markets above the volume floor, the one priced at 0.99 is
    dropped and the other two come largest first. *)
Lemma discover_markets_witness :
  exists result : list Market.t,
    SignalScanner._discover_markets Settings.default (Py.Ok Examples.priced_markets)
      [] 5 1000000 = Py.Ok result
    /\ by_volume_descending result.
Proof.
  destruct (discover_markets_selects_top_volume Settings.default
              (Py.Ok Examples.priced_markets) [] 5 1000000 I)
    as (result & Hrun & _ & Hsorted & _).
  exists result. split; [exact Hrun | exact Hsorted].
Defined.

(** The same three markets and one without a price. *)
Lemma discover_markets_empty_witness :
  SignalScanner._discover_markets Settings.default
    (Py.Ok (Examples.priced_markets ++ [Examples.unpriced_market]))
    [] 5 1000000 = Py.Ok [].
Proof.
  apply (discover_markets_empty_on_unpriced_candidate Settings.default
           (Examples.priced_markets ++ [Examples.unpriced_market]) [] 5 1000000
           Examples.unpriced_market).
  - apply in_or_app. right. left. reflexivity.
  - intros [].
  - discriminate.
  - reflexivity.
Defined.

(* ================================================================== *)
(** ** The markets of a scan *)






(* ================================================================== *)
(** ** A scan without its context *)

(** A failure of the news or the social source inside [Exception] does not
    fail the scan of the market: [scan_market] is [process_market], without
    persistence, on the context that did arrive. A failed news call reads as
    no news; a failure of either social call drops both social answers, the
    mentions that had arrived included. *)
Theorem scan_market_continues_without_context :
  forall (settings : Settings.t) (observe : Market.t -> SignalScanner.observation)
         (market : Market.t) (generator : SignalGenerator.t),
    sources_caught (observe market) ->
    SignalScanner.scan_market settings observe market generator
    = SignalGenerator.process_market generator
        (SignalScanner.process_env (observe market)) market
        (news_context settings (observe market))
        (fst (social_context settings (observe market)))
        (snd (social_context settings (observe market)))
        false.
Proof.
  intros settings observe market generator (Hnews & Hmentions & Hsentiment).
  unfold SignalScanner.scan_market, SignalScanner._get_news_sentiment,
    SignalScanner._get_social_data, news_context, social_context,
    SignalScanner.except_Exception.
  destruct (Settings.skip_news_api settings);
    destruct (Settings.skip_social_api settings);
    destruct (SignalScanner.news_answer (observe market)) as [news | e1];
    cbn in Hnews; rewrite ?Hnews;
    destruct (SignalScanner.mentions_answer (observe market)) as [mentions | e2];
    cbn in Hmentions, Hsentiment; cbn [Py.bind]; rewrite ?Hmentions;
    try reflexivity;
    specialize (Hsentiment eq_refl);
    destruct (SignalScanner.sentiment_answer (observe market)) as [sentiment | e3];
    cbn in Hsentiment; cbn [Py.bind]; rewrite ?Hsentiment; reflexivity.
Qed.

(* ================================================================== *)
(** ** Market tiers *)

(** [compute_tier] is monotone in the volume: a market with at least the
    volume of another is of at least its tier, in the order THIN < LOW <
    MEDIUM < HIGH that the generator's quality filter uses. *)
Theorem compute_tier_monotone :
  forall m1 m2 : Market.t,
    Market.volume m1 <= Market.volume m2 ->
    (SignalGenerator.tier_order_get (MarketTier_value (Market.compute_tier m1)) 0
     <= SignalGenerator.tier_order_get (MarketTier_value (Market.compute_tier m2)) 0)%Z.
Proof.
  intros m1 m2 Hvol. unfold Market.compute_tier.
  destruct (Py.lt (Market.volume m1) 10000) eqn:H1;
    destruct (Py.lt (Market.volume m1) 27000) eqn:H2;
    destruct (Py.lt (Market.volume m1) 95000) eqn:H3;
    destruct (Py.lt (Market.volume m2) 10000) eqn:H4;
    destruct (Py.lt (Market.volume m2) 27000) eqn:H5;
    destruct (Py.lt (Market.volume m2) 95000) eqn:H6;
    cbn; try lia; py_props; lra.
Qed.

(** The thin market of the examples against the market of volume 100000. *)
Lemma compute_tier_monotone_witness :
  (SignalGenerator.tier_order_get
     (MarketTier_value (Market.compute_tier Examples.closed_thin_market)) 0
   <= SignalGenerator.tier_order_get
        (MarketTier_value (Market.compute_tier Examples.archived_market)) 0)%Z.
Proof.
  apply (compute_tier_monotone Examples.closed_thin_market Examples.archived_market).
  cbn. unfold Qle. cbn. lia.
Defined.

(* ================================================================== *)
(** ** The manual tracking update *)

Lemma continues_refl (t : TrackingRoutes.tally) : continues 0 t t.
Proof.
  split; [cbn; lia |]. split; [reflexivity |].
  exists []. rewrite app_nil_r. repeat split. constructor.
Qed.

Lemma continues_step (n : nat) (t t1 t2 : TrackingRoutes.tally) :
  continues 1 t t1 -> continues n t1 t2 -> continues (S n) t t2.
Proof.
  intros (Hsum1 & Hexp1 & new1 & Hd1 & Hlen1 & Hall1)
         (Hsum2 & Hexp2 & new2 & Hd2 & Hlen2 & Hall2).
  split; [lia |]. split; [congruence |].
  exists (new1 ++ new2). split; [rewrite Hd2, Hd1, app_assoc; reflexivity |].
  split; [rewrite length_app; lia | apply Forall_app; split; assumption].
Qed.

(** What [report] adds for a signal whose status either stayed, or went from
    ACTIVE to a resolved one. *)
Lemma report_continues (s s' : Signal.t) (t : TrackingRoutes.tally) :
  Signal.status s' = Signal.status s
  \/ (Signal.status s = ACTIVE
      /\ (Signal.status s' = RESOLVED_WIN \/ Signal.status s' = RESOLVED_LOSS)) ->
  continues 1 t (TrackingRoutes.report (SignalStatus_value (Signal.status s)) s' t).
Proof.
  intros Hstatus. unfold TrackingRoutes.report. cbv zeta.
  assert (Hcases :
            (String.eqb (SignalStatus_value (Signal.status s'))
               (SignalStatus_value (Signal.status s)) = true)
            \/ (String.eqb (SignalStatus_value (Signal.status s'))
                  (SignalStatus_value (Signal.status s)) = false
                /\ TrackingRoutes.contains "RESOLVED"
                     (SignalStatus_value (Signal.status s')) = true)).
  { destruct Hstatus as [-> | (-> & [-> | ->])].
    - left. apply String.eqb_refl.
    - right. split; reflexivity.
    - right. split; reflexivity. }
  destruct Hcases as [-> | (-> & ->)]; cbn [negb];
    (split; [cbn; lia |]); (split; [reflexivity |]);
    eexists; (split; [reflexivity |]); (split; [reflexivity |]);
    constructor; [| constructor | | constructor].
  - left. reflexivity.
  - right. left. reflexivity.
Qed.

Lemma report_error_continues (s : Signal.t) (e : Py.exn) (t : TrackingRoutes.tally) :
  continues 1 t (TrackingRoutes.report_error s e t).
Proof.
  unfold TrackingRoutes.report_error.
  split; [cbn; lia |]. split; [reflexivity |].
  eexists. split; [reflexivity |]. split; [reflexivity |].
  constructor; [| constructor]. right. right. reflexivity.
Qed.

Lemma status_after_update (tk : SignalTracker.tick) (st : SignalTracker.state) :
  let s := SignalTracker.signal st in
  let s' := SignalTracker.signal (fst (SignalTracker.update_signal_tracking tk st)) in
  Signal.status s' = Signal.status s
  \/ (Signal.status s = ACTIVE
      /\ (Signal.status s' = RESOLVED_WIN \/ Signal.status s' = RESOLVED_LOSS)).
Proof.
  cbv zeta.
  destruct (update_signal_tracking_resolution tk st)
    as [(Hst & _) | (Hactive & _ & market & _ & _ & price & gain & _ & _ & Hst & _)].
  - left. exact Hst.
  - right. split; [exact Hactive |]. rewrite Hst.
    destruct (Py.gt gain 0); [left | right]; reflexivity.
Qed.

Lemma route_update_loop_continues (active : list (Signal.t * SignalTracker.tick)) :
  Forall (fun x => caught (snd (tracked_alone x))) active ->
  forall (writes : list Signal.t) (t : TrackingRoutes.tally),
    exists signals writes' t',
      TrackingRoutes.update_loop active writes t = (signals, writes', Py.Ok t')
      /\ continues (List.length active) t t'.
Proof.
  induction 1 as [| [signal tk] rest Hx _ IH]; intros writes t.
  - do 3 eexists. split; [reflexivity | apply continues_refl].
  - cbn [TrackingRoutes.update_loop]. cbv zeta.
    pose proof (status_after_update tk (SignalTracker.mkState signal writes)) as Hstatus.
    cbv zeta in Hstatus. cbn [SignalTracker.signal] in Hstatus.
    pose proof (framed_update_signal_tracking tk signal writes) as Hframe.
    unfold tracked_alone in Hx. cbn [fst snd] in Hx.
    destruct (SignalTracker.update_signal_tracking tk
                (SignalTracker.mkState signal writes)) as [st [[] | e]].
    + destruct (IH (SignalTracker.db_updates st)
                  (TrackingRoutes.report (SignalStatus_value (Signal.status signal))
                     (SignalTracker.signal st) t))
        as (signals & writes' & t' & Hrun & Hcont).
      rewrite Hrun. do 3 eexists. split; [reflexivity |].
      cbn [List.length]. eapply continues_step; [| exact Hcont].
      apply report_continues. exact Hstatus.
    + injection Hframe as _ He. rewrite <- He in Hx. cbn in Hx. rewrite Hx.
      destruct (IH (SignalTracker.db_updates st)
                  (TrackingRoutes.report_error (SignalTracker.signal st) e t))
        as (signals & writes' & t' & Hrun & Hcont).
      rewrite Hrun. do 3 eexists. split; [reflexivity |].
      cbn [List.length]. eapply continues_step; [| exact Hcont].
      apply report_error_continues.
Qed.

(** The manual update accounts for every active signal exactly once: when
    the per-signal exceptions are inside [Exception] and the expiry sweep
    returns, the response exists, [signals_updated + signals_resolved +
    errors] is the number of active signals, there is one detail per signal
    and each says updated, resolved or error; the loop itself reports no
    signal as expired, so that [signals_expired] is the count of the expiry
    sweep; and the time of the run is recorded. *)
Theorem trigger_tracking_update_accounts_for_every_signal :
  forall (tracking_expire_days : Z) (active : list (Signal.t * SignalTracker.tick))
         (clock_cutoff : Z)
         (again : Py.outcome (list (Signal.t * SignalTracker.expiry)))
         (clock : Z) (expired_count : Z),
    Forall (fun x => caught (snd (tracked_alone x))) active ->
    snd (SignalTracker.expire_stale_signals clock_cutoff tracking_expire_days again)
      = Py.Ok expired_count ->
    exists writes response,
      TrackingRoutes.trigger_tracking_update tracking_expire_days (Py.Ok active)
        clock_cutoff again clock
      = (writes, Some (datetime.now_utc clock), Py.Ok response)
      /\ (TrackingRoutes.signals_updated response
          + TrackingRoutes.signals_resolved response
          + TrackingRoutes.errors response = Z.of_nat (List.length active))%Z
      /\ TrackingRoutes.signals_expired response = expired_count
      /\ List.length (TrackingRoutes.details response) = List.length active
      /\ Forall reported_once (TrackingRoutes.details response)
      /\ TrackingRoutes.update_time response = datetime.now_utc clock.
Proof.
  intros tracking_expire_days active clock_cutoff again clock expired_count
    Hcaught Hexpire.
  unfold TrackingRoutes.trigger_tracking_update.
  destruct (route_update_loop_continues active Hcaught []
              (TrackingRoutes.mkTally 0 0 0 0 []))
    as (signals & writes & t & Hrun & Hsum & Hexp & new & Hd & Hlen & Hall).
  rewrite Hrun.
  destruct (SignalTracker.expire_stale_signals clock_cutoff tracking_expire_days again)
    as [[expired_signals expired_writes] o].
  cbn [snd] in Hexpire. subst o. cbv zeta.
  do 2 eexists. split; [reflexivity |].
  cbn [TrackingRoutes.signals_updated TrackingRoutes.signals_resolved
       TrackingRoutes.errors TrackingRoutes.signals_expired TrackingRoutes.details
       TrackingRoutes.update_time].
  cbn [TrackingRoutes.tally_updated TrackingRoutes.tally_resolved
       TrackingRoutes.tally_errors TrackingRoutes.tally_expired
       TrackingRoutes.tally_details app] in Hsum, Hexp, Hd.
  split; [lia |]. split; [lia |]. rewrite Hd.
  split; [exact Hlen |]. split; [exact Hall | reflexivity].
Qed.

(** Two signals a day old, the store refusing the first; no signal is
    stale: one updated, one error, none expired. *)
Lemma trigger_tracking_update_witness :
  exists writes response,
    TrackingRoutes.trigger_tracking_update 30
      (Py.Ok [(Examples.signal BUY 0.40, Examples.tick_refused (30 * Examples.hour) 0.60);
              (Examples.signal SELL 0.40, Examples.tick (30 * Examples.hour) 0.60)])
      (30 * Examples.hour) (Py.Ok []) (30 * Examples.hour)
    = (writes, Some (datetime.now_utc (30 * Examples.hour)), Py.Ok response)
    /\ TrackingRoutes.signals_expired response = 0%Z.
Proof.
  destruct (trigger_tracking_update_accounts_for_every_signal 30
              [(Examples.signal BUY 0.40, Examples.tick_refused (30 * Examples.hour) 0.60);
               (Examples.signal SELL 0.40, Examples.tick (30 * Examples.hour) 0.60)]
              (30 * Examples.hour) (Py.Ok []) (30 * Examples.hour) 0)
    as (writes & response & Hrun & _ & Hexpired & _).
  - repeat constructor.
  - reflexivity.
  - exists writes, response. split; [exact Hrun | exact Hexpired].
Defined.

(** The news source is down and the social API is skipped: the market is
    processed without context. *)
Lemma scan_market_witness :
  SignalScanner.scan_market Settings.default
    (fun _ => SignalScanner.mkObservation (Py.Raise (Py.Exception "news down"))
                (Py.Ok None) (Py.Ok None) Examples.env)
    (Examples.market "m1" 50000 (Some 0.40)) Examples.generator
  = SignalGenerator.process_market Examples.generator Examples.env
      (Examples.market "m1" 50000 (Some 0.40)) None None None false.
Proof.
  rewrite (scan_market_continues_without_context Settings.default
             (fun _ => SignalScanner.mkObservation (Py.Raise (Py.Exception "news down"))
                         (Py.Ok None) (Py.Ok None) Examples.env)
             (Examples.market "m1" 50000 (Some 0.40)) Examples.generator).
  - reflexivity.
  - split; [reflexivity |]. split; [exact I |]. intros _. exact I.
Defined.

(* ================================================================== *)
(** ** The scan of the generator *)

Lemma run_scan_loop_first_failure (envs : nat -> SignalGenerator.env)
    (get_news_sentiment : option (Market.t -> Py.outcome (option NewsSentiment.t)))
    (get_social_mentions : option (Market.t -> Py.outcome (option SocialMention.t)))
    (get_social_sentiment : option (Market.t -> Py.outcome (option SocialSentiment.t)))
    (persist : bool) (markets : list Market.t) :
  forall (i : nat) (self : SignalGenerator.t) (all_signals : list Signal.t),
    let t := ScanSpec.trace (nat * SignalGenerator.t)
               (generator_step envs get_news_sentiment get_social_mentions
                  get_social_sentiment persist) markets (i, self) in
    snd (SignalGenerator.run_scan_loop self envs i markets get_news_sentiment
           get_social_mentions get_social_sentiment persist all_signals)
    = match first_failure t with
      | Some (_, e) => Py.Raise e
      | None => Py.Ok (all_signals ++ ScanSpec.succeeded_signals t)
      end.
Proof.
  induction markets as [| market rest IH]; intros i self all_signals; cbv zeta.
  - cbn. rewrite app_nil_r. reflexivity.
  - assert (Hstep :
              generator_step envs get_news_sentiment get_social_mentions
                get_social_sentiment persist market (i, self)
              = let (self', o) :=
                  SignalGenerator.scan_one self (envs i) market get_news_sentiment
                    get_social_mentions get_social_sentiment persist in
                ((S i, self'), o)) by reflexivity.
    cbn [SignalGenerator.run_scan_loop ScanSpec.trace]. rewrite Hstep. clear Hstep.
    destruct (SignalGenerator.scan_one self (envs i) market get_news_sentiment
                get_social_mentions get_social_sentiment persist)
      as [self' [signals | e]].
    + cbn [first_failure]. unfold ScanSpec.succeeded_signals. cbn [flat_map snd].
      specialize (IH (S i) self' (all_signals ++ signals)). cbv zeta in IH.
      rewrite IH.
      destruct (first_failure _) as [[m e] |]; [reflexivity |].
      unfold ScanSpec.succeeded_signals. rewrite <- app_assoc. reflexivity.
    + reflexivity.
Qed.

(** The generator's own [run_scan] does not isolate the markets: it returns
    the signals of all markets, in order, only if no market raises; the
    first market whose contexts raise outside [Exception] or whose
    [process_market] raises at all ends the scan with that exception, and
    the signals of the markets before it are not returned. *)
Theorem generator_run_scan_stops_at_first_failure :
  forall (self : SignalGenerator.t) (envs : nat -> SignalGenerator.env)
         (markets : list Market.t)
         (get_news_sentiment : option (Market.t -> Py.outcome (option NewsSentiment.t)))
         (get_social_mentions : option (Market.t -> Py.outcome (option SocialMention.t)))
         (get_social_sentiment :
            option (Market.t -> Py.outcome (option SocialSentiment.t)))
         (persist : bool),
    let t := ScanSpec.trace (nat * SignalGenerator.t)
               (generator_step envs get_news_sentiment get_social_mentions
                  get_social_sentiment persist) markets (0%nat, self) in
    let result := snd (SignalGenerator.run_scan self envs markets get_news_sentiment
                         get_social_mentions get_social_sentiment persist) in
    (first_failure t = None -> result = Py.Ok (ScanSpec.succeeded_signals t))
    /\ (forall market e, first_failure t = Some (market, e) -> result = Py.Raise e)
    /\ (first_failure t = None <-> Forall (fun x => ScanSpec.succeeded x = true) t).
Proof.
  intros self envs markets get_news_sentiment get_social_mentions
    get_social_sentiment persist. cbv zeta.
  unfold SignalGenerator.run_scan.
  pose proof (run_scan_loop_first_failure envs get_news_sentiment get_social_mentions
                get_social_sentiment persist markets 0 self []) as Hrun.
  cbv zeta in Hrun. rewrite Hrun. clear Hrun.
  split; [intros ->; reflexivity |].
  split; [intros market e ->; reflexivity |].
  generalize (ScanSpec.trace (nat * SignalGenerator.t)
                (generator_step envs get_news_sentiment get_social_mentions
                   get_social_sentiment persist) markets (0%nat, self)).
  intros t. induction t as [| [market [signals | e]] rest IH]; cbn [first_failure].
  - split; [constructor | reflexivity].
  - rewrite IH. split.
    + intros Hrest. constructor; [reflexivity | exact Hrest].
    + intros Hall. inversion Hall. assumption.
  - split; [discriminate |]. intros Hall. inversion Hall as [| ? ? Hx _].
    discriminate Hx.
Qed.

(* ================================================================== *)
(** ** Persisting the signals of a scan *)

Lemma create_signals_prefix (create_signal : nat -> Py.outcome unit)
    (signals : list Signal.t) :
  forall (i : nat) (created : list Signal.t),
    exists k : nat,
      fst (SignalScanner.create_signals create_signal i signals created)
        = created ++ firstn k signals
      /\ (k <= List.length signals)%nat
      /\ (forall j, (j < k)%nat -> returned (create_signal (i + j)%nat) = true)
      /\ ((k = List.length signals
           /\ snd (SignalScanner.create_signals create_signal i signals created)
              = Py.Ok tt)
          \/ ((k < List.length signals)%nat
              /\ returned (create_signal (i + k)%nat) = false
              /\ snd (SignalScanner.create_signals create_signal i signals created)
                 = create_signal (i + k)%nat)).
Proof.
  induction signals as [| signal rest IH]; intros i created.
  - exists 0%nat. cbn. rewrite app_nil_r.
    split; [reflexivity |]. split; [lia |]. split; [intros j Hj; lia |].
    left. split; reflexivity.
  - cbn [SignalScanner.create_signals].
    destruct (create_signal i) as [[] | e] eqn:Hcreate.
    + destruct (IH (S i) (created ++ [signal])) as (k & Hfst & Hle & Hok & Hend).
      exists (S k). cbn [firstn List.length].
      split; [rewrite Hfst, <- app_assoc; reflexivity |].
      split; [lia |]. split.
      * intros [| j] Hj; [rewrite Nat.add_0_r, Hcreate; reflexivity |].
        rewrite Nat.add_succ_r. apply (Hok j). lia.
      * rewrite Nat.add_succ_r.
        destruct Hend as [(Hk & Hsnd) | (Hk & Hfail & Hsnd)];
          [left; split; [lia | exact Hsnd]
          | right; split; [lia | split; [exact Hfail | exact Hsnd]]].
    + exists 0%nat. cbn [firstn fst snd List.length]. rewrite app_nil_r, Nat.add_0_r.
      split; [reflexivity |]. split; [lia |]. split; [intros j Hj; lia |].
      right. split; [lia |]. rewrite Hcreate. split; reflexivity.
Qed.

(** [_persist_signals] does not raise on failures inside [Exception], and
    it does not report them: it stores the signals in order up to the first
    [create_signal] that fails and none after it, and no signal at all when
    the client cannot be obtained or the upsert of the markets fails. *)
Theorem persist_signals_stores_a_prefix :
  forall (get_supabase_client upsert_markets : Py.outcome unit)
         (create_signal : nat -> Py.outcome unit)
         (signals : list Signal.t) (markets : list Market.t),
    caught get_supabase_client ->
    caught upsert_markets ->
    (forall i, caught (create_signal i)) ->
    exists (upserted : list Market.t) (k : nat),
      SignalScanner._persist_signals get_supabase_client upsert_markets create_signal
        signals markets
      = (upserted, firstn k signals, Py.Ok tt)
      /\ (k <= List.length signals)%nat
      /\ (forall j, (j < k)%nat -> returned (create_signal j) = true)
      /\ (store_reached get_supabase_client upsert_markets markets = false ->
          k = 0%nat /\ upserted = [])
      /\ (store_reached get_supabase_client upsert_markets markets = true ->
          upserted = markets
          /\ (k = List.length signals \/ returned (create_signal k) = false)).
Proof.
  intros get_supabase_client upsert_markets create_signal signals markets
    Hclient Hupsert Hcreate.
  unfold SignalScanner._persist_signals, store_reached.
  destruct get_supabase_client as [[] | e]; cbn [returned andb].
  2:{ cbn in Hclient. cbn [SignalScanner.except_Exception]. rewrite Hclient.
      exists [], 0%nat. cbn [firstn].
      split; [reflexivity |]. split; [lia |]. split; [intros j Hj; lia |].
      split; [intros _; split; reflexivity | discriminate]. }
  assert (Hstore :
            forall o : Py.outcome unit,
              caught o ->
              (o = Py.Ok tt \/ exists e, o = Py.Raise e /\ Py.isinstance_Exception e = true)).
  { intros [[] | e] Ho; [left; reflexivity | right; exists e; split; [reflexivity | exact Ho]]. }
  assert (Hmain :
            exists k : nat,
              (let (created, o) := SignalScanner.create_signals create_signal 0 signals [] in
               (markets, created, SignalScanner.except_Exception o tt))
              = (markets, firstn k signals, Py.Ok tt)
              /\ (k <= List.length signals)%nat
              /\ (forall j, (j < k)%nat -> returned (create_signal j) = true)
              /\ (k = List.length signals \/ returned (create_signal k) = false)).
  { destruct (create_signals_prefix create_signal signals 0 [])
      as (k & Hfst & Hle & Hok & Hend).
    exists k.
    destruct (SignalScanner.create_signals create_signal 0 signals []) as [created o].
    cbn [fst snd app Nat.add] in *. subst created.
    split; [| split; [exact Hle | split; [exact Hok |]]].
    - destruct Hend as [(_ & ->) | (_ & Hfail & ->)]; [reflexivity |].
      specialize (Hcreate k).
      destruct (create_signal k) as [[] | e]; [discriminate Hfail |].
      cbn in Hcreate. cbn [SignalScanner.except_Exception]. rewrite Hcreate.
      reflexivity.
    - destruct Hend as [(Hk & _) | (_ & Hfail & _)]; [left | right]; assumption. }
  destruct markets as [| market rest].
  - destruct Hmain as (k & Hrun & Hle & Hok & Hend).
    exists [], k. split; [exact Hrun |]. split; [exact Hle |]. split; [exact Hok |].
    split; [discriminate |]. intros _. split; [reflexivity | exact Hend].
  - destruct (Hstore upsert_markets Hupsert) as [-> | (e & -> & He)]; cbn [returned].
    + destruct Hmain as (k & Hrun & Hle & Hok & Hend).
      exists (market :: rest), k. split; [exact Hrun |]. split; [exact Hle |].
      split; [exact Hok |]. split; [discriminate |].
      intros _. split; [reflexivity | exact Hend].
    + cbn [SignalScanner.except_Exception]. rewrite He.
      exists [], 0%nat. cbn [firstn].
      split; [reflexivity |]. split; [lia |]. split; [intros j Hj; lia |].
      split; [intros _; split; reflexivity | discriminate].
Qed.

(** Two signals, the store failing on the first: nothing is stored, nothing
    is raised. *)
Lemma persist_signals_witness :
  exists upserted,
    SignalScanner._persist_signals (Py.Ok tt) (Py.Ok tt)
      (fun _ => Py.Raise (Py.Exception "connection reset"))
      [Examples.signal BUY 0.40; Examples.signal SELL 0.40]
      [Examples.market "m1" 50000 (Some 0.40)]
    = (upserted, [], Py.Ok tt).
Proof.
  destruct (persist_signals_stores_a_prefix (Py.Ok tt) (Py.Ok tt)
              (fun _ => Py.Raise (Py.Exception "connection reset"))
              [Examples.signal BUY 0.40; Examples.signal SELL 0.40]
              [Examples.market "m1" 50000 (Some 0.40)] I I)
    as (upserted & k & Hrun & _ & Hok & _).
  - intros i. reflexivity.
  - exists upserted. rewrite Hrun.
    destruct k as [| k]; [reflexivity |].
    specialize (Hok 0%nat (Nat.lt_0_succ k)). discriminate Hok.
Defined.
